(** * Crash-game scraper and its dashboard: a shallow embedding

    The development follows the two Python programs of the repository:

    - [Classe_webscrapper/cls_webscrapper.py], class [ImprovedWebScraper]:
      URL discovery, the polling loop that appends rows to a CSV file, the
      file names, the clean-up of the browser session;
    - [frontend.py], class [ScraperUI]: the Streamlit page that starts the
      scraper as a child process, reads the newest log file and stops the
      child.

    The browser, the clock, the file system and the child process are the
    environment.  The scraper runs in a small state-and-exception monad over
    a [state]; what the browser shows is given by scripts (one entry per page
    load, one entry per polling cycle).  Time is counted in milliseconds
    ([time.sleep(0.8)] is 800). *)

From Stdlib Require Import ZArith List String Ascii Bool Lia DecimalString.
Import ListNotations.

Open Scope string_scope.
Open Scope Z_scope.

(** ** Python string primitives used by the two programs *)

Module Py.

(** [s.replace(old, new)] for a one-character [old]. *)
Fixpoint replace_char (old : ascii) (new : string) (s : string) : string :=
  match s with
  | EmptyString => EmptyString
  | String c t =>
      if Ascii.eqb c old then new ++ replace_char old new t
      else String c (replace_char old new t)
  end.

(** [c.isspace()] on the ASCII range: tab, line feed, vertical tab, form
    feed, carriage return, the four separators 28..31 and the space. *)
Definition isspace (c : ascii) : bool :=
  let n := nat_of_ascii c in
  ((9 <=? n) && (n <=? 13))%nat || ((28 <=? n) && (n <=? 32))%nat.

Fixpoint lstrip (s : string) : string :=
  match s with
  | EmptyString => EmptyString
  | String c t => if isspace c then lstrip t else s
  end.

Fixpoint rstrip (s : string) : string :=
  match s with
  | EmptyString => EmptyString
  | String c t =>
      match rstrip t with
      | EmptyString => if isspace c then EmptyString else String c EmptyString
      | t' => String c t'
      end
  end.

(** [s.strip()] *)
Definition strip (s : string) : string := rstrip (lstrip s).

(** [s.startswith(p)] *)
Definition startswith (p s : string) : bool := String.prefix p s.

(** [sub in s] *)
Fixpoint contains (sub s : string) : bool :=
  String.prefix sub s ||
  match s with
  | EmptyString => false
  | String _ t => contains sub t
  end.

Definition lower_char (c : ascii) : ascii :=
  let n := nat_of_ascii c in
  if ((65 <=? n) && (n <=? 90))%nat then ascii_of_nat (n + 32) else c.

(** [s.lower()] on the ASCII range. *)
Fixpoint lower (s : string) : string :=
  match s with
  | EmptyString => EmptyString
  | String c t => String (lower_char c) (lower t)
  end.

(** [sep.join(l)] *)
Fixpoint join (sep : string) (l : list string) : string :=
  match l with
  | [] => EmptyString
  | [x] => x
  | x :: rest => x ++ sep ++ join sep rest
  end.

(** The decimal digit of [d] for [0 <= d <= 9]. *)
Definition digit_char (d : Z) : ascii := ascii_of_nat (48 + Z.to_nat d).

(** [w] decimal digits of [n], most significant first: what ["%0wd"] prints
    for [0 <= n < 10^w]. *)
Fixpoint zpad (w : nat) (n : Z) : string :=
  match w with
  | O => EmptyString
  | S w' => zpad w' (n / 10) ++ String (digit_char (n mod 10)) EmptyString
  end.

(** The value of a decimal digit. *)
Definition digit_val (c : ascii) : option Z :=
  let n := nat_of_ascii c in
  if ((48 <=? n) && (n <=? 57))%nat then Some (Z.of_nat (n - 48)) else None.

(** [c.isdigit()] on the ASCII range. *)
Definition is_digit (c : ascii) : bool :=
  match digit_val c with Some _ => true | None => false end.

(** [all(p(c) for c in s)] *)
Fixpoint all_chars (p : ascii -> bool) (s : string) : bool :=
  match s with
  | EmptyString => true
  | String c t => p c && all_chars p t
  end.

Definition not_colon (c : ascii) : bool := negb (Ascii.eqb c ":"%char).

Definition not_x (c : ascii) : bool := negb (Ascii.eqb c "x"%char).

(** [str(n)] for an integer. *)
Definition str_int (n : Z) : string := NilZero.string_of_int (Z.to_int n).

(** [s.endswith(p)] *)
Definition endswith (p s : string) : bool :=
  (String.length p <=? String.length s)%nat
  && String.eqb (String.substring (String.length s - String.length p)
                   (String.length p) s) p.

(** A Python [dict] with string keys, in insertion order. *)
Definition dict := list (string * string).

(** [d.get(k)]: [None] when the key is absent. *)
Fixpoint dict_get (d : dict) (k : string) : option string :=
  match d with
  | [] => None
  | (k', v) :: rest => if String.eqb k' k then Some v else dict_get rest k
  end.

(** [d[k] = v]: an existing key keeps its place, a new key goes last. *)
Fixpoint dict_set (d : dict) (k v : string) : dict :=
  match d with
  | [] => [(k, v)]
  | (k', v') :: rest =>
      if String.eqb k' k then (k', v) :: rest else (k', v') :: dict_set rest k v
  end.

(** [list(d.keys())] *)
Definition keys (d : dict) : list string := map fst d.

End Py.

(** ** The calendar behind [datetime.now(tz)] and [strftime] *)

Module Calendar.

(** The fields of a [datetime] that the formats use. *)
Record datetime := mkdt {
  year : Z; month : Z; day : Z; hour : Z; minute : Z; second : Z
}.

(** Proleptic Gregorian date of a day count from 1970-01-01. *)
Definition civil_from_days (z : Z) : Z * Z * Z :=
  let z := z + 719468 in
  let era := z / 146097 in
  let doe := z mod 146097 in
  let yoe := (doe - doe / 1460 + doe / 36524 - doe / 146096) / 365 in
  let y := yoe + era * 400 in
  let doy := doe - (365 * yoe + yoe / 4 - yoe / 100) in
  let mp := (5 * doy + 2) / 153 in
  let d := doy - (153 * mp + 2) / 5 + 1 in
  let m := if mp <? 10 then mp + 3 else mp - 9 in
  (if m <=? 2 then y + 1 else y, m, d).

(** The wall-clock fields of a count of seconds from 1970-01-01 00:00:00 of
    that wall clock. *)
Definition of_seconds (t : Z) : datetime :=
  let '(y, m, d) := civil_from_days (t / 86400) in
  let r := t mod 86400 in
  mkdt y m d (r / 3600) ((r mod 3600) / 60) (r mod 60).

(** The date and the time of day in digits, [sep1] between them and [sep2]
    inside the time of day (years of four digits). *)
Definition stamp (sep1 sep2 : string) (dt : datetime) : string :=
  Py.zpad 4 (year dt) ++ "-" ++ Py.zpad 2 (month dt) ++ "-" ++ Py.zpad 2 (day dt)
  ++ sep1 ++ Py.zpad 2 (hour dt) ++ sep2 ++ Py.zpad 2 (minute dt)
  ++ sep2 ++ Py.zpad 2 (second dt).

(** [dt.strftime('%Y-%m-%d %H:%M:%S')] *)
Definition strftime_space_colon (dt : datetime) : string := stamp " " ":" dt.

(** [dt.strftime('%Y-%m-%d_%H_%M_%S')] *)
Definition strftime_underscore (dt : datetime) : string := stamp "_" "_" dt.

(** A year that [%Y] prints with four digits. *)
Definition representable (dt : datetime) : Prop :=
  1000 <= year dt <= 9999.

(** Reading a stamp back: the digits at the fixed places of
    [YYYY?MM?DD?HH?MM?SS], whatever the separators. *)
Fixpoint number (s : string) (acc : Z) : option Z :=
  match s with
  | EmptyString => Some acc
  | String c t =>
      match Py.digit_val c with
      | Some d => number t (10 * acc + d)
      | None => None
      end
  end.

Definition field_at (s : string) (pos len : nat) : option Z :=
  number (String.substring pos len s) 0.

Definition parse_stamp (s : string) : option datetime :=
  match field_at s 0 4, field_at s 5 2, field_at s 8 2,
        field_at s 11 2, field_at s 14 2, field_at s 17 2 with
  | Some y, Some m, Some d, Some h, Some mi, Some se =>
      if (String.length s =? 19)%nat then Some (mkdt y m d h mi se) else None
  | _, _, _, _, _, _ => None
  end.

End Calendar.

(** ** The scraper: [ImprovedWebScraper] *)

Module Scraper.

(** The exceptions the scraper meets. *)
Inductive exn :=
| NoSuchElementException (msg : string)
| TimeoutException
| KeyError (key : string)
| AttributeError (attr : string).

Inductive level := DEBUG | INFO | WARNING | ERROR.

(** What the scraper does to its environment, in order. *)
Inductive event :=
| EvLog (l : level) (msg : string)
| EvGet (url : string)
| EvWait (timeout_s : Z)
| EvFind (selector : string)
| EvSleep (ms : Z)
| EvOpen (path : string)
| EvWrite (path line : string)
| EvQuit.

(** The object's attributes, the clock, the number of page loads so far, the
    trace of events (oldest first) and the files written. *)
Record state := mkState {
  duration : Z;
  live_prediction : bool;
  start_time : Z;
  url_crash_plane : string;
  driver : bool;
  now : Z;
  loads : nat;
  trace : list event;
  fs : list (string * list string)
}.

(** What the landing page shows after a load: no game frame at all, or a
    frame that is there [appears] milliseconds after the load, with its
    [src] attribute. *)
Inductive landing_page :=
| NoIframe
| Iframe (appears : Z) (src : option string).

(** What the game page shows during one polling cycle: when an [svg]
    element is there (from the start of the wait, [None]: never), and the
    text of the first element matching a CSS selector. *)
Record observation := mkObs {
  svg_after : option Z;
  dom : string -> option string
}.

(** How an action ends: with a value, with an exception, or, in the polling
    loop, at a turn for which the script has no observation (the script
    does not say how the run goes on). *)
Inductive outcome (A : Type) :=
| Ok (a : A)
| Raise (e : exn)
| OutOfScript.
Arguments Ok {A} a.
Arguments Raise {A} e.
Arguments OutOfScript {A}.

(** An action of the scraper. *)
Definition M (A : Type) : Type := state -> outcome A * state.

Definition ret {A} (a : A) : M A := fun st => (Ok a, st).

Definition bind {A B} (m : M A) (k : A -> M B) : M B :=
  fun st =>
    match m st with
    | (Ok a, st') => k a st'
    | (Raise e, st') => (Raise e, st')
    | (OutOfScript, st') => (OutOfScript, st')
    end.

Definition raise {A} (e : exn) : M A := fun st => (Raise e, st).

(** [try: m except <those h accepts> as e: h e] *)
Definition try_except {A} (m : M A) (h : exn -> option (M A)) : M A :=
  fun st =>
    match m st with
    | (Raise e, st') =>
        match h e with
        | Some handler => handler st'
        | None => (Raise e, st')
        end
    | r => r
    end.

(** [try: m finally: f] *)
Definition try_finally {A} (m : M A) (f : M unit) : M A :=
  fun st =>
    match m st with
    | (OutOfScript, st') => (OutOfScript, st')
    | (r, st') =>
        match f st' with
        | (Ok _, st'') => (r, st'')
        | (Raise e, st'') => (Raise e, st'')
        | (OutOfScript, st'') => (OutOfScript, st'')
        end
    end.

Declare Scope scraper_scope.
Delimit Scope scraper_scope with scraper.
Notation "x <- m ;; k" := (bind m (fun x => k))
  (at level 61, m at next level, right associativity) : scraper_scope.
Notation "m ;; k" := (bind m (fun _ => k))
  (at level 61, right associativity) : scraper_scope.
Open Scope scraper_scope.

(** *** State updates *)

Definition emit (e : event) (st : state) : state :=
  mkState (duration st) (live_prediction st) (start_time st)
    (url_crash_plane st) (driver st) (now st) (loads st)
    (trace st ++ [e]) (fs st).

Definition advance (ms : Z) (st : state) : state :=
  mkState (duration st) (live_prediction st) (start_time st)
    (url_crash_plane st) (driver st) (now st + Z.max 0 ms) (loads st)
    (trace st) (fs st).

Definition count_load (st : state) : state :=
  mkState (duration st) (live_prediction st) (start_time st)
    (url_crash_plane st) (driver st) (now st) (S (loads st))
    (trace st) (fs st).

Definition with_url (u : string) (st : state) : state :=
  mkState (duration st) (live_prediction st) (start_time st)
    u (driver st) (now st) (loads st) (trace st) (fs st).

Definition with_driver (d : bool) (st : state) : state :=
  mkState (duration st) (live_prediction st) (start_time st)
    (url_crash_plane st) d (now st) (loads st) (trace st) (fs st).

Definition with_fs (f : list (string * list string)) (st : state) : state :=
  mkState (duration st) (live_prediction st) (start_time st)
    (url_crash_plane st) (driver st) (now st) (loads st) (trace st) f.

(** *** The files *)

Fixpoint fs_get (f : list (string * list string)) (p : string)
  : option (list string) :=
  match f with
  | [] => None
  | (q, ls) :: rest => if String.eqb q p then Some ls else fs_get rest p
  end.

Fixpoint fs_put (f : list (string * list string)) (p : string)
  (ls : list string) : list (string * list string) :=
  match f with
  | [] => [(p, ls)]
  | (q, old) :: rest =>
      if String.eqb q p then (q, ls) :: rest else (q, old) :: fs_put rest p ls
  end.

(** *** Primitive actions *)

(** [self.logger.<level>(msg)].  The logger appends the line to the log file
    of the session: the model keeps the lines as the [EvLog] events of the
    trace, in their order, and [fs] holds the files written with [open] and
    [write] only. *)
Definition log (l : level) (msg : string) : M unit :=
  fun st => (Ok tt, emit (EvLog l msg) st).

(** [time.sleep] *)
Definition sleep (ms : Z) : M unit :=
  fun st => (Ok tt, advance ms (emit (EvSleep ms) st)).

(** An attribute of [self.driver]; [None] has none. *)
Definition the_driver (attr : string) : M unit :=
  fun st => if driver st then (Ok tt, st) else (Raise (AttributeError attr), st).

(** [self.driver.get(url)] *)
Definition driver_get (url : string) : M unit :=
  the_driver "get" ;;
  fun st => (Ok tt, count_load (emit (EvGet url) st)).

(** [WebDriverWait(self.driver, timeout_s).until(...)] for a condition that
    holds from [appears] milliseconds on. *)
Definition wait_until (timeout_s : Z) (appears : option Z) : M unit :=
  fun st =>
    let st1 := emit (EvWait timeout_s) st in
    match appears with
    | Some t =>
        if t <=? timeout_s * 1000 then (Ok tt, advance t st1)
        else (Raise TimeoutException, advance (timeout_s * 1000) st1)
    | None => (Raise TimeoutException, advance (timeout_s * 1000) st1)
    end.

(** [self.driver.find_element(By.CSS_SELECTOR, selector)]; the result is
    the element's text. *)
Definition find_element (page : string -> option string) (selector : string)
  : M string :=
  the_driver "find_element" ;;
  fun st =>
    match page selector with
    | Some text => (Ok text, emit (EvFind selector) st)
    | None =>
        (Raise (NoSuchElementException ("no such element: " ++ selector)),
         emit (EvFind selector) st)
    end.

(** [open(path, "w")]: the file is created empty or truncated. *)
Definition open_w (path : string) : M unit :=
  fun st => (Ok tt, with_fs (fs_put (fs st) path []) (emit (EvOpen path) st)).

(** [file.write(line)] *)
Definition file_write (path line : string) : M unit :=
  fun st =>
    let old := match fs_get (fs st) path with Some ls => ls | None => [] end in
    (Ok tt, with_fs (fs_put (fs st) path (old ++ [line]))
              (emit (EvWrite path line) st)).

(** [str(e)] *)
Definition str_exn (e : exn) : string :=
  match e with
  | NoSuchElementException msg => "Message: " ++ msg
  | TimeoutException => "Message: "
  | KeyError k => "'" ++ k ++ "'"
  | AttributeError a => "'NoneType' object has no attribute '" ++ a ++ "'"
  end.

(** [str(d)] for a dictionary of strings. *)
Definition repr_dict (d : Py.dict) : string :=
  "{" ++ Py.join ", " (map (fun kv => "'" ++ fst kv ++ "': '" ++ snd kv ++ "'") d)
  ++ "}".

Definition nl : string := String "010"%char EmptyString.

Section WithTimezone.

(** [pytz.timezone('Africa/Casablanca')]: the wall clock of the zone at a
    POSIX time, both in seconds (the wall clock counted from its own
    1970-01-01 00:00:00). *)
Variable localtime : Z -> Z.

(** [datetime.now(tz)] when [time.time()] reads [t] milliseconds, as wall
    clock seconds. *)
Definition datetime_now (t : Z) : Z := localtime (t / 1000).

(** [get_timestamp], at a clock reading. *)
Definition timestamp_at (t : Z) : string :=
  Calendar.strftime_space_colon (Calendar.of_seconds (datetime_now t)).

Definition get_timestamp : M string :=
  fun st => (Ok (timestamp_at (now st)), st).

(** [get_output_file_name]: [t1] is the clock read by the method itself,
    [t2] the clock read by its call of [get_timestamp]. *)
Definition output_file_name (duration : Z) (live_prediction : bool)
  (t1 t2 : Z) : string :=
  let morocco_time := datetime_now t1 in
  let start_time_str := Py.replace_char ":"%char "_" (timestamp_at t2) in
  let end_time := morocco_time + duration in
  let end_time_str := Calendar.strftime_underscore (Calendar.of_seconds end_time) in
  if live_prediction then
    "pipeline_ml/live_predictor/live_prediction/data_brute_" ++ start_time_str
    ++ "_to_" ++ end_time_str ++ ".csv"
  else "data_brute_" ++ start_time_str ++ "_to_" ++ end_time_str ++ ".csv".

(** On the clock of the model, which moves in pauses and waits only, the
    two readings of the method are the same; [output_file_name] has them
    apart. *)
Definition get_output_file_name : M string :=
  fun st =>
    (Ok (output_file_name (duration st) (live_prediction st) (now st) (now st)),
     st).

(** [get_log_file_name]: [t1] and [t2] are its two readings of the clock. *)
Definition log_file_name (duration : Z) (live_prediction : bool)
  (t1 t2 : Z) : string :=
  let morocco_time := datetime_now t1 in
  let start_time_str :=
    Calendar.strftime_underscore (Calendar.of_seconds (datetime_now t2)) in
  let end_time := morocco_time + duration in
  let end_time_str := Calendar.strftime_underscore (Calendar.of_seconds end_time) in
  if live_prediction then
    "pipeline_ml/live_predictor/live_prediction/logs/log_" ++ start_time_str
    ++ "_to_" ++ end_time_str ++ ".txt"
  else "logs/log_" ++ start_time_str ++ "_to_" ++ end_time_str ++ ".txt".

(** Here too the two readings are one on the clock of the model. *)
Definition get_log_file_name : M string :=
  fun st =>
    (Ok (log_file_name (duration st) (live_prediction st) (now st) (now st)), st).

(** *** [search_for_url] *)

Definition base_url : string := "https://1xbet.com/en/allgamesentrance/crash".

Definition iframe_selector : string := "iframe.games-project-frame__item".

(** [self.driver.get(base_url)]: the page of this load is the one the
    environment has for the load count. *)
Definition load_landing (landing : nat -> landing_page) : M landing_page :=
  fun st =>
    match driver_get base_url st with
    | (Ok _, st') => (Ok (landing (loads st)), st')
    | (Raise e, st') => (Raise e, st')
    | (OutOfScript, st') => (OutOfScript, st')
    end.

(** The wait for the frame, [find_element] and [get_attribute('src')]. *)
Definition iframe_src (timeout_s : Z) (page : landing_page)
  : M (option string) :=
  match page with
  | NoIframe => wait_until timeout_s None ;; ret None
  | Iframe appears src =>
      wait_until timeout_s (Some appears) ;;
      the_driver "find_element" ;;
      (fun st => (Ok src, emit (EvFind iframe_selector) st))
  end.

(** [if iframe_src:] *)
Definition truthy (src : option string) : bool :=
  match src with
  | Some EmptyString => false
  | Some _ => true
  | None => false
  end.

Definition absolute_url (src : option string) : string :=
  match src with
  | Some s => if Py.startswith "/" s then "https://1xbet.com" ++ s else s
  | None => EmptyString
  end.

Definition not_found (e : exn) : bool :=
  match e with
  | NoSuchElementException _ | TimeoutException => true
  | _ => false
  end.

Definition search_for_url (landing : nat -> landing_page) : M string :=
  log INFO "Searching for the crash game URL." ;;
  try_except
    (page <- load_landing landing ;;
     src <- iframe_src 30 page ;;
     if truthy src then
       let final_url := absolute_url src in
       log INFO ("Found crash game URL: " ++ final_url) ;;
       ret final_url
     else
       log ERROR "Failed to extract crash game URL from iframe src." ;;
       raise (NoSuchElementException "Could not find crash game URL in the page."))
    (fun e =>
       if not_found e then Some
         (log WARNING ("Encountered an issue loading " ++ base_url
                       ++ ", retrying: " ++ str_exn e) ;;
          sleep 2000 ;;
          page <- load_landing landing ;;
          sleep 5000 ;;
          try_except
            (src <- iframe_src 10 page ;;
             if truthy src then
               let final_url := absolute_url src in
               log INFO ("Found crash game URL on retry: " ++ final_url) ;;
               ret final_url
             else
               log ERROR "Failed to extract crash game URL after retry (no src found)." ;;
               raise (NoSuchElementException
                        "Could not find crash game URL even after retry."))
            (fun e' =>
               if not_found e' then Some
                 (log ERROR "Failed to extract crash game URL after retry." ;;
                  raise (NoSuchElementException
                           "Could not find crash game URL even after retry."))
               else None))
       else None).

(** *** [extract_data] *)

Definition elements : list (string * string) :=
  [ ("Value X", "text.crash-game__counter[font-size='83'][x='1160'][y='356']");
    ("Value Bets", "span.crash-total__value.crash-total__value--bets.crash-text");
    ("Value Prize", "span.crash-total__value.crash-total__value--prize.crash-text");
    ("Value Players", "span.crash-total__value.crash-total__value--players.crash-text") ].

(** The [for] loop over [elements.items()].  [data] is filled in place, so
    what was stored before an exception stays: the loop returns the
    dictionary next to the outcome. *)
Fixpoint extract_loop (page : string -> option string)
  (els : list (string * string)) (data : Py.dict) (st : state)
  : Py.dict * (outcome unit * state) :=
  match els with
  | [] => (data, (Ok tt, st))
  | (key, selector) :: rest =>
      match find_element page selector st with
      | (Ok text, st') =>
          extract_loop page rest (Py.dict_set data key (Py.strip text)) st'
      | (Raise e, st') => (data, (Raise e, st'))
      | (OutOfScript, st') => (data, (OutOfScript, st'))
      end
  end.

(** The [try] block is the loop, whose outcome is [r], and the log of the
    data; the handler logs the missing element; [data] is returned in both
    cases. *)
Definition extract_data (page : string -> option string) : M Py.dict :=
  log DEBUG "Extracting data from page elements." ;;
  fun st =>
    let '(data, r) := extract_loop page elements [] st in
    (try_except
       ((fun _ => r) ;; log DEBUG ("Extracted data: " ++ repr_dict data))
       (fun e =>
          match e with
          | NoSuchElementException _ =>
              Some (log WARNING ("One or more elements not found: " ++ str_exn e))
          | _ => None
          end) ;;
     ret data) st.

(** *** [fetch_data] *)

Definition header : string :=
  "Timestamp,Value X,Value Bets,Value Prize,Value Players" ++ nl.

(** [data[key]] *)
Definition subscript (data : Py.dict) (key : string) : M string :=
  match Py.dict_get data key with
  | Some v => ret v
  | None => raise (KeyError key)
  end.

(** The f-string of the row. *)
Definition csv_line (timestamp x bets prize players : string) : string :=
  timestamp ++ "," ++ Py.replace_char "x"%char "" x ++ "," ++ bets ++ ","
  ++ prize ++ "," ++ players ++ nl.

(** [not data or data.get('Value X', "") == ""] *)
Definition no_valid_data (data : Py.dict) : bool :=
  match data with
  | [] => true
  | _ =>
      String.eqb
        (match Py.dict_get data "Value X" with Some v => v | None => "" end) ""
  end.

Inductive loop_ctl := Continue | Break.

(** What the [try] block does with the extracted data: skip the turn, or
    write the row. *)
Definition cycle_body (file : string) (data : Py.dict) : M loop_ctl :=
  if no_valid_data data then
    log DEBUG "No valid data found or Value X empty, waiting before retrying." ;;
    sleep 3000 ;;
    ret Continue
  else
    timestamp <- get_timestamp ;;
    x <- subscript data "Value X" ;;
    bets <- subscript data "Value Bets" ;;
    prize <- subscript data "Value Prize" ;;
    players <- subscript data "Value Players" ;;
    let line := csv_line timestamp x bets prize players in
    file_write file line ;;
    log INFO ("Data extracted and written: " ++ Py.strip line) ;;
    sleep 800 ;;
    ret Continue.

(** [except NoSuchElementException:] of the loop. *)
Definition page_changed (e : exn) : option (M loop_ctl) :=
  match e with
  | NoSuchElementException _ =>
      Some (log WARNING "The crash plane URL changed or elements not found." ;;
            ret Break)
  | _ => None
  end.

(** One turn of the [while] loop: the [try] block and its handler. *)
Definition cycle (file : string) (o : observation) : M loop_ctl :=
  try_except
    (wait_until 30 (svg_after o) ;;
     data <- extract_data (dom o) ;;
     cycle_body file data)
    page_changed.

(** [while time.time() - self.start_time < self.duration] *)
Definition running (st : state) : bool :=
  now st - start_time st <? duration st * 1000.

(** The [while] loop; one observation of the script is used per turn. *)
Fixpoint poll (file : string) (script : list observation) : M unit :=
  fun st =>
    if running st then
      match script with
      | [] => (OutOfScript, st)
      | o :: rest =>
          match cycle file o st with
          | (Ok Continue, st') => poll file rest st'
          | (Ok Break, st') => (Ok tt, st')
          | (Raise e, st') => (Raise e, st')
          | (OutOfScript, st') => (OutOfScript, st')
          end
      end
    else (Ok tt, st).

Definition fetch_data (url : string) (script : list observation) : M unit :=
  log INFO ("Fetching data from URL: " ++ url) ;;
  try_except
    (driver_get url ;;
     sleep 5000 ;;
     output_file <- get_output_file_name ;;
     log INFO ("Writing scraped data to: " ++ output_file) ;;
     open_w output_file ;;
     file_write output_file header ;;
     poll output_file script ;;
     log INFO "Data fetching completed successfully.")
    (fun e => Some (log ERROR ("Error while fetching data: " ++ str_exn e))).

(** *** [close_driver], [start_scraping], [main] *)

Definition close_driver : M unit :=
  fun st =>
    if driver st then
      (log INFO "Closing the Chrome driver." ;;
       (fun st1 => (Ok tt, with_driver false (emit EvQuit st1))) ;;
       log INFO "Chrome driver closed successfully.") st
    else log WARNING "Driver was not initialized or already closed." st.

Definition start_scraping (landing : nat -> landing_page)
  (script : list observation) : M unit :=
  (fun st =>
     log INFO ("Scraping will run for " ++ Py.str_int (duration st) ++ " seconds.") st) ;;
  try_finally
    (try_except
       (url <- search_for_url landing ;;
        (fun st => (Ok tt, with_url url st)) ;;
        fetch_data url script)
       (fun e => Some (log ERROR ("Error in scraping process: " ++ str_exn e))))
    close_driver.

(** [ImprovedWebScraper(duration, live_prediction)] when the clock reads
    [t0], then [setup_driver()] with a browser that starts. *)
Definition new_scraper (duration : Z) (live_prediction : bool) (t0 : Z) : state :=
  mkState duration live_prediction t0 "" false t0 0
    [EvLog INFO "ImprovedWebScraper initialized."] [].

Definition setup_driver : M unit :=
  log INFO "Setting up the Chrome driver with undetected-chromedriver and webdriver_manager." ;;
  (fun st => (Ok tt, with_driver true st)) ;;
  log INFO "Chrome driver setup complete with webdriver_manager.".

Definition main (duration : Z) (t0 : Z) (landing : nat -> landing_page)
  (script : list observation) : outcome unit * state :=
  (setup_driver ;; start_scraping landing script)
    (new_scraper duration false t0).

End WithTimezone.

End Scraper.

(** ** The dashboard: [ScraperUI] *)

Module Dashboard.

(** [st.session_state].  The child process is [Some true] while it runs and
    [Some false] once it has exited ([poll()] is not [None]). *)
Record session_state := mkSession {
  scraping_started : bool;
  scraping_start_time : option Z;
  scraping_process : option bool;
  scraping_error : bool
}.

(** What one run of the script shows and does, in order. *)
Inductive ui :=
| Button (label : string)
| SidebarButton (label : string)
| Info (msg : string)
| Success (msg : string)
| Warning (msg : string)
| Error (msg : string)
| Write (msg : string)
| Markdown (html : string)
| Progress (elapsed_ms duration_s : Z)
| PageConfig (page_title : string)
| Title (text : string)
| SidebarTitle (text : string)
| Popen
| Terminate
| WaitChild.

(** A file of the log directory: its name, [os.path.getmtime] and its
    lines. *)
Record log_file := mkLog {
  name : string;
  mtime : Z;
  content : list string
}.

(** What a run of the script finds: the clock (milliseconds), the control
    that triggered the run, whether the child has exited by itself since the
    last run, and the files of the log directory ([None]: no such
    directory). *)
Record tick := mkTick {
  clock : Z;
  refresh_clicked : bool;
  stop_clicked : bool;
  start_clicked : bool;
  child_exited : bool;
  listing : option (list log_file)
}.

Record ScraperUI := mkUI {
  logs_dir : string;
  duration : Z
}.

(** [os.path.join(a, b)] for a relative [b]. *)
Definition path_join (a b : string) : string :=
  if String.eqb a "" then b
  else if Py.endswith "/" a then a ++ b
  else a ++ "/" ++ b.

(** A run ends normally or in the division by a zero duration. *)
Inductive result :=
| Rendered (ss : session_state) (out : list ui)
| ZeroDivisionError (ss : session_state) (out : list ui).

Definition final (r : result) : session_state :=
  match r with Rendered ss _ | ZeroDivisionError ss _ => ss end.

Definition shown (r : result) : list ui :=
  match r with Rendered _ out | ZeroDivisionError _ out => out end.

(** A run appends what it draws to what is on the page. *)
Definition draw (w : list ui) (s : session_state * list ui)
  : session_state * list ui :=
  (fst s, app (snd s) w).

(** [__init__]: the session state is created on the first run only. *)
Definition init_session (ss : option session_state) : session_state :=
  match ss with
  | Some s => s
  | None => mkSession false None None false
  end.

(** The child may have exited between two runs. *)
Definition observe_child (t : tick) (ss : session_state) : session_state :=
  match scraping_process ss with
  | Some true =>
      if child_exited t then
        mkSession (scraping_started ss) (scraping_start_time ss) (Some false)
          (scraping_error ss)
      else ss
  | _ => ss
  end.

Definition _start_scraping (t : tick) (s : session_state * list ui)
  : session_state * list ui :=
  let s1 := draw [Popen] s in
  (mkSession true (Some (clock t)) (Some true) (scraping_error (fst s1)),
   snd s1).

Definition _stop_scraping (reason : string) (s : session_state * list ui)
  : session_state * list ui :=
  let s1 :=
    match scraping_process (fst s) with
    | Some true =>
        draw [Terminate; WaitChild]
          (mkSession (scraping_started (fst s)) (scraping_start_time (fst s))
             (Some false) (scraping_error (fst s)), snd s)
    | _ => s
    end in
  let error := Py.contains "error" (Py.lower reason) in
  draw [Warning reason]
    (mkSession false (scraping_start_time (fst s1)) (scraping_process (fst s1))
       error, snd s1).

(** [glob.glob(os.path.join(logs_dir, "*.txt"))] on the files of the
    directory: the names that end in [.txt] and do not start with a dot. *)
Definition glob_txt (files : list log_file) : list log_file :=
  filter (fun f => Py.endswith ".txt" (name f) && negb (Py.startswith "." (name f)))
    files.

(** [log_files.sort(key=os.path.getmtime, reverse=True)]: newest first,
    equal times in their first order. *)
Fixpoint insert_desc (f : log_file) (l : list log_file) : list log_file :=
  match l with
  | [] => [f]
  | g :: rest => if mtime g <=? mtime f then f :: l else g :: insert_desc f rest
  end.

Fixpoint sort_desc (l : list log_file) : list log_file :=
  match l with
  | [] => []
  | f :: rest => insert_desc f (sort_desc rest)
  end.

Definition _get_most_recent_log_file (t : tick) : option log_file :=
  match listing t with
  | None => None
  | Some files =>
      match sort_desc (glob_txt files) with
      | [] => None
      | f :: _ => Some f
      end
  end.

Definition _load_logs (f : log_file) : list string := content f.

Definition _format_log_line (line : string) : string :=
  if Py.contains " - INFO - " line then
    "<p style='color: #0066cc;'>" ++ Py.strip line ++ "</p>"
  else if Py.contains " - WARNING - " line then
    "<p style='color: #ff9900;'>" ++ Py.strip line ++ "</p>"
  else if Py.contains " - ERROR - " line then
    "<p style='color: #cc0000;'>" ++ Py.strip line ++ "</p>"
  else "<p style='color: #666;'>" ++ Py.strip line ++ "</p>".

(** [any(" - ERROR - " in line for line in lines)] *)
Definition error_found (lines : list string) : bool :=
  existsb (fun line => Py.contains " - ERROR - " line) lines.

Definition _display_logs (self : ScraperUI) (t : tick)
  (s : session_state * list ui) : session_state * list ui :=
  match _get_most_recent_log_file t with
  | None => draw [Info "No log files found yet. Please wait."] s
  | Some most_recent_log =>
      let lines := _load_logs most_recent_log in
      match lines with
      | [] => draw [Info "Log file exists but is empty. Please wait."] s
      | _ =>
          if error_found lines then
            _stop_scraping "Scraping stopped due to an ERROR in logs." s
          else
            let max_lines := 500%nat in
            let lines :=
              if (max_lines <? List.length lines)%nat
              then skipn (List.length lines - max_lines) lines else lines in
            let formatted_lines := map _format_log_line lines in
            draw
              [Markdown (Py.join "<br>" formatted_lines);
               Write ("Displayed " ++ Py.str_int (Z.of_nat (List.length lines))
                      ++ " lines from file: "
                      ++ path_join (logs_dir self) (name most_recent_log));
               Write "Last updated at"] s
      end
  end.

Definition _draw_sidebar (t : tick) (s : session_state * list ui)
  : session_state * list ui :=
  let s0 := draw [SidebarTitle "Controls"] s in
  let s1 := draw [SidebarButton "Refresh"] s0 in
  let s2 := draw [SidebarButton "Stop Scraping"] s1 in
  if stop_clicked t then _stop_scraping "Stopped manually by user." s2 else s2.

(** [st.progress] is drawn for any ratio: that Streamlit refuses a ratio
    below zero, which the code computes for a duration below zero or a clock
    before the start time, is not modelled. *)
Definition _handle_main_area (self : ScraperUI) (t : tick)
  (s : session_state * list ui) : result :=
  let s1 :=
    if negb (scraping_started (fst s)) && negb (scraping_error (fst s)) then
      let s' := draw [Button "Start Scraping"] s in
      if start_clicked t then
        draw [Success "Scraping started!"] (_start_scraping t s')
      else s'
    else if scraping_error (fst s) then
      draw [Error "Scraping stopped due to an ERROR in logs."] s
    else draw [Info "Scraping is running..."] s in
  if scraping_started (fst s1) && negb (scraping_error (fst s1)) then
    let elapsed :=
      clock t - match scraping_start_time (fst s1) with Some t0 => t0 | None => 0 end in
    if duration self =? 0 then ZeroDivisionError (fst s1) (snd s1)
    else
      let time_left := Z.max 0 (duration self * 1000 - elapsed) in
      let s2 :=
        draw
          [Progress elapsed (duration self);
           Write ("Time elapsed: " ++ Py.str_int (Z.quot elapsed 1000) ++ " seconds");
           Write ("Time left: " ++ Py.str_int (Z.quot time_left 1000) ++ " seconds")]
          s1 in
      let s3 := _display_logs self t s2 in
      if duration self * 1000 <=? elapsed then
        let s4 := draw [Success "Scraping completed!"] s3 in
        let s5 := _stop_scraping "Duration reached, scraping completed." s4 in
        Rendered (fst s5) (snd s5)
      else Rendered (fst s3) (snd s3)
  else Rendered (fst s1) (snd s1).

(** One run of the script: [ScraperUI(...)] and [run()] (the pictograph of
    the titles is left out). *)
Definition run (self : ScraperUI) (t : tick) (ss : option session_state)
  : result :=
  let ss0 := observe_child t (init_session ss) in
  let s0 :=
    draw
      [PageConfig "Scraper with Progress"; Title "Scraper with Progress";
       Write "This interface allows you to launch the scraper, display its logs, show a progress bar, and stop it manually or when an error is detected."]
      (ss0, []) in
  _handle_main_area self t (_draw_sidebar t s0).

(** [main(duration)] *)
Definition main (duration : Z) (t : tick) (ss : option session_state) : result :=
  run (mkUI "logs" duration) t ss.

(** The Start control is offered by a run when its button is drawn. *)
Definition offers_start (r : result) : bool :=
  existsb (fun w => match w with
                    | Button label => String.eqb label "Start Scraping"
                    | _ => false
                    end) (shown r).

Definition terminates_child (r : result) : bool :=
  existsb (fun w => match w with Terminate => true | _ => false end) (shown r).

(** Runs in a row, each on the session state the one before left. *)
Fixpoint runs (self : ScraperUI) (ts : list tick) (ss : option session_state)
  : list result :=
  match ts with
  | [] => []
  | t :: rest =>
      let r := run self t ss in
      r :: runs self rest (Some (final r))
  end.

End Dashboard.

(** ** Notions used to state the properties *)

Module Props.

Import Scraper.

(** The multiplier as the specification words it: the text without its last
    character when that is not a digit. *)
Fixpoint strip_trailing_unit (s : string) : string :=
  match s with
  | EmptyString => EmptyString
  | String c EmptyString => if Py.is_digit c then s else EmptyString
  | String c t => String c (strip_trailing_unit t)
  end.

(** The fields of a CSV line. *)
Fixpoint split_commas (s : string) : list string :=
  match s with
  | EmptyString => [EmptyString]
  | String c t =>
      if Ascii.eqb c ","%char then EmptyString :: split_commas t
      else match split_commas t with
           | [] => [String c EmptyString]
           | f :: fields => String c f :: fields
           end
  end.

(** The dictionary that [extract_data] builds on a page: the fields up to
    the first missing element. *)
Fixpoint extracted (page : string -> option string)
  (els : list (string * string)) (data : Py.dict) : Py.dict :=
  match els with
  | [] => data
  | (key, selector) :: rest =>
      match page selector with
      | Some text => extracted page rest (Py.dict_set data key (Py.strip text))
      | None => data
      end
  end.

(** [st'] is a later state of the session of [st]: same settings, same
    browser session, the clock not before. *)
Definition later (st st' : state) : Prop :=
  duration st' = duration st /\ live_prediction st' = live_prediction st
  /\ start_time st' = start_time st /\ driver st' = driver st
  /\ now st <= now st'.

(** A property of states that an action keeps. *)
Definition preserves (P : state -> Prop) {A} (m : M A) : Prop :=
  forall st, P st -> P (snd (m st)).

(** A property that does not look at the trace. *)
Definition quiet (P : state -> Prop) : Prop :=
  forall e st, P st -> P (emit e st).

(** A property that does not look at the trace, the clock or the load count. *)
Definition stable (P : state -> Prop) : Prop :=
  quiet P
  /\ (forall ms st, P st -> P (advance ms st))
  /\ (forall st, P st -> P (count_load st)).

(** An action that takes [hi] milliseconds at most. *)
Definition within (hi : Z) {A} (m : M A) : Prop :=
  forall st, now (snd (m st)) <= now st + hi.

(** An action that takes [lo] milliseconds at least when it returns. *)
Definition atleast (lo : Z) {A} (m : M A) : Prop :=
  forall st a st', m st = (Ok a, st') -> now st + lo <= now st'.

(** The keys of [data] are the first [n] fields, and those are the fields
    the page has before its first missing element. *)
Definition prefix_of_fields (page : string -> option string)
  (data : Py.dict) (n : nat) : Prop :=
  Py.keys data
  = firstn n ["Value X"; "Value Bets"; "Value Prize"; "Value Players"]
  /\ (forall i key selector,
        nth_error elements i = Some (key, selector) -> (i < n)%nat ->
        exists text,
          page selector = Some text
          /\ Py.dict_get data key = Some (Py.strip text))
  /\ (forall key selector,
        nth_error elements n = Some (key, selector) -> page selector = None)
  /\ (forall i key selector,
        nth_error elements i = Some (key, selector) -> (n <= i)%nat ->
        Py.dict_get data key = None).

(** An action that never waits for more script than there is. *)
Definition live {A} (m : M A) : Prop :=
  forall st, fst (m st) <> OutOfScript.

(** An action that does not run out of script from the states of [Q]. *)
Definition live_from (Q : state -> Prop) {A} (m : M A) : Prop :=
  forall st, Q st -> fst (m st) <> OutOfScript.

(** The script has an observation for every turn the loop can still take: a
    turn takes 800 milliseconds at least. *)
Definition enough (script : list observation) (st : state) : Prop :=
  start_time st + duration st * 1000 - now st <= 800 * Z.of_nat (List.length script).

(** The longest turn of the loop: the wait of 30 seconds and the pause of
    3 seconds. *)
Definition cycle_max : Z := 30 * 1000 + 3000.

(** The output file starts with the header and has it nowhere else. *)
Definition header_once (file : string) (st : state) : Prop :=
  exists rows, fs_get (fs st) file = Some (header :: rows) /\ ~ In header rows.

(** The state in which [fetch_data] enters its loop when there is a
    browser session: the page is loaded, five seconds have passed, the
    output file is open and has its header. *)
Definition loop_entry (localtime : Z -> Z) (url : string) (st : state) : state :=
  let st1 :=
    advance 5000
      (emit (EvSleep 5000)
         (count_load
            (emit (EvGet url)
               (emit (EvLog INFO ("Fetching data from URL: " ++ url)) st)))) in
  let file :=
    output_file_name localtime (duration st1) (live_prediction st1)
      (now st1) (now st1) in
  snd (file_write file header
         (snd (open_w file
                 (emit (EvLog INFO ("Writing scraped data to: " ++ file)) st1)))).

(** The name of the file that [fetch_data] opens when it is called in [st]. *)
Definition output_file (localtime : Z -> Z) (st : state) : string :=
  output_file_name localtime (duration st) (live_prediction st)
    (now st + 5000) (now st + 5000).

(** The [try] block of [start_scraping] with its handler. *)
Definition scraping_body (localtime : Z -> Z) (landing : nat -> landing_page)
  (script : list observation) : M unit :=
  try_except
    (url <- search_for_url landing ;;
     (fun st => (Ok tt, with_url url st)) ;;
     fetch_data localtime url script)
    (fun e => Some (log ERROR ("Error in scraping process: " ++ str_exn e))).

(** The events of a trace that load a page. *)
Definition gets (tr : list event) : list string :=
  flat_map (fun e => match e with EvGet u => [u] | _ => [] end) tr.

(** The timeouts of the waits of a trace. *)
Definition waits (tr : list event) : list Z :=
  flat_map (fun e => match e with EvWait t => [t] | _ => [] end) tr.

(** The number of times the browser is quit in a trace. *)
Definition quits (tr : list event) : nat :=
  List.length (filter (fun e => match e with EvQuit => true | _ => false end) tr).

End Props.

(** ** Concrete sessions, pages and logs *)

Module Fixtures.

Import Scraper.

(** A zone one hour ahead of UTC. *)
Definition casablanca (t : Z) : Z := t + 3600.

(** A session of three minutes created on 2024-02-29 at 12:34:56 UTC. *)
Definition session_2024 : state := new_scraper 180 false 1709210096000.

(** The same session once its browser is set up. *)
Definition session_2024_ready : state := with_driver true session_2024.

(** The same session in its loop, five seconds later, on a file that has
    its header. *)
Definition polling_2024 : state :=
  mkState 180 false 1709210096000 "https://1xbet.com/games/crash" true
    1709210101000 1 [] [("out.csv", [header])].

(** A session of eight seconds in its loop, five seconds after its start. *)
Definition polling_short : state :=
  mkState 8 false 1709210096000 "https://1xbet.com/games/crash" true
    1709210101000 1 [] [("out.csv", [header])].

(** The page that shows the given texts in the elements of the given fields
    and has no other element. *)
Definition page_of (texts : Py.dict) (selector : string) : option string :=
  match find (fun ks => String.eqb (snd ks) selector) elements with
  | Some (key, _) => Py.dict_get texts key
  | None => None
  end.

(** The four fields of the specification's example. *)
Definition o_full : observation :=
  mkObs (Some 100)
    (page_of [("Value X", "3.25x"); ("Value Bets", "120");
              ("Value Prize", "400"); ("Value Players", "15")]).

(** No field element at all. *)
Definition o_blank : observation := mkObs (Some 100) (page_of []).

(** The multiplier alone: the other three elements are missing. *)
Definition o_partial : observation :=
  mkObs (Some 100) (page_of [("Value X", "3.25x")]).

(** A multiplier whose unit is a capital letter. *)
Definition o_upper : observation :=
  mkObs (Some 100)
    (page_of [("Value X", "2.5X"); ("Value Bets", "120");
              ("Value Prize", "400"); ("Value Players", "15")]).

(** A dashboard for sessions of one minute. *)
Definition ui_60 : Dashboard.ScraperUI := Dashboard.mkUI "logs" 60.

(** The dashboard's state while the child started at time 0 runs. *)
Definition watching : Dashboard.session_state :=
  Dashboard.mkSession true (Some 0) (Some true) false.

(** An older log without an error and the newest log, which has one line
    with the error marker among its lines. *)
Definition old_log : Dashboard.log_file :=
  Dashboard.mkLog "log_2024-02-29_12_00_00_to_2024-02-29_12_01_00.txt" 5
    ["2024-02-29 12:00:00,000 - ImprovedWebScraper - INFO - ImprovedWebScraper initialized."].

Definition error_log : Dashboard.log_file :=
  Dashboard.mkLog "log_2024-02-29_13_34_56_to_2024-02-29_13_35_56.txt" 10
    ["2024-02-29 13:34:56,000 - ImprovedWebScraper - INFO - ImprovedWebScraper initialized.";
     "2024-02-29 13:35:41,000 - ImprovedWebScraper - ERROR - Error while fetching data: 'Value Bets'";
     "2024-02-29 13:35:41,001 - ImprovedWebScraper - INFO - Closing the Chrome driver."].

(** A click on Refresh when the clock reads [clock] milliseconds, the child
    still there. *)
Definition refresh_at (clock : Z) : Dashboard.tick :=
  Dashboard.mkTick clock true false false false (Some [old_log; error_log]).

(** A landing page that has the game frame on its second load only. *)
Definition late_landing (n : nat) : landing_page :=
  match n with
  | O => NoIframe
  | S _ => Iframe 0 (Some "/games/crash")
  end.

End Fixtures.

(** ** Notions used to state further properties *)

Module More.

Import Scraper.

(** What one try for the game frame gives on a page, with a timeout in
    seconds: the address, or nothing when the frame is not there in time or
    has no [src]. *)
Definition attempt (timeout_s : Z) (page : landing_page) : option string :=
  match page with
  | NoIframe => None
  | Iframe appears src =>
      if (appears <=? timeout_s * 1000) && truthy src
      then Some (absolute_url src) else None
  end.

(** The steps of one try in [search_for_url] after the page is loaded: the
    wait, the lookup of the frame and of its [src], the log of the result.
    The two tries differ in the timeout and in the messages. *)
Definition try_frame (timeout_s : Z) (found missing raised : string)
  (page : landing_page) : M string :=
  src <- iframe_src timeout_s page ;;
  if truthy src then
    let final_url := absolute_url src in
    log INFO (found ++ final_url) ;;
    ret final_url
  else
    log ERROR missing ;;
    raise (NoSuchElementException raised).

(** The events that are neither on a file nor the end of the browser
    session: logs, page loads, waits, lookups and pauses. *)
Definition plain (e : event) : bool :=
  match e with
  | EvLog _ _ | EvGet _ | EvWait _ | EvFind _ | EvSleep _ => true
  | EvOpen _ | EvWrite _ _ | EvQuit => false
  end.

(** The events that open or write no file but [file] and do not end the
    browser session. *)
Definition on_file (file : string) (e : event) : Prop :=
  match e with
  | EvOpen path => path = file
  | EvWrite path _ => path = file
  | EvQuit => False
  | _ => True
  end.

(** From [st] to [st'] the trace has grown by events of [ok] only. *)
Definition since (ok : event -> Prop) (st st' : state) : Prop :=
  exists events,
    trace st' = (trace st ++ events)%list /\ Forall ok events.

(** An action that takes the states of [P] to states of [Q]. *)
Definition leads (P Q : state -> Prop) {A} (m : M A) : Prop :=
  forall st, P st -> Q (snd (m st)).

(** The file at [path] has the lines [old] and then [n] more at most. *)
Definition grown (path : string) (old : list string) (n : nat) (st : state)
  : Prop :=
  exists new,
    fs_get (fs st) path = Some (old ++ new)%list /\ (List.length new <= n)%nat.

(** The outcome of two tries, the second on the page of the next load. *)
Definition discovery (first second : landing_page) : outcome string :=
  match attempt 30 first with
  | Some url => Ok url
  | None =>
      match attempt 10 second with
      | Some url => Ok url
      | None =>
          Raise (NoSuchElementException
                   "Could not find crash game URL even after retry.")
      end
  end.

End More.

(** ** Notions used to state further properties of the dashboard *)

Module Sessions.

Import Dashboard.

(** The child process of the session is running. *)
Definition alive (ss : session_state) : bool :=
  match scraping_process ss with
  | Some true => true
  | _ => false
  end.

(** What the fields of a session state have to do with each other: while
    scraping is started there is no error, a start time and a child; while
    it is not, no child is running. *)
Definition consistent (ss : session_state) : Prop :=
  (scraping_started ss = true ->
   scraping_error ss = false
   /\ scraping_start_time ss <> None
   /\ scraping_process ss <> None)
  /\ (scraping_started ss = false -> alive ss = false).

(** What every run draws first: the page and the sidebar. *)
Definition frame : list ui :=
  [PageConfig "Scraper with Progress"; Title "Scraper with Progress";
   Write "This interface allows you to launch the scraper, display its logs, show a progress bar, and stop it manually or when an error is detected.";
   SidebarTitle "Controls"; SidebarButton "Refresh";
   SidebarButton "Stop Scraping"].

(** What [_handle_main_area] does while scraping is ongoing, counted from
    the start time [t0], when the duration is not zero: the progress, the
    logs, and the stop when the duration has passed. *)
Definition watch (self : ScraperUI) (t : tick) (t0 : Z)
  (s1 : session_state * list ui) : result :=
  let elapsed := clock t - t0 in
  let time_left := Z.max 0 (duration self * 1000 - elapsed) in
  let s2 :=
    draw
      [Progress elapsed (duration self);
       Write ("Time elapsed: " ++ Py.str_int (Z.quot elapsed 1000) ++ " seconds");
       Write ("Time left: " ++ Py.str_int (Z.quot time_left 1000) ++ " seconds")]
      s1 in
  let s3 := _display_logs self t s2 in
  if duration self * 1000 <=? elapsed then
    let s4 := draw [Success "Scraping completed!"] s3 in
    let s5 := _stop_scraping "Duration reached, scraping completed." s4 in
    Rendered (fst s5) (snd s5)
  else Rendered (fst s3) (snd s3).

(** A file that [glob] gives for [*.txt]. *)
Definition is_txt (f : log_file) : bool :=
  Py.endswith ".txt" (name f) && negb (Py.startswith "." (name f)).

End Sessions.

(** * Properties *)

(** ** Strings and stamps *)

Module PyFacts.

Import Py.

Lemma length_app a b :
  String.length (a ++ b) = (String.length a + String.length b)%nat.
Proof. induction a as [|c a IH]; simpl; [reflexivity|]. now rewrite IH. Qed.

Lemma all_chars_app p a b :
  all_chars p (a ++ b) = all_chars p a && all_chars p b.
Proof.
  induction a as [|c a IH]; simpl; [reflexivity|].
  now rewrite IH, andb_assoc.
Qed.

Lemma digit_val_digit_char d :
  0 <= d <= 9 -> Py.digit_val (Py.digit_char d) = Some d.
Proof.
  intros H.
  assert (E : d = 0 \/ d = 1 \/ d = 2 \/ d = 3 \/ d = 4 \/ d = 5 \/ d = 6
              \/ d = 7 \/ d = 8 \/ d = 9) by lia.
  repeat (destruct E as [E|E]; [subst d; reflexivity|]).
  subst d; reflexivity.
Qed.

Lemma is_digit_not_colon c : is_digit c = true -> not_colon c = true.
Proof.
  destruct c as [[] [] [] [] [] [] [] []]; intros H; try reflexivity;
    discriminate H.
Qed.

Lemma is_digit_digit_char n : is_digit (Py.digit_char (n mod 10)) = true.
Proof.
  unfold is_digit. rewrite digit_val_digit_char; [reflexivity|].
  pose proof (Z.mod_pos_bound n 10). lia.
Qed.

Lemma zpad_length w : forall n, String.length (Py.zpad w n) = w.
Proof.
  induction w as [|w IH]; intros n; cbn [Py.zpad]; [reflexivity|].
  rewrite length_app, IH. cbn [String.length]. lia.
Qed.

Lemma zpad_digits w : forall n, all_chars is_digit (Py.zpad w n) = true.
Proof.
  induction w as [|w IH]; intros n; cbn [Py.zpad]; [reflexivity|].
  rewrite all_chars_app, IH. cbn [all_chars andb].
  now rewrite is_digit_digit_char.
Qed.

Lemma all_chars_weaken (p q : ascii -> bool) s :
  (forall c, p c = true -> q c = true) ->
  all_chars p s = true -> all_chars q s = true.
Proof.
  intros Hpq. induction s as [|c s IH]; simpl; [reflexivity|].
  intros H. apply andb_true_iff in H as [Hc Hs].
  now rewrite (Hpq _ Hc), IH.
Qed.

Lemma zpad_no_colon w n : all_chars not_colon (Py.zpad w n) = true.
Proof.
  apply all_chars_weaken with (p := is_digit);
    [exact is_digit_not_colon | apply zpad_digits].
Qed.

Lemma replace_colon_no_colon s :
  all_chars not_colon (Py.replace_char ":"%char "_" s) = true.
Proof.
  induction s as [|c s IH]; simpl; [reflexivity|].
  destruct (Ascii.eqb c ":"%char) eqn:E; simpl.
  - exact IH.
  - unfold not_colon at 1. now rewrite E, IH.
Qed.

(** A string without a colon has no [":"] in the sense of Python's [in]. *)
Lemma no_colon_contains s :
  all_chars not_colon s = true -> Py.contains ":" s = false.
Proof.
  induction s as [|c s IH]; cbn [all_chars Py.contains String.prefix];
    [reflexivity|].
  intros H. apply andb_true_iff in H as [Hc Hs].
  rewrite (IH Hs), orb_false_r.
  destruct (ascii_dec ":"%char c) as [e|ne]; [|reflexivity].
  subst c. discriminate Hc.
Qed.

(** Replacing a character that is only the last one removes it. *)
Lemma replace_char_absent old new s :
  all_chars (fun c => negb (Ascii.eqb c old)) s = true ->
  Py.replace_char old new s = s.
Proof.
  induction s as [|c s IH]; simpl; [reflexivity|].
  intros H. apply andb_true_iff in H as [Hc Hs].
  apply negb_true_iff in Hc. now rewrite Hc, IH.
Qed.

Lemma append_assoc a b c : (a ++ b) ++ c = a ++ (b ++ c).
Proof. induction a as [|x a IH]; simpl; [reflexivity|]. now rewrite IH. Qed.

Lemma replace_char_app old new a b :
  Py.replace_char old new (a ++ b)
  = Py.replace_char old new a ++ Py.replace_char old new b.
Proof.
  induction a as [|c a IH]; simpl; [reflexivity|].
  destruct (Ascii.eqb c old); rewrite IH; [|reflexivity].
  now rewrite append_assoc.
Qed.

End PyFacts.

(** ** The calendar *)

Module CalendarRanges.

Import Calendar.

Lemma civil_from_days_ranges z y m d :
  civil_from_days z = (y, m, d) -> 1 <= m <= 12 /\ 1 <= d <= 31.
Proof.
  unfold civil_from_days.
  set (doe := (z + 719468) mod 146097).
  set (yoe := (doe - doe / 1460 + doe / 36524 - doe / 146096) / 365).
  set (doy := doe - (365 * yoe + yoe / 4 - yoe / 100)).
  set (mp := (5 * doy + 2) / 153).
  intros H.
  assert (Hdoe : 0 <= doe < 146097) by (apply Z.mod_pos_bound; lia).
  assert (Hdoy : 0 <= doy <= 365)
    by (subst doy yoe; Z.to_euclidean_division_equations; lia).
  assert (Hmp : 0 <= mp <= 11)
    by (subst mp; Z.to_euclidean_division_equations; lia).
  assert (Hday : 1 <= doy - (153 * mp + 2) / 5 + 1 <= 31)
    by (subst mp; Z.to_euclidean_division_equations; lia).
  clearbody mp doy yoe doe.
  injection H as _ Hm Hd. subst m d. split; [|exact Hday].
  destruct (mp <? 10) eqn:E; [apply Z.ltb_lt in E | apply Z.ltb_ge in E]; lia.
Qed.

End CalendarRanges.

(** ** Stamps *)

Module CalendarFacts.

Import Calendar.

Lemma of_seconds_ranges t :
  let dt := of_seconds t in
  1 <= month dt <= 12 /\ 1 <= day dt <= 31 /\ 0 <= hour dt <= 23
  /\ 0 <= minute dt <= 59 /\ 0 <= second dt <= 59.
Proof.
  unfold of_seconds.
  destruct (civil_from_days (t / 86400)) as [[y m] d] eqn:E.
  apply CalendarRanges.civil_from_days_ranges in E. cbn [month day hour minute second].
  set (r := t mod 86400).
  assert (Hr : 0 <= r < 86400) by (apply Z.mod_pos_bound; lia).
  assert (Hq : 0 <= r mod 3600 < 3600) by (apply Z.mod_pos_bound; lia).
  assert (Hs : 0 <= r mod 60 < 60) by (apply Z.mod_pos_bound; lia).
  assert (Hh : 0 <= r / 3600 <= 23).
  { split; [apply Z.div_pos; lia|].
    apply Z.lt_succ_r, Z.div_lt_upper_bound; lia. }
  assert (Hm : 0 <= r mod 3600 / 60 <= 59).
  { split; [apply Z.div_pos; lia|].
    apply Z.lt_succ_r, Z.div_lt_upper_bound; lia. }
  lia.
Qed.

Lemma two_digits n : 0 <= n <= 99 -> 10 * (10 * 0 + (n / 10) mod 10) + n mod 10 = n.
Proof. intros H. Z.to_euclidean_division_equations. lia. Qed.

Lemma four_digits n :
  0 <= n <= 9999 ->
  10 * (10 * (10 * (10 * 0 + (n / 10 / 10 / 10) mod 10) + (n / 10 / 10) mod 10)
        + (n / 10) mod 10) + n mod 10 = n.
Proof. intros H. Z.to_euclidean_division_equations. lia. Qed.

Lemma digit_val_mod n :
  Py.digit_val (Py.digit_char (n mod 10)) = Some (n mod 10).
Proof.
  apply PyFacts.digit_val_digit_char. pose proof (Z.mod_pos_bound n 10). lia.
Qed.

(** A stamp is read back to the fields it was printed from. *)
Lemma parse_stamp_stamp c1 c2 dt :
  0 <= year dt <= 9999 -> 0 <= month dt <= 99 -> 0 <= day dt <= 99 ->
  0 <= hour dt <= 99 -> 0 <= minute dt <= 99 -> 0 <= second dt <= 99 ->
  parse_stamp (stamp (String c1 "") (String c2 "") dt) = Some dt.
Proof.
  intros Hy Hm Hd Hh Hmi Hs. destruct dt as [y m d h mi se].
  cbn [year month day hour minute second] in *.
  unfold parse_stamp, field_at, stamp.
  cbn [Py.zpad String.append String.substring String.length number Nat.eqb
       year month day hour minute second].
  rewrite !digit_val_mod.
  rewrite (four_digits y Hy), (two_digits m Hm), (two_digits d Hd),
    (two_digits h Hh), (two_digits mi Hmi), (two_digits se Hs).
  reflexivity.
Qed.

Lemma parse_stamp_of_seconds c1 c2 t :
  representable (of_seconds t) ->
  parse_stamp (stamp (String c1 "") (String c2 "") (of_seconds t))
  = Some (of_seconds t).
Proof.
  intros Hy. pose proof (of_seconds_ranges t) as H. cbv zeta in H.
  unfold representable in Hy.
  apply parse_stamp_stamp; lia.
Qed.

Lemma stamp_length s1 s2 dt :
  String.length (stamp s1 s2 dt)
  = (16 + String.length s1 + 2 * String.length s2)%nat.
Proof.
  unfold stamp. rewrite !PyFacts.length_app, !PyFacts.zpad_length.
  cbn [String.length]. lia.
Qed.

Lemma stamp_no_colon s1 s2 dt :
  Py.all_chars Py.not_colon s1 = true -> Py.all_chars Py.not_colon s2 = true ->
  Py.all_chars Py.not_colon (stamp s1 s2 dt) = true.
Proof.
  intros H1 H2. unfold stamp.
  rewrite !PyFacts.all_chars_app, !PyFacts.zpad_no_colon, H1, H2.
  reflexivity.
Qed.

(** [strftime('%Y-%m-%d %H:%M:%S').replace(':', '_')] *)
Lemma replace_colon_stamp dt :
  Py.replace_char ":"%char "_" (strftime_space_colon dt) = stamp " " "_" dt.
Proof.
  unfold strftime_space_colon, stamp.
  rewrite !PyFacts.replace_char_app.
  rewrite !(PyFacts.replace_char_absent ":"%char "_" (Py.zpad _ _))
    by apply PyFacts.zpad_no_colon.
  reflexivity.
Qed.

End CalendarFacts.

(** ** File names *)

Module NameFacts.

Import Scraper Calendar.

Section WithTimezone.

Variable localtime : Z -> Z.

Lemma output_file_name_shape d live t1 t2 :
  output_file_name localtime d live t1 t2
  = (if live then "pipeline_ml/live_predictor/live_prediction/" else "")
    ++ "data_brute_" ++ stamp " " "_" (of_seconds (datetime_now localtime t2))
    ++ "_to_" ++ stamp "_" "_" (of_seconds (datetime_now localtime t1 + d))
    ++ ".csv".
Proof.
  unfold output_file_name, timestamp_at.
  rewrite CalendarFacts.replace_colon_stamp.
  destruct live; reflexivity.
Qed.

Lemma log_file_name_shape d live t1 t2 :
  log_file_name localtime d live t1 t2
  = (if live then "pipeline_ml/live_predictor/live_prediction/logs/" else "logs/")
    ++ "log_" ++ stamp "_" "_" (of_seconds (datetime_now localtime t2))
    ++ "_to_" ++ stamp "_" "_" (of_seconds (datetime_now localtime t1 + d))
    ++ ".txt".
Proof. unfold log_file_name. destruct live; reflexivity. Qed.

(** C9, as the code has it: each method reads the clock twice, [t1] first
    and [t2] after it, and does not look at the stored start time.  The
    CSV name and the log name are functions of the duration, of the flag
    and of these two readings alone; the first stamp of a name is the local
    time of the second reading, the last stamp is the local time of the
    first reading plus the duration; both can be read back from the name,
    which has no colon.  When the two readings fall in the same second the
    last stamp is the first one plus the duration. *)
Theorem file_names_encode_clock_readings
  (d : Z) (live : bool) (t1 t2 : Z) :
  let start := of_seconds (datetime_now localtime t2) in
  let finish := of_seconds (datetime_now localtime t1 + d) in
  representable start -> representable finish ->
  exists csv_start log_start end_stamp,
    output_file_name localtime d live t1 t2
    = (if live then "pipeline_ml/live_predictor/live_prediction/" else "")
      ++ "data_brute_" ++ csv_start ++ "_to_" ++ end_stamp ++ ".csv"
    /\ log_file_name localtime d live t1 t2
       = (if live then "pipeline_ml/live_predictor/live_prediction/logs/"
          else "logs/")
         ++ "log_" ++ log_start ++ "_to_" ++ end_stamp ++ ".txt"
    /\ parse_stamp csv_start = Some start
    /\ parse_stamp log_start = Some start
    /\ parse_stamp end_stamp = Some finish
    /\ Py.contains ":" (output_file_name localtime d live t1 t2) = false
    /\ Py.contains ":" (log_file_name localtime d live t1 t2) = false
    /\ (datetime_now localtime t1 = datetime_now localtime t2 ->
        finish = of_seconds (datetime_now localtime t2 + d)).
Proof.
  intros start finish Hs Hf.
  exists (stamp " " "_" start), (stamp "_" "_" start), (stamp "_" "_" finish).
  split; [apply output_file_name_shape|].
  split; [apply log_file_name_shape|].
  split; [now apply CalendarFacts.parse_stamp_of_seconds|].
  split; [now apply CalendarFacts.parse_stamp_of_seconds|].
  split; [now apply CalendarFacts.parse_stamp_of_seconds|].
  split; [|split].
  - apply PyFacts.no_colon_contains. rewrite output_file_name_shape.
    rewrite !PyFacts.all_chars_app, !CalendarFacts.stamp_no_colon by reflexivity.
    now destruct live.
  - apply PyFacts.no_colon_contains. rewrite log_file_name_shape.
    rewrite !PyFacts.all_chars_app, !CalendarFacts.stamp_no_colon by reflexivity.
    now destruct live.
  - intros E. subst finish. now rewrite E.
Qed.

End WithTimezone.

Import Fixtures.

Lemma file_names_encode_clock_readings_witness :
  exists csv_start log_start end_stamp,
    output_file_name casablanca 180 false 1709210100999 1709210101000
    = "" ++ "data_brute_" ++ csv_start ++ "_to_" ++ end_stamp ++ ".csv"
    /\ log_file_name casablanca 180 false 1709210100999 1709210101000
       = "logs/" ++ "log_" ++ log_start ++ "_to_" ++ end_stamp ++ ".txt"
    /\ parse_stamp csv_start = Some (mkdt 2024 2 29 13 35 1)
    /\ parse_stamp log_start = Some (mkdt 2024 2 29 13 35 1)
    /\ parse_stamp end_stamp = Some (mkdt 2024 2 29 13 38 0)
    /\ Py.contains ":"
         (output_file_name casablanca 180 false 1709210100999 1709210101000)
       = false
    /\ Py.contains ":"
         (log_file_name casablanca 180 false 1709210100999 1709210101000)
       = false
    /\ (datetime_now casablanca 1709210100999
        = datetime_now casablanca 1709210101000 ->
        mkdt 2024 2 29 13 38 0
        = of_seconds (datetime_now casablanca 1709210101000 + 180)).
Proof.
  apply (file_names_encode_clock_readings casablanca 180 false
           1709210100999 1709210101000);
    unfold representable; vm_compute; split; discriminate.
Defined.

(** C9 fails as stated.  A session created at 13:34:56 local time for three
    minutes: the CSV file that [fetch_data] creates is named after the
    moment of its call of [get_output_file_name], five seconds later, and
    after that moment plus the duration, not after the start of the session
    and its end.  And two readings of the clock on either side of a second
    give a name whose last stamp is not its first stamp plus the
    duration. *)
Lemma csv_name_is_not_of_the_session_start_counterexample :
  of_seconds (datetime_now casablanca (start_time session_2024_ready))
  = mkdt 2024 2 29 13 34 56
  /\ fs (snd (fetch_data casablanca "https://1xbet.com/games/crash" []
                session_2024_ready))
     = [("data_brute_2024-02-29 13_35_01_to_2024-02-29_13_38_01.csv", [header])]
  /\ parse_stamp "2024-02-29 13_35_01" = Some (mkdt 2024 2 29 13 35 1)
  /\ parse_stamp "2024-02-29_13_38_01" = Some (mkdt 2024 2 29 13 38 1)
  /\ mkdt 2024 2 29 13 35 1 <> mkdt 2024 2 29 13 34 56
  /\ output_file_name casablanca 180 false 1709210100999 1709210101000
     = "data_brute_2024-02-29 13_35_01_to_2024-02-29_13_38_00.csv"
  /\ of_seconds (datetime_now casablanca 1709210101000 + 180)
     = mkdt 2024 2 29 13 38 1.
Proof.
  repeat split; try (vm_compute; reflexivity). discriminate.
Qed.

Example output_file_name_2024 :
  output_file_name casablanca 180 false 1709210096000 1709210096000
  = "data_brute_2024-02-29 13_34_56_to_2024-02-29_13_37_56.csv".
Proof. reflexivity. Qed.

(** The log name is computed when the scraper is created, the CSV name by
    [fetch_data], five seconds after it is called: the stamps of the CSV
    name are those of that later reading of the clock. *)
Example names_of_a_session :
  log_file_name casablanca 180 false (start_time session_2024_ready)
    (start_time session_2024_ready)
  = "logs/log_2024-02-29_13_34_56_to_2024-02-29_13_37_56.txt"
  /\ Props.output_file casablanca session_2024_ready
     = "data_brute_2024-02-29 13_35_01_to_2024-02-29_13_38_01.csv".
Proof. split; reflexivity. Qed.

End NameFacts.

(** ** The monad: what actions keep *)

Module MonadFacts.

Import Scraper Props.

Section Preserved.

Variable P : state -> Prop.

Lemma preserves_ret {A} (a : A) : preserves P (ret a).
Proof. intros st H. exact H. Qed.

Lemma preserves_raise {A} (e : exn) : preserves P (@raise A e).
Proof. intros st H. exact H. Qed.

Lemma preserves_bind {A B} (m : M A) (k : A -> M B) :
  preserves P m -> (forall a, preserves P (k a)) -> preserves P (bind m k).
Proof.
  intros Hm Hk st H. unfold bind. specialize (Hm st H).
  destruct (m st) as [[a|e|] st1]; cbn [snd] in *; auto.
  now apply Hk.
Qed.

Lemma preserves_try_except {A} (m : M A) (h : exn -> option (M A)) :
  preserves P m ->
  (forall e handler, h e = Some handler -> preserves P handler) ->
  preserves P (try_except m h).
Proof.
  intros Hm Hh st H. unfold try_except. specialize (Hm st H).
  destruct (m st) as [[a|e|] st1]; cbn [snd] in *; auto.
  destruct (h e) as [handler|] eqn:E; cbn [snd]; auto.
  now apply (Hh e handler E).
Qed.

Lemma preserves_try_finally {A} (m : M A) (f : M unit) :
  preserves P m -> preserves P f -> preserves P (try_finally m f).
Proof.
  intros Hm Hf st H. unfold try_finally. specialize (Hm st H).
  destruct (m st) as [[a|e|] st1]; cbn [snd] in *; auto;
    specialize (Hf st1 Hm); destruct (f st1) as [[u|e'|] st2]; cbn [snd] in *;
    auto.
Qed.

Hypothesis P_quiet : quiet P.

Lemma preserves_log l msg : preserves P (log l msg).
Proof. intros st H. now apply P_quiet. Qed.

Lemma preserves_the_driver attr : preserves P (the_driver attr).
Proof. intros st H. unfold the_driver. now destruct (driver st). Qed.

Lemma preserves_find_element page selector :
  preserves P (find_element page selector).
Proof.
  apply preserves_bind; [apply preserves_the_driver|].
  intros _ st H. destruct (page selector); cbn [snd]; now apply P_quiet.
Qed.

Hypothesis P_advance : forall ms st, P st -> P (advance ms st).

Lemma preserves_sleep ms : preserves P (sleep ms).
Proof.
  intros st H. unfold sleep; cbn [snd]. now apply P_advance, P_quiet.
Qed.

Lemma preserves_wait_until timeout appears :
  preserves P (wait_until timeout appears).
Proof.
  intros st H. unfold wait_until.
  destruct appears as [t|]; [destruct (t <=? timeout * 1000)|]; cbn [snd];
    now apply P_advance, P_quiet.
Qed.

Hypothesis P_load : forall st, P st -> P (count_load st).

Lemma preserves_driver_get url : preserves P (driver_get url).
Proof.
  apply preserves_bind; [apply preserves_the_driver|].
  intros _ st H. cbn [snd]. now apply P_load, P_quiet.
Qed.

End Preserved.

(** *** Actions that never run out of script *)

Lemma live_ret {A} (a : A) : live (ret a).
Proof. intros st. discriminate. Qed.

Lemma live_raise {A} (e : exn) : live (@raise A e).
Proof. intros st. discriminate. Qed.

Lemma live_bind {A B} (m : M A) (k : A -> M B) :
  live m -> (forall a, live (k a)) -> live (bind m k).
Proof.
  intros Hm Hk st. unfold bind. specialize (Hm st).
  destruct (m st) as [[a|e|] st1]; cbn [fst] in *;
    [apply Hk | discriminate | congruence].
Qed.

Lemma live_try_except {A} (m : M A) (h : exn -> option (M A)) :
  live m -> (forall e handler, h e = Some handler -> live handler) ->
  live (try_except m h).
Proof.
  intros Hm Hh st. unfold try_except. specialize (Hm st).
  destruct (m st) as [[a|e|] st1]; cbn [fst] in *;
    [discriminate | | congruence].
  destruct (h e) as [handler|] eqn:E; [apply (Hh e handler E) | discriminate].
Qed.

Lemma live_log l msg : live (log l msg).
Proof. intros st. discriminate. Qed.

Lemma live_sleep ms : live (sleep ms).
Proof. intros st. discriminate. Qed.

Lemma live_the_driver attr : live (the_driver attr).
Proof. intros st. unfold the_driver. destruct (driver st); discriminate. Qed.

Lemma live_driver_get url : live (driver_get url).
Proof.
  apply live_bind; [apply live_the_driver|]. intros _ st. discriminate.
Qed.

Lemma live_wait_until timeout appears : live (wait_until timeout appears).
Proof.
  intros st. unfold wait_until.
  destruct appears as [t|]; [destruct (t <=? timeout * 1000)|]; discriminate.
Qed.

Lemma live_find_element page selector : live (find_element page selector).
Proof.
  apply live_bind; [apply live_the_driver|].
  intros _ st. destruct (page selector); discriminate.
Qed.

(** *** The properties kept *)

Lemma later_refl st : later st st.
Proof. unfold later. repeat split; lia. Qed.

Lemma later_trans st1 st2 st3 : later st1 st2 -> later st2 st3 -> later st1 st3.
Proof. unfold later. intros H1 H2. repeat split; try lia; intuition congruence. Qed.

Lemma stable_later st0 : stable (later st0).
Proof.
  unfold stable, quiet, later. repeat split; intros; cbn; intuition lia.
Qed.

Lemma stable_fs f : stable (fun st => fs st = f).
Proof. unfold stable, quiet. repeat split; intros; assumption. Qed.

Lemma stable_header_once file : stable (header_once file).
Proof. unfold stable, quiet, header_once. repeat split; intros; assumption. Qed.

Lemma stable_driver b : stable (fun st => driver st = b).
Proof. unfold stable, quiet. repeat split; intros; assumption. Qed.

Lemma quiet_now t : quiet (fun st => now st = t).
Proof. intros e st H. exact H. Qed.

End MonadFacts.

(** ** [extract_data] *)

Module ExtractFacts.

Import Scraper Props MonadFacts.

Lemma extract_loop_extracted page : forall els data st,
  driver st = true ->
  fst (extract_loop page els data st) = extracted page els data.
Proof.
  induction els as [|[key selector] rest IH]; intros data st Hd;
    cbn [extract_loop extracted]; [reflexivity|].
  unfold find_element, bind, the_driver. rewrite Hd.
  destruct (page selector) as [text|]; [|reflexivity].
  now apply IH.
Qed.

(** The loop ends normally or on a missing element, nothing else. *)
Lemma extract_loop_outcome page : forall els data st,
  driver st = true ->
  fst (snd (extract_loop page els data st)) = Ok tt
  \/ exists msg,
       fst (snd (extract_loop page els data st))
       = Raise (NoSuchElementException msg).
Proof.
  induction els as [|[key selector] rest IH]; intros data st Hd;
    cbn [extract_loop]; [now left|].
  unfold find_element, bind, the_driver. rewrite Hd.
  destruct (page selector) as [text|]; [now apply IH|].
  right. eexists. reflexivity.
Qed.

Lemma extract_loop_preserves P page :
  quiet P -> forall els data st,
  P st -> P (snd (snd (extract_loop page els data st))).
Proof.
  intros HP. induction els as [|[key selector] rest IH]; intros data st H;
    cbn [extract_loop]; [exact H|].
  pose proof (preserves_find_element P HP page selector st H) as H1.
  destruct (find_element page selector st) as [[text|e|] st1]; cbn [snd] in *;
    auto.
Qed.

Lemma extract_data_preserves P page :
  quiet P -> preserves P (extract_data page).
Proof.
  intros HP. unfold extract_data.
  apply preserves_bind; [now apply preserves_log|]. intros _ st H.
  pose proof (extract_loop_preserves P page HP elements [] st H) as H1.
  destruct (extract_loop page elements [] st) as [data [r st1]].
  cbn [snd] in H1. unfold bind, try_except.
  destruct r as [u|e|]; cbn [snd]; auto.
  - now apply HP.
  - destruct e; cbn [snd]; auto. now apply HP.
Qed.

Lemma extract_data_live page : live (extract_data page).
Proof.
  unfold extract_data. apply live_bind; [apply live_log|]. intros _ st.
  assert (H : fst (snd (extract_loop page elements [] st)) <> OutOfScript).
  { generalize (@nil (string * string)) at 1. generalize st.
    induction elements as [|[key selector] rest IH]; intros st0 data;
      cbn [extract_loop]; [discriminate|].
    pose proof (live_find_element page selector st0) as L.
    destruct (find_element page selector st0) as [[text|e|] st1];
      cbn [fst snd] in *; [apply IH | discriminate | congruence]. }
  destruct (extract_loop page elements [] st) as [data [r st1]].
  cbn [fst snd] in H. unfold bind, try_except.
  destruct r as [u|e|]; cbn [fst]; [discriminate| |congruence].
  destruct e; discriminate.
Qed.

(** With a browser session, [extract_data] returns normally, whatever the
    page has. *)
Lemma extract_data_returns page st :
  driver st = true ->
  exists st', extract_data page st = (Ok (extracted page elements []), st').
Proof.
  intros Hd. unfold extract_data, bind at 1, log.
  set (st0 := emit _ st).
  assert (Hd0 : driver st0 = true) by exact Hd.
  pose proof (extract_loop_extracted page elements [] st0 Hd0) as Hx.
  pose proof (extract_loop_outcome page elements [] st0 Hd0) as Ho.
  destruct (extract_loop page elements [] st0) as [data [r st1]].
  cbn [fst snd] in *. subst data. unfold bind, try_except.
  destruct Ho as [-> | [msg ->]]; eexists; reflexivity.
Qed.

Lemma extract_data_ok page st :
  driver st = true ->
  extract_data page st
  = (Ok (extracted page elements []), snd (extract_data page st)).
Proof.
  intros Hd. destruct (extract_data_returns page st Hd) as [st' E].
  now rewrite E.
Qed.

Ltac lookup page :=
  match goal with
  | |- context [page ?s] =>
      let text := fresh "text" in
      let E := fresh "E" in
      destruct (page s) as [text|] eqn:E
  end.

Ltac field_cases :=
  let i := fresh "i" in
  let key := fresh "key" in
  let selector := fresh "selector" in
  let H := fresh "H" in
  let Hi := fresh "Hi" in
  intros i key selector H Hi;
  destruct i as [|[|[|[|i]]]]; cbn [nth_error] in H; try lia;
  try (destruct i; discriminate H);
  injection H as <- <-;
  try reflexivity;
  try (eexists; split; [eassumption | reflexivity]).

Ltac nth_case :=
  let key := fresh "key" in
  let selector := fresh "selector" in
  let H := fresh "H" in
  intros key selector H; cbn [nth_error] in H;
  try discriminate H; injection H as <- <-; assumption.

Lemma extracted_prefix page :
  exists n, prefix_of_fields page (extracted page elements []) n.
Proof.
  unfold prefix_of_fields, elements. cbn [extracted].
  lookup page; [lookup page; [lookup page; [lookup page|]|]|].
  - exists 4%nat. split; [reflexivity | split; [field_cases | split; [nth_case | field_cases]]].
  - exists 3%nat. split; [reflexivity | split; [field_cases | split; [nth_case | field_cases]]].
  - exists 2%nat. split; [reflexivity | split; [field_cases | split; [nth_case | field_cases]]].
  - exists 1%nat. split; [reflexivity | split; [field_cases | split; [nth_case | field_cases]]].
  - exists 0%nat. split; [reflexivity | split; [field_cases | split; [nth_case | field_cases]]].
Qed.

(** C10: with a browser session, [extract_data] never raises, whatever
    elements the page lacks; the keys of the dictionary it returns are the
    first [n] of Value X, Value Bets, Value Prize, Value Players, in this
    order: the elements before the [n]-th are on the page and their stripped
    texts are the values, the [n]-th element (if there is one) is missing,
    and no key from the [n]-th on is in the result. *)
Theorem extract_data_keys_prefix (page : string -> option string) (st : state) :
  driver st = true ->
  exists data st' n,
    extract_data page st = (Ok data, st')
    /\ Py.keys data
       = firstn n ["Value X"; "Value Bets"; "Value Prize"; "Value Players"]
    /\ (forall i key selector,
          nth_error elements i = Some (key, selector) -> (i < n)%nat ->
          exists text,
            page selector = Some text
            /\ Py.dict_get data key = Some (Py.strip text))
    /\ (forall key selector,
          nth_error elements n = Some (key, selector) -> page selector = None)
    /\ (forall i key selector,
          nth_error elements i = Some (key, selector) -> (n <= i)%nat ->
          Py.dict_get data key = None).
Proof.
  intros Hd. destruct (extract_data_returns page st Hd) as [st' E].
  destruct (extracted_prefix page) as [n Hn].
  exists (extracted page elements []), st', n. split; [exact E | exact Hn].
Qed.

End ExtractFacts.

(** ** The polling loop *)

Module LoopFacts.

Import Scraper Props MonadFacts ExtractFacts.

Ltac fields :=
  cbn [fst snd now fs driver duration start_time live_prediction loads trace
       url_crash_plane emit advance with_fs count_load with_url with_driver].

Lemma bind_ok {A B} (m : M A) (k : A -> M B) st a st' :
  m st = (Ok a, st') -> bind m k st = k a st'.
Proof. intros E. unfold bind. now rewrite E. Qed.

Lemma try_except_bind_ok {A B} (m : M A) (k : A -> M B) h st a st' :
  m st = (Ok a, st') -> try_except (bind m k) h st = try_except (k a) h st'.
Proof. intros E. unfold try_except, bind. now rewrite E. Qed.

(** *** Time *)

Lemma within_bind {A B} hi1 hi2 (m : M A) (k : A -> M B) :
  0 <= hi2 -> within hi1 m -> (forall a, within hi2 (k a)) ->
  within (hi1 + hi2) (bind m k).
Proof.
  intros H0 Hm Hk st. unfold bind. specialize (Hm st).
  destruct (m st) as [[a|e|] st1]; cbn [snd] in *; try lia.
  specialize (Hk a st1). lia.
Qed.

Lemma within_try_except {A} hi1 hi2 (m : M A) h :
  0 <= hi2 -> within hi1 m ->
  (forall e handler, h e = Some handler -> within hi2 handler) ->
  within (hi1 + hi2) (try_except m h).
Proof.
  intros H0 Hm Hh st. unfold try_except. specialize (Hm st).
  destruct (m st) as [[a|e|] st1]; cbn [snd] in *; try lia.
  destruct (h e) as [handler|] eqn:E; cbn [snd]; try lia.
  specialize (Hh e handler E st1). lia.
Qed.

Lemma within_wait_until timeout appears :
  0 <= timeout -> within (timeout * 1000) (wait_until timeout appears).
Proof.
  intros H0 st. unfold wait_until.
  destruct appears as [t|];
    [destruct (t <=? timeout * 1000) eqn:E; [apply Z.leb_le in E|]|];
    fields; lia.
Qed.

Lemma extract_data_now page st : now (snd (extract_data page st)) = now st.
Proof.
  now apply (extract_data_preserves (fun s => now s = now st) page (quiet_now _)).
Qed.

Lemma extract_data_fs page st : fs (snd (extract_data page st)) = fs st.
Proof.
  apply (extract_data_preserves (fun s => fs s = fs st) page); [|reflexivity].
  intros e s H. exact H.
Qed.

Section WithTimezone.

Variable localtime : Z -> Z.

#[local] Abbreviation cycle_body := (cycle_body localtime).
#[local] Abbreviation cycle := (cycle localtime).
#[local] Abbreviation poll := (poll localtime).

(** What [cycle_body] does, case by case. *)
Lemma cycle_body_skip file data st :
  no_valid_data data = true ->
  cycle_body file data st
  = (Ok Continue,
     advance 3000
       (emit (EvSleep 3000)
          (emit (EvLog DEBUG
                   "No valid data found or Value X empty, waiting before retrying.")
             st))).
Proof. intros H. unfold Scraper.cycle_body. rewrite H. reflexivity. Qed.

Lemma cycle_body_row file data st x bets prize players :
  no_valid_data data = false ->
  Py.dict_get data "Value X" = Some x ->
  Py.dict_get data "Value Bets" = Some bets ->
  Py.dict_get data "Value Prize" = Some prize ->
  Py.dict_get data "Value Players" = Some players ->
  let line :=
    csv_line (timestamp_at localtime (now st)) x bets prize players in
  cycle_body file data st
  = (Ok Continue,
     advance 800
       (emit (EvSleep 800)
          (emit (EvLog INFO ("Data extracted and written: " ++ Py.strip line))
             (snd (file_write file line st))))).
Proof.
  intros H Hx Hb Hp Hl. unfold Scraper.cycle_body, subscript.
  rewrite H. unfold bind at 1, get_timestamp.
  rewrite Hx. unfold bind at 1, ret at 1. rewrite Hb. unfold bind at 1, ret at 1.
  rewrite Hp. unfold bind at 1, ret at 1. rewrite Hl. reflexivity.
Qed.

(** A missing field makes the row fail on the first key that is absent. *)
Lemma cycle_body_key_error file data st :
  no_valid_data data = false ->
  (exists key, In key ["Value X"; "Value Bets"; "Value Prize"; "Value Players"]
               /\ Py.dict_get data key = None) ->
  exists key,
    In key ["Value X"; "Value Bets"; "Value Prize"; "Value Players"]
    /\ Py.dict_get data key = None
    /\ cycle_body file data st = (Raise (KeyError key), st).
Proof.
  intros H [key0 [Hin Hnone]]. unfold Scraper.cycle_body, subscript.
  rewrite H. unfold bind at 1, get_timestamp.
  destruct (Py.dict_get data "Value X") as [x|] eqn:Ex;
    [|exists "Value X"; cbn [In]; auto].
  unfold bind at 1, ret at 1.
  destruct (Py.dict_get data "Value Bets") as [b|] eqn:Eb;
    [|exists "Value Bets"; cbn [In]; auto].
  unfold bind at 1, ret at 1.
  destruct (Py.dict_get data "Value Prize") as [p|] eqn:Ep;
    [|exists "Value Prize"; cbn [In]; auto].
  unfold bind at 1, ret at 1.
  destruct (Py.dict_get data "Value Players") as [l|] eqn:El;
    [|exists "Value Players"; cbn [In]; auto 6].
  exfalso. cbn [In] in Hin.
  destruct Hin as [<-|[<-|[<-|[<-|[]]]]]; congruence.
Qed.

Lemma wait_until_ok timeout t st :
  t <= timeout * 1000 ->
  wait_until timeout (Some t) st = (Ok tt, advance t (emit (EvWait timeout) st)).
Proof.
  intros H. unfold wait_until. apply Z.leb_le in H. now rewrite H.
Qed.

(** A turn whose wait succeeds goes on with the extracted data. *)
Lemma cycle_extracted file o st t :
  driver st = true -> svg_after o = Some t -> t <= 30000 ->
  cycle file o st
  = try_except (cycle_body file (extracted (dom o) elements [])) page_changed
      (snd (extract_data (dom o) (advance t (emit (EvWait 30) st)))).
Proof.
  intros Hd Hsvg Ht. unfold Scraper.cycle. rewrite Hsvg.
  rewrite (try_except_bind_ok _ _ _ _ _ _ (wait_until_ok 30 t st Ht)).
  cbv beta.
  now rewrite (try_except_bind_ok _ _ _ _ _ _
                 (extract_data_ok (dom o) (advance t (emit (EvWait 30) st)) Hd)).
Qed.

Lemma cycle_body_within file data : within 3000 (cycle_body file data).
Proof.
  intros st. unfold Scraper.cycle_body, subscript, bind, get_timestamp, ret,
    raise, log, sleep, file_write.
  destruct (no_valid_data data); [fields; lia|].
  destruct (Py.dict_get data "Value X"); [|fields; lia].
  destruct (Py.dict_get data "Value Bets"); [|fields; lia].
  destruct (Py.dict_get data "Value Prize"); [|fields; lia].
  destruct (Py.dict_get data "Value Players"); fields; lia.
Qed.

Lemma cycle_body_atleast file data : atleast 800 (cycle_body file data).
Proof.
  intros st c st'. unfold Scraper.cycle_body, subscript, bind, get_timestamp,
    ret, raise, log, sleep, file_write.
  destruct (no_valid_data data);
    [intros E; injection E as _ <-; fields; lia|].
  destruct (Py.dict_get data "Value X"); [|discriminate].
  destruct (Py.dict_get data "Value Bets"); [|discriminate].
  destruct (Py.dict_get data "Value Prize"); [|discriminate].
  destruct (Py.dict_get data "Value Players"); [|discriminate].
  intros E; injection E as _ <-; fields; lia.
Qed.

Lemma cycle_body_live file data : live (cycle_body file data).
Proof.
  intros st. unfold Scraper.cycle_body, subscript, bind, get_timestamp, ret,
    raise, log, sleep, file_write.
  destruct (no_valid_data data); [discriminate|].
  destruct (Py.dict_get data "Value X"); [|discriminate].
  destruct (Py.dict_get data "Value Bets"); [|discriminate].
  destruct (Py.dict_get data "Value Prize"); [|discriminate].
  destruct (Py.dict_get data "Value Players"); discriminate.
Qed.

(** A property that the rows written do not break is kept by the body. *)
Lemma cycle_body_preserves P file data :
  stable P ->
  (forall t x bets prize players,
     preserves P
       (file_write file (csv_line (timestamp_at localtime t) x bets prize players))) ->
  preserves P (cycle_body file data).
Proof.
  intros [Hq [Ha Hl]] Hw st H.
  unfold Scraper.cycle_body, subscript, bind, get_timestamp, ret, raise.
  destruct (no_valid_data data).
  - cbn [snd log sleep]. now apply Ha, Hq, Hq.
  - destruct (Py.dict_get data "Value X"); [|exact H].
    destruct (Py.dict_get data "Value Bets"); [|exact H].
    destruct (Py.dict_get data "Value Prize"); [|exact H].
    destruct (Py.dict_get data "Value Players"); [|exact H].
    specialize (Hw (now st) s s0 s1 s2 st H).
    destruct (file_write file _ st) as [[u|e|] st1] eqn:E; cbn [snd] in *;
      try exact Hw.
    cbn [snd log sleep]. now apply Ha, Hq, Hq.
Qed.

Lemma page_changed_handler e handler :
  page_changed e = Some handler ->
  handler = (log WARNING "The crash plane URL changed or elements not found." ;;
             ret Break)%scraper.
Proof. destruct e; cbn; intros E; now inversion E. Qed.

Lemma cycle_preserves P file o :
  stable P ->
  (forall t x bets prize players,
     preserves P
       (file_write file (csv_line (timestamp_at localtime t) x bets prize players))) ->
  preserves P (cycle file o).
Proof.
  intros HP Hw. pose proof HP as [Hq [Ha Hl]]. unfold Scraper.cycle.
  apply preserves_try_except.
  - apply preserves_bind; [now apply preserves_wait_until|]. intros _.
    apply preserves_bind; [now apply extract_data_preserves|]. intros data.
    now apply cycle_body_preserves.
  - intros e handler E. rewrite (page_changed_handler e handler E).
    apply preserves_bind; [now apply preserves_log|]. intros _.
    apply preserves_ret.
Qed.

Lemma cycle_live file o : live (cycle file o).
Proof.
  unfold Scraper.cycle. apply live_try_except.
  - apply live_bind; [apply live_wait_until|]. intros _.
    apply live_bind; [apply extract_data_live|]. intros data.
    apply cycle_body_live.
  - intros e handler E. rewrite (page_changed_handler e handler E).
    apply live_bind; [apply live_log|]. intros _. apply live_ret.
Qed.

(** A turn takes 33 seconds at most. *)
Lemma cycle_within file o : within cycle_max (cycle file o).
Proof.
  unfold Scraper.cycle, cycle_max.
  replace (30 * 1000 + 3000) with (30 * 1000 + (0 + 3000) + 0) by lia.
  apply within_try_except; [lia| |].
  - apply within_bind; [lia | apply within_wait_until; lia |]. intros _.
    apply within_bind; [lia | |].
    + intros st. rewrite extract_data_now. lia.
    + intros data. apply cycle_body_within.
  - intros e handler E. rewrite (page_changed_handler e handler E).
    intros st. cbn. lia.
Qed.

Lemma file_write_later st0 file line : preserves (later st0) (file_write file line).
Proof. intros st H. exact H. Qed.

Lemma cycle_later file o st : later st (snd (cycle file o st)).
Proof.
  apply (cycle_preserves (later st) file o (stable_later st)).
  - intros. apply file_write_later.
  - apply later_refl.
Qed.

Lemma bind_inv_ok {A B} (m : M A) (k : A -> M B) st b st' :
  bind m k st = (Ok b, st') ->
  exists a st1, m st = (Ok a, st1) /\ k a st1 = (Ok b, st').
Proof.
  unfold bind. destruct (m st) as [[a|e|] st1]; try discriminate.
  intros E. now exists a, st1.
Qed.

(** A turn that goes on to the next has taken 800 milliseconds at least. *)
Lemma cycle_continue_atleast file o st st' :
  cycle file o st = (Ok Continue, st') -> now st + 800 <= now st'.
Proof.
  unfold Scraper.cycle, try_except.
  destruct ((wait_until 30 (svg_after o) ;;
             data <- extract_data (dom o) ;; cycle_body file data)%scraper st)
    as [[c|e|] st1] eqn:E.
  - intros E'. injection E' as -> ->.
    apply bind_inv_ok in E as [u [s1 [Ew E]]].
    apply bind_inv_ok in E as [data [s2 [Ex E]]].
    apply cycle_body_atleast in E.
    pose proof (extract_data_now (dom o) s1) as Hx. rewrite Ex in Hx.
    cbn [snd] in Hx.
    assert (Hw : now st <= now s1).
    { pose proof (preserves_wait_until (later st)
                    (proj1 (stable_later st))
                    (proj1 (proj2 (stable_later st))) 30 (svg_after o) st
                    (later_refl st)) as L.
      rewrite Ew in L. cbn [snd] in L. unfold later in L. tauto. }
    lia.
  - destruct (page_changed e) as [handler|] eqn:Eh; [|discriminate].
    rewrite (page_changed_handler e handler Eh). discriminate.
  - discriminate.
Qed.

End WithTimezone.

End LoopFacts.

(** ** The loop as a whole *)

Module PollFacts.

Import Scraper Props MonadFacts ExtractFacts LoopFacts.

Section WithTimezone.

Variable localtime : Z -> Z.

#[local] Abbreviation cycle_body := (cycle_body localtime).
#[local] Abbreviation cycle := (cycle localtime).
#[local] Abbreviation poll := (poll localtime).

Lemma poll_stopped file script st :
  running st = false -> poll file script st = (Ok tt, st).
Proof. intros H. destruct script; cbn [Scraper.poll]; now rewrite H. Qed.

Lemma poll_continue file o rest st st' :
  running st = true -> cycle file o st = (Ok Continue, st') ->
  poll file (o :: rest) st = poll file rest st'.
Proof. intros H E. cbn [Scraper.poll]. now rewrite H, E. Qed.

Lemma poll_raise file o rest st e st' :
  running st = true -> cycle file o st = (Raise e, st') ->
  poll file (o :: rest) st = (Raise e, st').
Proof. intros H E. cbn [Scraper.poll]. now rewrite H, E. Qed.

Lemma poll_break file o rest st st' :
  running st = true -> cycle file o st = (Ok Break, st') ->
  poll file (o :: rest) st = (Ok tt, st').
Proof. intros H E. cbn [Scraper.poll]. now rewrite H, E. Qed.

Lemma poll_preserves P file :
  stable P ->
  (forall t x bets prize players,
     preserves P
       (file_write file (csv_line (timestamp_at localtime t) x bets prize players))) ->
  forall script, preserves P (poll file script).
Proof.
  intros HP Hw. induction script as [|o rest IH]; intros st H;
    cbn [Scraper.poll]; destruct (running st); try exact H.
  pose proof (cycle_preserves localtime P file o HP Hw st H) as H1.
  destruct (cycle file o st) as [[[|]|e|] st1]; cbn [snd] in *; auto.
Qed.

Lemma enough_after file o rest st st' :
  enough (o :: rest) st -> cycle file o st = (Ok Continue, st') ->
  enough rest st'.
Proof.
  unfold enough. intros H E.
  pose proof (cycle_continue_atleast localtime file o st st' E) as Ht.
  pose proof (cycle_later localtime file o st) as L. rewrite E in L.
  cbn [snd] in L. destruct L as [Hd [_ [Hs _]]]. rewrite Hd, Hs.
  cbn [List.length] in H. lia.
Qed.

(** The loop ends, and not later than the duration and one turn after the
    start, unless it was entered later than that. *)
Lemma poll_ends file : forall script st,
  enough script st ->
  exists r st',
    poll file script st = (r, st')
    /\ r <> OutOfScript
    /\ later st st'
    /\ now st' - start_time st
       <= Z.max (now st - start_time st) (duration st * 1000 + cycle_max)
    /\ (running st = true ->
        now st' - start_time st < duration st * 1000 + cycle_max).
Proof.
  induction script as [|o rest IH]; intros st He.
  - destruct (running st) eqn:R.
    + unfold running in R. apply Z.ltb_lt in R. unfold enough in He.
      cbn [List.length] in He. lia.
    + exists (Ok tt), st. rewrite (poll_stopped file [] st R).
      split; [reflexivity|]. split; [discriminate|].
      split; [apply later_refl|]. split; [lia | discriminate].
  - destruct (running st) eqn:R.
    + pose proof (cycle_within localtime file o st) as Hw.
      pose proof (cycle_later localtime file o st) as L.
      pose proof (cycle_live localtime file o st) as Hl.
      pose proof R as R'. unfold running in R'. apply Z.ltb_lt in R'.
      destruct (cycle file o st) as [[[|]|e|] st1] eqn:E; cbn [fst snd] in *.
      * destruct (IH st1 (enough_after file o rest st st1 He E))
          as [r [st' [Ep [Hr [L' [Hb Hstrict]]]]]].
        exists r, st'. rewrite (poll_continue file o rest st st1 R E).
        pose proof L as [Hd [_ [Hs _]]]. rewrite Hd, Hs in Hb.
        split; [exact Ep|]. split; [exact Hr|].
        split; [eapply later_trans; eassumption|].
        assert (Hlt : now st' - start_time st
                      < duration st * 1000 + cycle_max).
        { destruct (running st1) eqn:R1.
          - specialize (Hstrict eq_refl). rewrite Hd, Hs in Hstrict. lia.
          - rewrite (poll_stopped file rest st1 R1) in Ep.
            injection Ep as _ <-. lia. }
        split; [lia | intros _; exact Hlt].
      * exists (Ok tt), st1. rewrite (poll_break file o rest st st1 R E).
        split; [reflexivity|]. split; [discriminate|].
        split; [exact L|]. split; [lia | intros _; lia].
      * exists (Raise e), st1. rewrite (poll_raise file o rest st e st1 R E).
        split; [reflexivity|]. split; [discriminate|].
        split; [exact L|]. split; [lia | intros _; lia].
      * congruence.
    + exists (Ok tt), st. rewrite (poll_stopped file _ st R).
      split; [reflexivity|]. split; [discriminate|].
      split; [apply later_refl|]. split; [lia | discriminate].
Qed.

(** C2, as the code has it: the loop ends for every script of
    observations that is long enough, whatever the pages show (so also when
    every extraction fails); it runs no turn that begins at or after the
    duration, and a turn lasts 33 seconds at most: a loop entered before
    the duration has passed ends less than the duration and 33 seconds
    after the session start, a loop entered later ends at once, at its
    entry time. *)
Theorem loop_ends_within_duration_and_one_turn
  (file : string) (script : list observation) (st : state) :
  enough script st ->
  exists r st',
    poll file script st = (r, st')
    /\ r <> OutOfScript
    /\ (running st = true ->
        now st' - start_time st < duration st * 1000 + cycle_max)
    /\ (running st = false -> r = Ok tt /\ st' = st)
    /\ now st' - start_time st
       <= Z.max (now st - start_time st) (duration st * 1000 + cycle_max).
Proof.
  intros He.
  destruct (poll_ends file script st He)
    as [r [st' [E [Hr [_ [Hb Hs]]]]]].
  exists r, st'. split; [exact E|]. split; [exact Hr|].
  split; [exact Hs|]. split; [|exact Hb].
  intros R. rewrite (poll_stopped file script st R) in E.
  now injection E as <- <-.
Qed.

End WithTimezone.

End PollFacts.

(** ** What a turn of the loop does with the page *)

Module TurnFacts.

Import Scraper Props Fixtures MonadFacts ExtractFacts LoopFacts PollFacts.

Lemma no_valid_data_empty_multiplier data :
  Py.dict_get data "Value X" = None \/ Py.dict_get data "Value X" = Some "" ->
  no_valid_data data = true.
Proof.
  intros [H|H]; unfold no_valid_data; destruct data; try reflexivity;
    now rewrite H.
Qed.

Lemma fs_get_put f p ls : fs_get (fs_put f p ls) p = Some ls.
Proof.
  induction f as [|[q old] rest IH]; cbn [fs_put fs_get].
  - now rewrite String.eqb_refl.
  - destruct (String.eqb q p) eqn:E; cbn [fs_get]; now rewrite E.
Qed.

Lemma strip_trailing_unit_x s : strip_trailing_unit (s ++ "x") = s.
Proof.
  induction s as [|c s IH]; [reflexivity|].
  cbn [String.append strip_trailing_unit].
  destruct (s ++ "x") eqn:E; [destruct s; discriminate E|].
  now rewrite IH.
Qed.

Lemma replace_x_trailing s :
  Py.all_chars Py.not_x s = true ->
  Py.replace_char "x"%char "" (s ++ "x") = s.
Proof.
  intros H. rewrite PyFacts.replace_char_app.
  rewrite (PyFacts.replace_char_absent "x"%char "" s H).
  cbn. induction s as [|c s IH]; [reflexivity|]. cbn.
  cbn in H. apply andb_true_iff in H as [_ H]. now rewrite IH.
Qed.

Section WithTimezone.

Variable localtime : Z -> Z.

#[local] Abbreviation cycle := (cycle localtime).
#[local] Abbreviation poll := (poll localtime).

(** The data that the turn works on is what [extract_data] returned. *)
Lemma cycle_on_data file o st t data st2 :
  driver st = true -> svg_after o = Some t -> t <= 30000 ->
  extract_data (dom o) (advance t (emit (EvWait 30) st)) = (Ok data, st2) ->
  cycle file o st = try_except (cycle_body localtime file data) page_changed st2
  /\ data = extracted (dom o) elements []
  /\ fs st2 = fs st /\ now st2 = now st + Z.max 0 t.
Proof.
  intros Hd Hsvg Ht Hx.
  rewrite (cycle_extracted localtime file o st t Hd Hsvg Ht).
  pose proof (extract_data_ok (dom o) (advance t (emit (EvWait 30) st)) Hd)
    as Hok.
  pose proof (extract_data_fs (dom o) (advance t (emit (EvWait 30) st))) as Hfs.
  pose proof (extract_data_now (dom o) (advance t (emit (EvWait 30) st))) as Hn.
  rewrite Hx in Hok, Hfs, Hn |- *. injection Hok as ->. cbn [snd] in *.
  auto.
Qed.

(** C7: in a turn of the running loop whose wait for the page succeeds, if
    the extracted data has no Value X or an empty one, the turn writes no
    row (the files are as before), raises nothing, pauses three seconds
    and the loop goes on with the next turn. *)
Theorem empty_multiplier_skips_the_turn
  (file : string) (o : observation) (rest : list observation) (st : state)
  (t : Z) (data : Py.dict) (st2 : state) :
  running st = true -> driver st = true ->
  svg_after o = Some t -> t <= 30000 ->
  extract_data (dom o) (advance t (emit (EvWait 30) st)) = (Ok data, st2) ->
  Py.dict_get data "Value X" = None \/ Py.dict_get data "Value X" = Some "" ->
  exists st3,
    cycle file o st = (Ok Continue, st3)
    /\ fs st3 = fs st
    /\ trace st3
       = (trace st2
          ++ [EvLog DEBUG
                "No valid data found or Value X empty, waiting before retrying.";
              EvSleep 3000])%list
    /\ now st3 = now st + Z.max 0 t + 3000
    /\ poll file (o :: rest) st = poll file rest st3.
Proof.
  intros R Hd Hsvg Ht Hx Hempty.
  destruct (cycle_on_data file o st t data st2 Hd Hsvg Ht Hx)
    as [E [_ [Hfs Hnow]]].
  pose proof (no_valid_data_empty_multiplier data Hempty) as Hnv.
  unfold try_except in E. rewrite (cycle_body_skip localtime file data st2 Hnv) in E.
  eexists. split; [exact E|].
  split; [exact Hfs|]. split; [|split].
  - cbn [trace advance emit]. now rewrite <- app_assoc.
  - cbn [now advance emit]. lia.
  - now apply poll_continue.
Qed.

(** C1, as the code has it: in a turn of the running loop whose wait
    succeeds, a page without the element of the multiplier (Value X) does
    not stop the loop.  [extract_data] takes the failed lookup itself and
    returns an empty dictionary; the turn writes no row (the files are as
    before), raises nothing, logs that it waits, pauses three seconds, and
    the loop goes on with the next turn, on the next observation. *)
Theorem missing_multiplier_does_not_stop_the_loop
  (file : string) (o : observation) (rest : list observation) (st : state)
  (t : Z) :
  running st = true -> driver st = true ->
  svg_after o = Some t -> t <= 30000 ->
  (forall selector, In ("Value X", selector) elements -> dom o selector = None) ->
  exists st3,
    cycle file o st = (Ok Continue, st3)
    /\ extracted (dom o) elements [] = []
    /\ fs st3 = fs st
    /\ now st3 = now st + Z.max 0 t + 3000
    /\ (exists tr,
          trace st3
          = (tr ++ [EvLog DEBUG
                      "No valid data found or Value X empty, waiting before retrying.";
                    EvSleep 3000])%list)
    /\ poll file (o :: rest) st = poll file rest st3.
Proof.
  intros R Hd Hsvg Ht Hmiss.
  destruct (extract_data_returns (dom o) (advance t (emit (EvWait 30) st)) Hd)
    as [st2 Hx].
  destruct (cycle_on_data file o st t _ st2 Hd Hsvg Ht Hx)
    as [E [_ [Hfs Hnow]]].
  assert (Hempty : extracted (dom o) elements [] = []).
  { unfold elements. cbn [extracted].
    rewrite (Hmiss "text.crash-game__counter[font-size='83'][x='1160'][y='356']");
      [reflexivity|].
    unfold elements. cbn [In]. auto. }
  rewrite Hempty in E. unfold try_except in E.
  rewrite (cycle_body_skip localtime file [] st2 eq_refl) in E.
  eexists. split; [exact E|]. split; [exact Hempty|].
  split; [exact Hfs|]. split; [|split].
  - cbn [now advance emit]. lia.
  - eexists. cbn [trace advance emit]. rewrite <- app_assoc. reflexivity.
  - now apply poll_continue.
Qed.

(** C3, as the code has it: a turn that writes a row (valid data, the turn
    ends normally) appends one line to the file: the timestamp, the
    extracted Value X without any letter x, and the extracted Value Bets,
    Value Prize and Value Players as they are, separated by commas.  When
    the only x of the Value X text is its last character, the multiplier
    written is the text without it, which is also the text without its
    trailing unit.  On the example of the specification the line is
    timestamp,3.25,120,400,15. *)
Theorem row_has_multiplier_without_x
  (file : string) (o : observation) (st : state) (t : Z) (data : Py.dict)
  (st2 st3 : state) :
  driver st = true -> svg_after o = Some t -> t <= 30000 ->
  extract_data (dom o) (advance t (emit (EvWait 30) st)) = (Ok data, st2) ->
  no_valid_data data = false ->
  cycle file o st = (Ok Continue, st3) ->
  exists x bets prize players,
    Py.dict_get data "Value X" = Some x
    /\ Py.dict_get data "Value Bets" = Some bets
    /\ Py.dict_get data "Value Prize" = Some prize
    /\ Py.dict_get data "Value Players" = Some players
    /\ fs_get (fs st3) file
       = Some ((match fs_get (fs st) file with Some ls => ls | None => [] end)
               ++ [csv_line (timestamp_at localtime (now st + Z.max 0 t))
                     x bets prize players])%list
    /\ csv_line (timestamp_at localtime (now st + Z.max 0 t)) x bets prize players
       = Py.join ","
           [timestamp_at localtime (now st + Z.max 0 t);
            Py.replace_char "x"%char "" x; bets; prize; players] ++ nl
    /\ (forall s, x = s ++ "x" -> Py.all_chars Py.not_x s = true ->
        Py.replace_char "x"%char "" x = s /\ strip_trailing_unit x = s)
    /\ (forall timestamp,
          csv_line timestamp "3.25x" "120" "400" "15"
          = timestamp ++ ",3.25,120,400,15" ++ nl).
Proof.
  intros Hd Hsvg Ht Hx Hnv Hc.
  destruct (cycle_on_data file o st t data st2 Hd Hsvg Ht Hx)
    as [E [Hdata [Hfs Hnow]]].
  rewrite E in Hc. unfold try_except in Hc.
  destruct (Py.dict_get data "Value X") as [x|] eqn:Ex;
    [destruct (Py.dict_get data "Value Bets") as [bets|] eqn:Eb;
     [destruct (Py.dict_get data "Value Prize") as [prize|] eqn:Ep;
      [destruct (Py.dict_get data "Value Players") as [players|] eqn:El|]|]|].
  2-5: exfalso;
    assert (Hkey : exists key,
               In key ["Value X"; "Value Bets"; "Value Prize"; "Value Players"]
               /\ Py.dict_get data key = None)
      by (eexists; split; [|eassumption]; cbn [In]; auto 6);
    destruct (cycle_body_key_error localtime file data st2 Hnv Hkey)
      as [key [_ [_ Eb']]];
    rewrite Eb' in Hc; discriminate Hc.
  rewrite (cycle_body_row localtime file data st2 x bets prize players
             Hnv Ex Eb Ep El) in Hc.
  injection Hc as <-.
  exists x, bets, prize, players.
  repeat (split; [reflexivity|]).
  split; [|split; [|split]].
  - cbn [fs advance emit snd file_write with_fs].
    rewrite fs_get_put, Hfs, Hnow. reflexivity.
  - unfold csv_line. cbn [Py.join]. now rewrite !PyFacts.append_assoc.
  - intros s -> Hs. split.
    + now apply replace_x_trailing.
    + apply strip_trailing_unit_x.
  - intros timestamp. reflexivity.
Qed.

End WithTimezone.

(** *** On concrete turns *)

Lemma empty_multiplier_skips_the_turn_witness :
  exists st3,
    cycle casablanca "out.csv" o_blank polling_2024 = (Ok Continue, st3)
    /\ fs st3 = fs polling_2024
    /\ trace st3
       = (trace (snd (extract_data (dom o_blank)
                        (advance 100 (emit (EvWait 30) polling_2024))))
          ++ [EvLog DEBUG
                "No valid data found or Value X empty, waiting before retrying.";
              EvSleep 3000])%list
    /\ now st3 = now polling_2024 + Z.max 0 100 + 3000
    /\ poll casablanca "out.csv" [o_blank; o_full] polling_2024
       = poll casablanca "out.csv" [o_full] st3.
Proof.
  apply (empty_multiplier_skips_the_turn casablanca "out.csv" o_blank [o_full]
           polling_2024 100 []);
    [reflexivity | reflexivity | reflexivity | lia | reflexivity
    | left; reflexivity].
Defined.

End TurnFacts.

(** ** On concrete sessions *)

Module Concrete.

Import Scraper Props Fixtures MonadFacts ExtractFacts LoopFacts PollFacts
  TurnFacts.

Lemma extract_data_keys_prefix_witness :
  exists data st' n,
    extract_data (dom o_partial) polling_2024 = (Ok data, st')
    /\ Py.keys data
       = firstn n ["Value X"; "Value Bets"; "Value Prize"; "Value Players"]
    /\ (forall i key selector,
          nth_error elements i = Some (key, selector) -> (i < n)%nat ->
          exists text,
            dom o_partial selector = Some text
            /\ Py.dict_get data key = Some (Py.strip text))
    /\ (forall key selector,
          nth_error elements n = Some (key, selector) ->
          dom o_partial selector = None)
    /\ (forall i key selector,
          nth_error elements i = Some (key, selector) -> (n <= i)%nat ->
          Py.dict_get data key = None).
Proof.
  apply (extract_data_keys_prefix (dom o_partial) polling_2024). reflexivity.
Defined.

Lemma missing_multiplier_does_not_stop_the_loop_witness :
  exists st3,
    cycle casablanca "out.csv" o_blank polling_2024 = (Ok Continue, st3)
    /\ extracted (dom o_blank) elements [] = []
    /\ fs st3 = fs polling_2024
    /\ now st3 = now polling_2024 + Z.max 0 100 + 3000
    /\ (exists tr,
          trace st3
          = (tr ++ [EvLog DEBUG
                      "No valid data found or Value X empty, waiting before retrying.";
                    EvSleep 3000])%list)
    /\ poll casablanca "out.csv" [o_blank; o_full] polling_2024
       = poll casablanca "out.csv" [o_full] st3.
Proof.
  apply (missing_multiplier_does_not_stop_the_loop casablanca "out.csv"
           o_blank [o_full] polling_2024 100);
    [reflexivity | reflexivity | reflexivity | lia |].
  intros selector H. unfold elements in H. cbn [In] in H.
  destruct H as [H|[H|[H|[H|[]]]]]; inversion H. reflexivity.
Defined.

(** C1 fails as stated: on a page without any field element the turn ends
    normally, and the loop runs a second turn, which writes a row. *)
Lemma missing_element_does_not_stop_counterexample :
  (exists key selector,
     In (key, selector) elements /\ dom o_blank selector = None)
  /\ running polling_2024 = true
  /\ fst (cycle casablanca "out.csv" o_blank polling_2024) = Ok Continue
  /\ waits (trace (snd (poll casablanca "out.csv" [o_blank; o_full]
                          polling_2024)))
     = [30; 30]
  /\ fs_get (fs (snd (poll casablanca "out.csv" [o_blank; o_full]
                        polling_2024))) "out.csv"
     = Some [header; "2024-02-29 13:35:04,3.25,120,400,15" ++ nl].
Proof.
  split; [|repeat split; reflexivity].
  exists "Value X", "text.crash-game__counter[font-size='83'][x='1160'][y='356']".
  split; [cbn [In elements]; auto | reflexivity].
Qed.

Lemma row_has_multiplier_without_x_witness :
  exists x bets prize players,
    Py.dict_get [("Value X", "3.25x"); ("Value Bets", "120");
                 ("Value Prize", "400"); ("Value Players", "15")] "Value X"
    = Some x
    /\ Py.dict_get [("Value X", "3.25x"); ("Value Bets", "120");
                    ("Value Prize", "400"); ("Value Players", "15")] "Value Bets"
       = Some bets
    /\ Py.dict_get [("Value X", "3.25x"); ("Value Bets", "120");
                    ("Value Prize", "400"); ("Value Players", "15")] "Value Prize"
       = Some prize
    /\ Py.dict_get [("Value X", "3.25x"); ("Value Bets", "120");
                    ("Value Prize", "400"); ("Value Players", "15")]
         "Value Players"
       = Some players
    /\ fs_get (fs (snd (cycle casablanca "out.csv" o_full polling_2024))) "out.csv"
       = Some ((match fs_get (fs polling_2024) "out.csv" with
                | Some ls => ls
                | None => []
                end)
               ++ [csv_line (timestamp_at casablanca (now polling_2024 + Z.max 0 100))
                     x bets prize players])%list
    /\ csv_line (timestamp_at casablanca (now polling_2024 + Z.max 0 100))
         x bets prize players
       = Py.join ","
           [timestamp_at casablanca (now polling_2024 + Z.max 0 100);
            Py.replace_char "x"%char "" x; bets; prize; players] ++ nl
    /\ (forall s, x = s ++ "x" -> Py.all_chars Py.not_x s = true ->
        Py.replace_char "x"%char "" x = s /\ strip_trailing_unit x = s)
    /\ (forall timestamp,
          csv_line timestamp "3.25x" "120" "400" "15"
          = timestamp ++ ",3.25,120,400,15" ++ nl).
Proof.
  apply (row_has_multiplier_without_x casablanca "out.csv" o_full polling_2024
           100
           [("Value X", "3.25x"); ("Value Bets", "120");
            ("Value Prize", "400"); ("Value Players", "15")]
           (snd (extract_data (dom o_full)
                   (advance 100 (emit (EvWait 30) polling_2024))))
           (snd (cycle casablanca "out.csv" o_full polling_2024)));
    [reflexivity | reflexivity | lia | vm_compute; reflexivity | reflexivity
    | vm_compute; reflexivity].
Defined.

(** C3 fails as stated: a unit that is not the letter x is written with
    the multiplier. *)
Lemma multiplier_keeps_other_unit_counterexample :
  fst (cycle casablanca "out.csv" o_upper polling_2024) = Ok Continue
  /\ fs_get (fs (snd (cycle casablanca "out.csv" o_upper polling_2024)))
       "out.csv"
     = Some [header; "2024-02-29 13:35:01,2.5X,120,400,15" ++ nl]
  /\ nth 1 (split_commas ("2024-02-29 13:35:01,2.5X,120,400,15" ++ nl)) ""
     = "2.5X"
  /\ strip_trailing_unit "2.5X" = "2.5"
  /\ "2.5X" <> "2.5".
Proof. repeat split; try reflexivity. discriminate. Qed.

Lemma loop_ends_within_duration_and_one_turn_witness :
  exists r st',
    poll casablanca "out.csv" [o_blank; o_blank; o_full; o_blank] polling_short
    = (r, st')
    /\ r <> OutOfScript
    /\ (running polling_short = true ->
        now st' - start_time polling_short
        < duration polling_short * 1000 + cycle_max)
    /\ (running polling_short = false -> r = Ok tt /\ st' = polling_short)
    /\ now st' - start_time polling_short
       <= Z.max (now polling_short - start_time polling_short)
            (duration polling_short * 1000 + cycle_max).
Proof.
  apply (PollFacts.loop_ends_within_duration_and_one_turn casablanca "out.csv"
           [o_blank; o_blank; o_full; o_blank] polling_short).
  unfold enough. cbn. lia.
Defined.

(** C2 fails as stated: with a duration of one second and a game frame
    found on the second load only, the loop is entered 42 seconds after the
    session start and ends there. *)
Lemma loop_entered_late_counterexample :
  fst (main casablanca 1 1709210096000 late_landing []) = Ok tt
  /\ In (EvLog INFO "Data fetching completed successfully.")
       (trace (snd (main casablanca 1 1709210096000 late_landing [])))
  /\ duration (snd (main casablanca 1 1709210096000 late_landing [])) = 1
  /\ now (snd (main casablanca 1 1709210096000 late_landing []))
     - start_time (snd (main casablanca 1 1709210096000 late_landing []))
     = 42000
  /\ ~ (42000 <= 1 * 1000 + cycle_max).
Proof.
  split; [reflexivity|]. split; [vm_compute; tauto|].
  split; [reflexivity|]. split; [reflexivity|]. unfold cycle_max. lia.
Qed.

End Concrete.

(** ** URL discovery *)

Module SearchFacts.

Import Scraper Props Fixtures MonadFacts LoopFacts.

Lemma load_landing_ok landing st :
  driver st = true ->
  load_landing landing st
  = (Ok (landing (loads st)), count_load (emit (EvGet base_url) st)).
Proof.
  intros Hd. unfold load_landing, driver_get, bind, the_driver.
  now rewrite Hd.
Qed.

(** C4: with a browser session and a landing page that never has the game
    frame, [search_for_url] loads the page twice and waits twice (30
    seconds, then 10 seconds), and raises NoSuchElementException; there is
    no third load. *)
Theorem search_for_url_two_attempts
  (landing : nat -> landing_page) (st : state) :
  driver st = true ->
  (forall n, landing n = NoIframe) ->
  exists st' events,
    search_for_url landing st
    = (Raise (NoSuchElementException
                "Could not find crash game URL even after retry."), st')
    /\ trace st' = (trace st ++ events)%list
    /\ gets events = [base_url; base_url]
    /\ waits events = [30; 10]
    /\ loads st' = (loads st + 2)%nat
    /\ now st' = now st + 30000 + 2000 + 5000 + 10000.
Proof.
  intros Hd Hnone.
  unfold search_for_url, bind at 1, log.
  unfold try_except at 1.
  match goal with
  | |- context [bind (load_landing landing) ?k ?s] =>
      rewrite (bind_ok (load_landing landing) k s _ _
                 (load_landing_ok landing s Hd))
  end.
  rewrite Hnone.
  cbv beta iota zeta delta [iframe_src wait_until bind ret raise log sleep not_found].
  match goal with
  | |- context [load_landing landing ?s] =>
      rewrite (load_landing_ok landing s Hd)
  end.
  rewrite Hnone.
  cbv beta iota zeta delta [iframe_src wait_until bind ret raise log sleep not_found
                       try_except].
  eexists. eexists. split; [reflexivity|].
  split; [|split; [|split; [|split]]].
  - cbn [trace emit advance count_load]. rewrite <- !app_assoc. reflexivity.
  - reflexivity.
  - reflexivity.
  - cbn [loads emit advance count_load]. lia.
  - cbn [now emit advance count_load]. lia.
Qed.

Lemma search_for_url_two_attempts_witness :
  exists st' events,
    search_for_url (fun _ => NoIframe) polling_2024
    = (Raise (NoSuchElementException
                "Could not find crash game URL even after retry."), st')
    /\ trace st' = (trace polling_2024 ++ events)%list
    /\ gets events = [base_url; base_url]
    /\ waits events = [30; 10]
    /\ loads st' = (loads polling_2024 + 2)%nat
    /\ now st' = now polling_2024 + 30000 + 2000 + 5000 + 10000.
Proof.
  apply (search_for_url_two_attempts (fun _ => NoIframe) polling_2024);
    reflexivity.
Defined.

End SearchFacts.

(** ** [fetch_data] *)

Module FetchFacts.

Import Scraper Props Fixtures MonadFacts ExtractFacts LoopFacts PollFacts
  TurnFacts.

Section WithTimezone.

Variable localtime : Z -> Z.

#[local] Abbreviation poll := (poll localtime).
#[local] Abbreviation fetch_data := (fetch_data localtime).

Lemma fetch_data_running url script st :
  driver st = true ->
  fetch_data url script st
  = try_except
      (poll (output_file localtime st) script ;;
       log INFO "Data fetching completed successfully.")
      (fun e => Some (log ERROR ("Error while fetching data: " ++ str_exn e)))
      (loop_entry localtime url st).
Proof.
  intros Hd. unfold Scraper.fetch_data, bind at 1, log at 1.
  unfold try_except at 1, bind at 1, driver_get, bind at 1, the_driver.
  cbn [driver emit]. rewrite Hd. reflexivity.
Qed.

(** A row is never the header: it starts with a digit of the year. *)
Lemma csv_line_not_header t x bets prize players :
  csv_line (timestamp_at localtime t) x bets prize players <> header.
Proof.
  unfold csv_line, timestamp_at, Calendar.strftime_space_colon, Calendar.stamp.
  destruct (Calendar.of_seconds (datetime_now localtime t)) as [y m d h mi se].
  cbn [Py.zpad String.append Calendar.year]. unfold header.
  cbn [String.append].
  intros E. injection E as E _.
  pose proof (PyFacts.is_digit_digit_char (y / 10 / 10 / 10)) as D.
  rewrite E in D. discriminate D.
Qed.

Lemma file_write_row_header_once file t x bets prize players :
  preserves (header_once file)
    (file_write file (csv_line (timestamp_at localtime t) x bets prize players)).
Proof.
  intros st [rows [E Hn]]. unfold header_once, file_write.
  cbn [snd fs with_fs emit]. rewrite E, fs_get_put.
  exists (rows ++ [csv_line (timestamp_at localtime t) x bets prize players])%list.
  split; [reflexivity|]. intros Hin. apply in_app_or in Hin as [Hin|Hin].
  - now apply Hn.
  - destruct Hin as [Hin|[]]. now apply (csv_line_not_header t x bets prize players).
Qed.

Lemma loop_entry_header_once url st :
  header_once (output_file localtime st) (loop_entry localtime url st).
Proof.
  exists []. split; [|intros []].
  unfold loop_entry, output_file, file_write, open_w.
  cbn [snd fs with_fs emit advance count_load duration live_prediction now].
  now rewrite !fs_get_put.
Qed.

(** C6: with a browser session, when [fetch_data] is over (or as far as
    the script of observations goes) the output file starts with the header
    line and has it nowhere else, however many turns of the loop were
    run. *)
Theorem header_written_once
  (url : string) (script : list observation) (st : state) :
  driver st = true ->
  exists rows,
    fs_get (fs (snd (fetch_data url script st))) (output_file localtime st)
    = Some (header :: rows)
    /\ ~ In header rows
    /\ count_occ string_dec (header :: rows) header = 1%nat.
Proof.
  intros Hd. rewrite (fetch_data_running url script st Hd).
  assert (H : header_once (output_file localtime st)
                (snd (try_except
                        (poll (output_file localtime st) script ;;
                         log INFO "Data fetching completed successfully.")
                        (fun e =>
                           Some (log ERROR
                                   ("Error while fetching data: " ++ str_exn e)))
                        (loop_entry localtime url st)))).
  { pose proof (stable_header_once (output_file localtime st)) as HS.
    apply preserves_try_except; [| |apply loop_entry_header_once].
    - apply preserves_bind.
      + apply poll_preserves; [exact HS|].
        intros. apply file_write_row_header_once.
      + intros _. apply preserves_log. apply HS.
    - intros e handler E. injection E as <-. apply preserves_log. apply HS. }
  destruct H as [rows [E Hn]]. exists rows. split; [exact E|].
  split; [exact Hn|]. cbn [count_occ].
  destruct (string_dec header header) as [_|ne]; [|congruence].
  f_equal. now apply count_occ_not_In.
Qed.

End WithTimezone.

Lemma header_written_once_witness :
  exists rows,
    fs_get (fs (snd (fetch_data casablanca "https://1xbet.com/games/crash"
                       [o_blank; o_full; o_full] session_2024_ready)))
      (output_file casablanca session_2024_ready)
    = Some (header :: rows)
    /\ ~ In header rows
    /\ count_occ string_dec (header :: rows) header = 1%nat.
Proof.
  apply (header_written_once casablanca "https://1xbet.com/games/crash"
           [o_blank; o_full; o_full] session_2024_ready).
  reflexivity.
Defined.

End FetchFacts.

(** ** [start_scraping] *)

Module StartFacts.

Import Scraper Props Fixtures MonadFacts ExtractFacts LoopFacts PollFacts
  TurnFacts SearchFacts FetchFacts.

Lemma live_from_live Q {A} (m : M A) : live m -> live_from Q m.
Proof. intros H st _. apply H. Qed.

Lemma live_from_bind Q {A B} (m : M A) (k : A -> M B) :
  live_from Q m -> preserves Q m -> (forall a, live_from Q (k a)) ->
  live_from Q (bind m k).
Proof.
  intros Hm Hp Hk st HQ. unfold bind. specialize (Hm st HQ).
  specialize (Hp st HQ).
  destruct (m st) as [[a|e|] st1]; cbn [fst snd] in *;
    [now apply Hk | discriminate | congruence].
Qed.

Lemma live_from_try_except Q {A} (m : M A) (h : exn -> option (M A)) :
  live_from Q m -> preserves Q m ->
  (forall e handler, h e = Some handler -> live_from Q handler) ->
  live_from Q (try_except m h).
Proof.
  intros Hm Hp Hh st HQ. unfold try_except. specialize (Hm st HQ).
  specialize (Hp st HQ).
  destruct (m st) as [[a|e|] st1]; cbn [fst snd] in *;
    [discriminate | | congruence].
  destruct (h e) as [handler|] eqn:E; [|discriminate].
  now apply (Hh e handler E).
Qed.

Lemma stable_enough script : stable (enough script).
Proof.
  unfold stable, quiet, enough. repeat split; intros; cbn in *; lia.
Qed.

Section Preserved.

Variable P : state -> Prop.
Hypothesis P_stable : stable P.
Hypothesis P_files : forall f st, P st -> P (with_fs f st).

Let P_quiet : quiet P := proj1 P_stable.
Let P_advance := proj1 (proj2 P_stable).
Let P_load := proj2 (proj2 P_stable).

Lemma preserves_load_landing landing : preserves P (load_landing landing).
Proof.
  intros st H. unfold load_landing.
  pose proof (preserves_driver_get P P_quiet P_load base_url st H) as H1.
  destruct (driver_get base_url st) as [[u|e|] st1]; exact H1.
Qed.

Lemma preserves_iframe_src timeout page : preserves P (iframe_src timeout page).
Proof.
  destruct page as [|appears src]; cbn [iframe_src].
  - apply preserves_bind; [now apply preserves_wait_until|]. intros _.
    apply preserves_ret.
  - apply preserves_bind; [now apply preserves_wait_until|]. intros _.
    apply preserves_bind; [apply preserves_the_driver|]. intros _ st H.
    now apply P_quiet.
Qed.

Lemma search_for_url_preserves landing : preserves P (search_for_url landing).
Proof.
  unfold search_for_url.
  apply preserves_bind; [now apply preserves_log|]. intros _.
  apply preserves_try_except.
  - apply preserves_bind; [apply preserves_load_landing|]. intros page.
    apply preserves_bind; [apply preserves_iframe_src|]. intros src.
    destruct (truthy src);
      (apply preserves_bind; [now apply preserves_log|]; intros _;
       first [apply preserves_ret | apply preserves_raise]).
  - intros e handler E. destruct (not_found e); [|discriminate E].
    injection E as <-.
    apply preserves_bind; [now apply preserves_log|]. intros _.
    apply preserves_bind; [now apply preserves_sleep|]. intros _.
    apply preserves_bind; [apply preserves_load_landing|]. intros page.
    apply preserves_bind; [now apply preserves_sleep|]. intros _.
    apply preserves_try_except.
    + apply preserves_bind; [apply preserves_iframe_src|]. intros src.
      destruct (truthy src);
        (apply preserves_bind; [now apply preserves_log|]; intros _;
         first [apply preserves_ret | apply preserves_raise]).
    + intros e' handler' E'. destruct (not_found e'); [|discriminate E'].
      injection E' as <-.
      apply preserves_bind; [now apply preserves_log|]. intros _.
      apply preserves_raise.
Qed.

Lemma preserves_file_write file line : preserves P (file_write file line).
Proof. intros st H. unfold file_write. cbn [snd]. now apply P_files, P_quiet. Qed.

Lemma preserves_open_w file : preserves P (open_w file).
Proof. intros st H. unfold open_w. cbn [snd]. now apply P_files, P_quiet. Qed.

Lemma fetch_data_preserves localtime url script :
  preserves P (fetch_data localtime url script).
Proof.
  unfold fetch_data.
  apply preserves_bind; [now apply preserves_log|]. intros _.
  apply preserves_try_except.
  - apply preserves_bind; [now apply preserves_driver_get|]. intros _.
    apply preserves_bind; [now apply preserves_sleep|]. intros _.
    apply preserves_bind; [intros st H; exact H|]. intros file.
    apply preserves_bind; [now apply preserves_log|]. intros _.
    apply preserves_bind; [apply preserves_open_w|]. intros _.
    apply preserves_bind; [apply preserves_file_write|]. intros _.
    apply preserves_bind.
    + apply poll_preserves; [exact P_stable|]. intros.
      apply preserves_file_write.
    + intros _. now apply preserves_log.
  - intros e handler E. injection E as <-. now apply preserves_log.
Qed.

End Preserved.

Lemma live_load_landing landing : live (load_landing landing).
Proof.
  intros st. unfold load_landing.
  pose proof (live_driver_get base_url st) as H.
  destruct (driver_get base_url st) as [[u|e|] st1]; cbn [fst] in *;
    [discriminate | discriminate | congruence].
Qed.

Lemma live_iframe_src timeout page : live (iframe_src timeout page).
Proof.
  destruct page as [|appears src]; cbn [iframe_src].
  - apply live_bind; [apply live_wait_until|]. intros _. apply live_ret.
  - apply live_bind; [apply live_wait_until|]. intros _.
    apply live_bind; [apply live_the_driver|]. intros _ st. discriminate.
Qed.

Lemma search_for_url_live landing : live (search_for_url landing).
Proof.
  unfold search_for_url.
  apply live_bind; [apply live_log|]. intros _.
  apply live_try_except.
  - apply live_bind; [apply live_load_landing|]. intros page.
    apply live_bind; [apply live_iframe_src|]. intros src.
    destruct (truthy src);
      (apply live_bind; [apply live_log|]; intros _;
       first [apply live_ret | apply live_raise]).
  - intros e handler E. destruct (not_found e); [|discriminate E].
    injection E as <-.
    apply live_bind; [apply live_log|]. intros _.
    apply live_bind; [apply live_sleep|]. intros _.
    apply live_bind; [apply live_load_landing|]. intros page.
    apply live_bind; [apply live_sleep|]. intros _.
    apply live_try_except.
    + apply live_bind; [apply live_iframe_src|]. intros src.
      destruct (truthy src);
        (apply live_bind; [apply live_log|]; intros _;
         first [apply live_ret | apply live_raise]).
    + intros e' handler' E'. destruct (not_found e'); [|discriminate E'].
      injection E' as <-.
      apply live_bind; [apply live_log|]. intros _. apply live_raise.
Qed.

Lemma live_from_try_except_live Q {A} (m : M A) (h : exn -> option (M A)) :
  live_from Q m -> (forall e handler, h e = Some handler -> live handler) ->
  live_from Q (try_except m h).
Proof.
  intros Hm Hh st HQ. unfold try_except. specialize (Hm st HQ).
  destruct (m st) as [[a|e|] st1]; cbn [fst snd] in *;
    [discriminate | | congruence].
  destruct (h e) as [handler|] eqn:E; [|discriminate].
  now apply (Hh e handler E).
Qed.

(** A handler for every exception that returns leaves none. *)
Lemma try_except_catch_all {A} (m : M A) (handler : exn -> M A) st :
  (forall e s, exists a, fst (handler e s) = Ok a) ->
  fst (try_except m (fun e => Some (handler e)) st) <> OutOfScript ->
  exists a, fst (try_except m (fun e => Some (handler e)) st) = Ok a.
Proof.
  intros Hh. unfold try_except.
  destruct (m st) as [[a|e|] st1]; cbn [fst].
  - intros _. now exists a.
  - intros _. apply Hh.
  - congruence.
Qed.

Lemma enough_files script f st : enough script st -> enough script (with_fs f st).
Proof. intros H. exact H. Qed.

Lemma later_files st0 f st : later st0 st -> later st0 (with_fs f st).
Proof. intros H. exact H. Qed.

Section WithTimezone.

Variable localtime : Z -> Z.

Lemma poll_live_from file script :
  live_from (enough script) (poll localtime file script).
Proof.
  intros st He.
  destruct (poll_ends localtime file script st He) as [r [st' [E [Hr _]]]].
  now rewrite E.
Qed.

Lemma fetch_data_live_from url script :
  live_from (enough script) (fetch_data localtime url script).
Proof.
  pose proof (stable_enough script) as HS.
  pose proof HS as [Hq [Ha Hl]].
  unfold fetch_data.
  apply live_from_bind;
    [apply live_from_live, live_log | now apply preserves_log |]. intros _.
  apply live_from_try_except_live;
    [|intros e handler E; injection E as <-; apply live_log].
  apply live_from_bind;
    [apply live_from_live, live_driver_get
    | now apply preserves_driver_get |]. intros _.
  apply live_from_bind;
    [apply live_from_live, live_sleep | now apply preserves_sleep |]. intros _.
  apply live_from_bind;
    [intros st _; discriminate | intros st H; exact H |]. intros file.
  apply live_from_bind;
    [apply live_from_live, live_log | now apply preserves_log |]. intros _.
  apply live_from_bind;
    [intros st _; discriminate
    | apply preserves_open_w; [exact HS | apply enough_files] |]. intros _.
  apply live_from_bind;
    [intros st _; discriminate
    | apply preserves_file_write; [exact HS | apply enough_files] |]. intros _.
  apply live_from_bind; [apply poll_live_from | |].
  - apply poll_preserves; [exact HS|]. intros.
    apply preserves_file_write; [exact HS | apply enough_files].
  - intros _. apply live_from_live, live_log.
Qed.

#[local] Abbreviation scraping_body := (scraping_body localtime).

Lemma scraping_body_preserves P landing script :
  stable P -> (forall f st, P st -> P (with_fs f st)) ->
  (forall u st, P st -> P (with_url u st)) ->
  preserves P (scraping_body landing script).
Proof.
  intros HS Hf Hu. unfold Props.scraping_body. apply preserves_try_except.
  - apply preserves_bind; [now apply search_for_url_preserves|]. intros url.
    apply preserves_bind; [intros st H; now apply Hu|]. intros _.
    now apply fetch_data_preserves.
  - intros e handler E. injection E as <-. apply preserves_log. apply HS.
Qed.

Lemma scraping_body_returns landing script st :
  enough script st ->
  fst (scraping_body landing script st) = Ok tt.
Proof.
  intros He.
  assert (L : fst (scraping_body landing script st) <> OutOfScript).
  { revert st He.
    change (live_from (enough script) (scraping_body landing script)).
    unfold Props.scraping_body.
    apply live_from_try_except_live;
      [|intros e handler E; injection E as <-; apply live_log].
    apply live_from_bind;
      [apply live_from_live, search_for_url_live
      | apply search_for_url_preserves, stable_enough |]. intros url.
    apply live_from_bind;
      [intros st _; discriminate | intros st H; exact H |]. intros _.
    apply fetch_data_live_from. }
  unfold Props.scraping_body in *.
  apply try_except_catch_all in L as [[] E]; [exact E|].
  intros e s. now exists tt.
Qed.

Lemma close_driver_returns st :
  exists st', close_driver st = (Ok tt, st') /\ driver st' = false.
Proof.
  unfold close_driver. destruct (driver st) eqn:E.
  - eexists. split; reflexivity.
  - eexists. split; [reflexivity|]. exact E.
Qed.

End WithTimezone.

End StartFacts.

(** ** The dashboard *)

Module DashboardFacts.

Import Dashboard Fixtures.

Lemma stop_reason_error :
  Py.contains "error" (Py.lower "Scraping stopped due to an ERROR in logs.") = true.
Proof. reflexivity. Qed.

Lemma stop_reason_manual :
  Py.contains "error" (Py.lower "Stopped manually by user.") = false.
Proof. reflexivity. Qed.

Lemma stop_reason_duration :
  Py.contains "error" (Py.lower "Duration reached, scraping completed.") = false.
Proof. reflexivity. Qed.

(** What [_stop_scraping] leaves in the session state. *)
Lemma stop_scraping_state reason s :
  let ss := fst (_stop_scraping reason s) in
  scraping_started ss = false
  /\ scraping_error ss = Py.contains "error" (Py.lower reason)
  /\ scraping_process ss <> Some true
  /\ scraping_start_time ss = scraping_start_time (fst s).
Proof.
  unfold _stop_scraping.
  destruct (scraping_process (fst s)) as [[|]|] eqn:E; cbn [fst draw];
    cbn [scraping_started scraping_error scraping_process scraping_start_time];
    rewrite ?E; repeat split; discriminate.
Qed.

Lemma stop_scraping_terminates reason s :
  scraping_process (fst s) = Some true ->
  In Terminate (snd (_stop_scraping reason s)).
Proof.
  intros E. unfold _stop_scraping. rewrite E. cbn [fst snd draw].
  apply in_or_app. left. apply in_or_app. right. cbn. auto.
Qed.

Lemma error_found_not_empty lines : error_found lines = true -> lines <> [].
Proof. intros H ->. discriminate H. Qed.

Lemma display_logs_error self t s log :
  _get_most_recent_log_file t = Some log ->
  error_found (content log) = true ->
  _display_logs self t s
  = _stop_scraping "Scraping stopped due to an ERROR in logs." s.
Proof.
  intros El Ee. unfold _display_logs, _load_logs. rewrite El.
  destruct (content log) as [|l ls] eqn:Ec; [discriminate Ee|].
  now rewrite Ee.
Qed.

(** In the error state a run without the Stop control shows the error and
    no Start button, and leaves the state as it is. *)
Lemma error_state_run self t ss :
  scraping_started ss = false -> scraping_error ss = true ->
  stop_clicked t = false ->
  offers_start (run self t (Some ss)) = false
  /\ scraping_started (final (run self t (Some ss))) = false
  /\ scraping_error (final (run self t (Some ss))) = true.
Proof.
  intros Hs He Hstop. unfold run, _draw_sidebar, _handle_main_area.
  rewrite Hstop. cbn [init_session fst snd draw].
  assert (Hs' : scraping_started (observe_child t ss) = false).
  { unfold observe_child. destruct (scraping_process ss) as [[|]|];
      [destruct (child_exited t)| |]; exact Hs. }
  assert (He' : scraping_error (observe_child t ss) = true).
  { unfold observe_child. destruct (scraping_process ss) as [[|]|];
      [destruct (child_exited t)| |]; exact He. }
  rewrite Hs', He'. cbn [negb andb fst snd draw]. rewrite Hs'.
  cbn [andb final shown offers_start]. repeat split; auto.
Qed.

(** The error state lasts through any number of runs without Stop. *)
Lemma error_state_lasts self : forall ts ss,
  scraping_started ss = false -> scraping_error ss = true ->
  Forall (fun t => stop_clicked t = false) ts ->
  Forall (fun r => offers_start r = false
                   /\ scraping_started (final r) = false
                   /\ scraping_error (final r) = true)
    (runs self ts (Some ss)).
Proof.
  induction ts as [|t ts IH]; intros ss Hs He Hts; cbn [runs];
    [constructor|].
  inversion Hts as [|t' ts' Ht Hts']; subst.
  destruct (error_state_run self t ss Hs He Ht) as [Ho [Hs1 He1]].
  constructor; [auto|]. now apply IH.
Qed.

(** X28: while the child is watched and before the duration has passed, an
    error marker in the newest log stops the child and locks the dashboard:
    scraping is no longer started, the error state is set, no child runs,
    and no later run without Stop offers the Start button. *)
Lemma error_in_log_locks_before_duration self t ss log :
  scraping_started ss = true -> scraping_error ss = false ->
  stop_clicked t = false -> duration self <> 0 ->
  (forall t0, scraping_start_time ss = Some t0 ->
              clock t - t0 < duration self * 1000) ->
  scraping_start_time ss <> None ->
  _get_most_recent_log_file t = Some log ->
  error_found (content log) = true ->
  let r := run self t (Some ss) in
  scraping_started (final r) = false
  /\ scraping_error (final r) = true
  /\ scraping_process (final r) <> Some true
  /\ (scraping_process ss = Some true -> child_exited t = false ->
      terminates_child r = true)
  /\ forall ts, Forall (fun t' => stop_clicked t' = false) ts ->
       Forall (fun r' => offers_start r' = false
                         /\ scraping_started (final r') = false
                         /\ scraping_error (final r') = true)
         (runs self ts (Some (final r))).
Proof.
  intros Hs He Hstop Hd Hel Ht0 El Ee r.
  assert (Hs' : scraping_started (observe_child t ss) = true).
  { unfold observe_child. destruct (scraping_process ss) as [[|]|];
      [destruct (child_exited t)| |]; exact Hs. }
  assert (He' : scraping_error (observe_child t ss) = false).
  { unfold observe_child. destruct (scraping_process ss) as [[|]|];
      [destruct (child_exited t)| |]; exact He. }
  assert (Ht' : scraping_start_time (observe_child t ss) = scraping_start_time ss).
  { unfold observe_child. destruct (scraping_process ss) as [[|]|];
      [destruct (child_exited t)| |]; reflexivity. }
  destruct (scraping_start_time ss) as [t0|] eqn:Et0; [|congruence].
  specialize (Hel t0 eq_refl).
  assert (Er : exists s2,
             r = Rendered (fst (_stop_scraping
                                  "Scraping stopped due to an ERROR in logs." s2))
                          (snd (_stop_scraping
                                  "Scraping stopped due to an ERROR in logs." s2))
             /\ fst s2 = observe_child t ss).
  { subst r. unfold run, _draw_sidebar, _handle_main_area.
    rewrite Hstop. cbn [init_session fst snd draw].
    rewrite Hs', He'. cbn [negb andb fst snd draw]. rewrite Hs', He', Ht'.
    cbn [negb andb]. apply Z.eqb_neq in Hd. rewrite Hd.
    rewrite (display_logs_error self t _ log El Ee).
    assert (Hlt : (duration self * 1000 <=? clock t - t0) = false)
      by (apply Z.leb_gt; lia).
    rewrite Hlt. eexists. split; reflexivity. }
  destruct Er as [s2 [Er Hs2]].
  pose proof (stop_scraping_state "Scraping stopped due to an ERROR in logs." s2)
    as [H1 [H2 [H3 _]]].
  rewrite stop_reason_error in H2.
  rewrite Er. cbn [final].
  split; [exact H1|]. split; [exact H2|]. split; [exact H3|]. split.
  - intros Hp Hc. unfold terminates_child. cbn [shown].
    apply existsb_exists. exists Terminate. split; [|reflexivity].
    apply stop_scraping_terminates. rewrite Hs2. unfold observe_child.
    now rewrite Hp, Hc.
  - intros ts Hts. now apply error_state_lasts.
Qed.

(** Outside the error state and with no child watched, a run without Stop
    and without a click on Start offers the Start button. *)
Lemma idle_state_offers_start self t ss :
  scraping_started ss = false -> scraping_error ss = false ->
  stop_clicked t = false -> start_clicked t = false ->
  offers_start (run self t (Some ss)) = true.
Proof.
  intros Hs He Hstop Hstart. unfold run, _draw_sidebar, _handle_main_area.
  rewrite Hstop. cbn [init_session fst snd draw].
  assert (Hs' : scraping_started (observe_child t ss) = false).
  { unfold observe_child. destruct (scraping_process ss) as [[|]|];
      [destruct (child_exited t)| |]; exact Hs. }
  assert (He' : scraping_error (observe_child t ss) = false).
  { unfold observe_child. destruct (scraping_process ss) as [[|]|];
      [destruct (child_exited t)| |]; exact He. }
  rewrite Hs', He', Hstart. cbn [negb andb fst snd draw]. rewrite Hs'.
  cbn [andb]. unfold offers_start. cbn [shown].
  rewrite existsb_app. cbn [existsb String.eqb Ascii.eqb Bool.eqb orb].
  rewrite ?orb_true_r. reflexivity.
Qed.

(** When the duration has passed at the run that finds the error marker,
    the stop for the duration comes after the stop for the error and takes
    the error state away: the next run offers the Start button again. *)
Lemma error_at_duration_end_unlocks self t t' ss log :
  scraping_started ss = true -> scraping_error ss = false ->
  stop_clicked t = false -> duration self <> 0 ->
  (exists t0, scraping_start_time ss = Some t0
              /\ duration self * 1000 <= clock t - t0) ->
  _get_most_recent_log_file t = Some log ->
  error_found (content log) = true ->
  stop_clicked t' = false -> start_clicked t' = false ->
  let r := run self t (Some ss) in
  scraping_started (final r) = false
  /\ scraping_error (final r) = false
  /\ offers_start (run self t' (Some (final r))) = true.
Proof.
  intros Hs He Hstop Hd [t0 [Et0 Hel]] El Ee Hstop' Hstart' r.
  assert (Hs' : scraping_started (observe_child t ss) = true).
  { unfold observe_child. destruct (scraping_process ss) as [[|]|];
      [destruct (child_exited t)| |]; exact Hs. }
  assert (He' : scraping_error (observe_child t ss) = false).
  { unfold observe_child. destruct (scraping_process ss) as [[|]|];
      [destruct (child_exited t)| |]; exact He. }
  assert (Ht' : scraping_start_time (observe_child t ss) = Some t0).
  { unfold observe_child. destruct (scraping_process ss) as [[|]|];
      [destruct (child_exited t)| |]; exact Et0. }
  assert (Er : exists s4,
             final r
             = fst (_stop_scraping "Duration reached, scraping completed." s4)).
  { subst r. unfold run, _draw_sidebar, _handle_main_area.
    rewrite Hstop. cbn [init_session fst snd draw].
    rewrite Hs', He'. cbn [negb andb fst snd draw]. rewrite Hs', He', Ht'.
    cbn [negb andb]. apply Z.eqb_neq in Hd. rewrite Hd.
    apply Z.leb_le in Hel. rewrite Hel. eexists. reflexivity. }
  destruct Er as [s4 Er].
  pose proof (stop_scraping_state "Duration reached, scraping completed." s4)
    as [H1 [H2 _]].
  rewrite stop_reason_duration in H2. rewrite <- Er in H1, H2.
  split; [exact H1|]. split; [exact H2|].
  now apply idle_state_offers_start.
Qed.

(** C5 on the failing input: the child was started at time 0 for one
    minute, the newest log has a line with the error marker, and the
    dashboard runs again (a click on Refresh) when the minute has passed.
    The child is terminated, but the run ends with [scraping_error] false,
    and the next Refresh offers the Start button. *)
Theorem error_at_duration_end_is_forgotten :
  _get_most_recent_log_file (refresh_at 60000) = Some error_log
  /\ error_found (content error_log) = true
  /\ terminates_child (run ui_60 (refresh_at 60000) (Some watching)) = true
  /\ scraping_started (final (run ui_60 (refresh_at 60000) (Some watching)))
     = false
  /\ scraping_error (final (run ui_60 (refresh_at 60000) (Some watching)))
     = false
  /\ offers_start
       (run ui_60 (refresh_at 61000)
          (Some (final (run ui_60 (refresh_at 60000) (Some watching)))))
     = true.
Proof. repeat split; reflexivity. Qed.

(** The same log and session one second before the minute has passed: the
    dashboard is locked, as the lemma above says. *)
Example error_before_duration_end_locks :
  scraping_error (final (run ui_60 (refresh_at 59000) (Some watching))) = true
  /\ offers_start
       (run ui_60 (refresh_at 61000)
          (Some (final (run ui_60 (refresh_at 59000) (Some watching)))))
     = false.
Proof. split; reflexivity. Qed.

End DashboardFacts.

(** * Further properties *)

(** ** URL discovery on any landing page *)

Module DiscoveryFacts.

Import Scraper Props Fixtures More MonadFacts LoopFacts SearchFacts.

(** One try with a browser session: it returns the address that [attempt]
    gives, or raises one of the two exceptions that the handlers of
    [search_for_url] take; it takes the timeout at most and touches no
    file. *)
Lemma try_frame_result timeout found missing raised page st :
  driver st = true -> 0 <= timeout ->
  exists r st',
    try_frame timeout found missing raised page st = (r, st')
    /\ match attempt timeout page with
       | Some url => r = Ok url
       | None => exists e, r = Raise e /\ not_found e = true
       end
    /\ now st <= now st' <= now st + timeout * 1000
    /\ loads st' = loads st /\ fs st' = fs st /\ driver st' = true.
Proof.
  intros Hd H0. unfold try_frame, bind at 1.
  destruct page as [|appears src]; cbn [iframe_src attempt].
  - unfold bind at 1, wait_until. cbn [fst snd].
    eexists. eexists. split; [reflexivity|].
    split; [eexists; split; reflexivity|].
    cbn [now loads fs driver advance emit]. repeat split; try assumption; lia.
  - unfold bind at 1, wait_until.
    destruct (appears <=? timeout * 1000) eqn:L;
      [apply Z.leb_le in L | apply Z.leb_gt in L]; cbn [andb].
    + unfold bind at 1, the_driver. cbn [driver advance emit]. rewrite Hd.
      destruct (truthy src) eqn:T; unfold bind, log, ret, raise.
      * eexists. eexists. split; [reflexivity|]. split; [reflexivity|].
        cbn [now loads fs driver advance emit].
        repeat split; try assumption; lia.
      * eexists. eexists. split; [reflexivity|].
        split; [eexists; split; reflexivity|].
        cbn [now loads fs driver advance emit].
        repeat split; try assumption; lia.
    + eexists. eexists. split; [reflexivity|].
      split; [eexists; split; reflexivity|].
      cbn [now loads fs driver advance emit].
      repeat split; try assumption; lia.
Qed.

Lemma try_except_run {A} (m : M A) h st r st' :
  m st = (r, st') ->
  try_except m h st
  = match r with
    | Raise e => match h e with Some k => k st' | None => (Raise e, st') end
    | _ => (r, st')
    end.
Proof. intros E. unfold try_except. rewrite E. now destruct r. Qed.

(** [search_for_url] with a browser session, on any pages: the result is
    that of two tries, on the page of this load and of the next; the second
    load happens only when the first try fails. *)
Lemma search_for_url_result landing st :
  driver st = true ->
  exists st',
    search_for_url landing st
    = (discovery (landing (loads st)) (landing (S (loads st))), st')
    /\ loads st'
       = match attempt 30 (landing (loads st)) with
         | Some _ => S (loads st)
         | None => S (S (loads st))
         end
    /\ now st + match attempt 30 (landing (loads st)) with
                | Some _ => 0
                | None => 7000
                end
       <= now st'
    /\ now st'
       <= now st + match attempt 30 (landing (loads st)) with
                   | Some _ => 30000
                   | None => 47000
                   end
    /\ fs st' = fs st /\ driver st' = true.
Proof.
  intros Hd. unfold search_for_url, discovery.
  rewrite (bind_ok _ _ st tt (emit (EvLog INFO "Searching for the crash game URL.") st))
    by reflexivity.
  set (s0 := emit _ st).
  assert (Hd0 : driver s0 = true) by exact Hd.
  rewrite (try_except_bind_ok _ _ _ s0 _ _ (load_landing_ok landing s0 Hd0)).
  set (s1 := count_load _).
  assert (Hd1 : driver s1 = true) by exact Hd.
  change (loads s0) with (loads st).
  match goal with
  | |- context [try_except ?m ?h s1] =>
      change m with
        (try_frame 30 "Found crash game URL: "
           "Failed to extract crash game URL from iframe src."
           "Could not find crash game URL in the page." (landing (loads st)))
  end.
  destruct (try_frame_result 30 "Found crash game URL: "
           "Failed to extract crash game URL from iframe src."
           "Could not find crash game URL in the page." (landing (loads st))
           s1 Hd1 ltac:(lia)) as (r & s2 & E & Hr & Hn & Hl & Hf & Hd2).
  rewrite (try_except_run _ _ _ _ _ E).
  change (now s1) with (now st) in Hn. change (loads s1) with (S (loads st)) in Hl.
  change (fs s1) with (fs st) in Hf.
  destruct (attempt 30 (landing (loads st))) as [url|].
  - subst r. exists s2. repeat split; try assumption; lia.
  - destruct Hr as (e & -> & Hnf). rewrite Hnf.
    match goal with
    | |- context [bind (log ?l ?m) ?k s2] =>
        rewrite (bind_ok (log l m) k s2 tt (emit (EvLog l m) s2)) by reflexivity;
        set (s3 := emit (EvLog l m) s2)
    end.
    rewrite (bind_ok (sleep 2000) _ s3 tt (advance 2000 (emit (EvSleep 2000) s3)))
      by reflexivity.
    set (s4 := advance 2000 _).
    assert (Hd4 : driver s4 = true) by exact Hd2.
    rewrite (bind_ok _ _ s4 _ _ (load_landing_ok landing s4 Hd4)).
    set (s5 := count_load _).
    rewrite (bind_ok (sleep 5000) _ s5 tt (advance 5000 (emit (EvSleep 5000) s5)))
      by reflexivity.
    set (s6 := advance 5000 _).
    assert (Hd6 : driver s6 = true) by exact Hd2.
    change (loads s4) with (loads s2). rewrite Hl.
    match goal with
    | |- context [try_except ?m ?h s6] =>
        change m with
          (try_frame 10 "Found crash game URL on retry: "
             "Failed to extract crash game URL after retry (no src found)."
             "Could not find crash game URL even after retry."
             (landing (S (loads st))))
    end.
    destruct (try_frame_result 10 "Found crash game URL on retry: "
             "Failed to extract crash game URL after retry (no src found)."
             "Could not find crash game URL even after retry."
             (landing (S (loads st))) s6 Hd6 ltac:(lia))
      as (r & s7 & E' & Hr' & Hn' & Hl' & Hf' & Hd7).
    rewrite (try_except_run _ _ _ _ _ E').
    assert (N6 : now s6 = now s2 + 7000).
    { subst s6 s5 s4 s3. cbn [now advance emit count_load]. lia. }
    change (loads s6) with (S (loads s2)) in Hl'. rewrite Hl in Hl'.
    change (fs s6) with (fs s2) in Hf'. rewrite Hf in Hf'.
    destruct (attempt 10 (landing (S (loads st)))) as [url|].
    + subst r. exists s7. repeat split; try assumption; lia.
    + destruct Hr' as (e' & -> & Hnf'). rewrite Hnf'.
      unfold bind, log, raise. eexists. split; [reflexivity|].
      cbn [loads now fs driver emit]. repeat split; try assumption; lia.
Qed.

(** An address that a try gives is not empty and is not relative. *)
Lemma attempt_absolute timeout page url :
  attempt timeout page = Some url ->
  url <> "" /\ Py.startswith "/" url = false.
Proof.
  destruct page as [|appears src]; cbn [attempt]; [discriminate|].
  destruct ((appears <=? timeout * 1000) && truthy src) eqn:E; [|discriminate].
  apply andb_prop in E as [_ T]. intros [= <-].
  destruct src as [s|]; [|discriminate T]. cbn [absolute_url].
  destruct s as [|c s]; [discriminate T|].
  destruct (Py.startswith "/" (String c s)) eqn:S.
  - split; [discriminate | reflexivity].
  - split; [discriminate | exact S].
Qed.

Lemma discovery_absolute first second url :
  discovery first second = Ok url ->
  url <> "" /\ Py.startswith "/" url = false.
Proof.
  unfold discovery.
  destruct (attempt 30 first) as [u|] eqn:E1.
  - intros [= <-]. exact (attempt_absolute _ _ _ E1).
  - destruct (attempt 10 second) as [u|] eqn:E2; [|discriminate].
    intros [= <-]. exact (attempt_absolute _ _ _ E2).
Qed.

(** The address of a try is made of the [src] of the frame of its page. *)
Lemma attempt_src timeout page url :
  attempt timeout page = Some url ->
  exists appears src,
    page = Iframe appears (Some src) /\ src <> ""
    /\ url = (if Py.startswith "/" src then "https://1xbet.com" ++ src else src).
Proof.
  destruct page as [|appears src]; cbn [attempt]; [discriminate|].
  destruct ((appears <=? timeout * 1000) && truthy src) eqn:E; [|discriminate].
  apply andb_prop in E as [_ T]. intros [= <-].
  destruct src as [s|]; [|discriminate T].
  exists appears, s. split; [reflexivity|]. split; [|reflexivity].
  intros ->. discriminate T.
Qed.

Lemma discovery_src first second url :
  discovery first second = Ok url ->
  exists appears src,
    (first = Iframe appears (Some src) \/ second = Iframe appears (Some src))
    /\ src <> ""
    /\ url = (if Py.startswith "/" src then "https://1xbet.com" ++ src else src).
Proof.
  unfold discovery.
  destruct (attempt 30 first) as [u|] eqn:E1.
  - intros [= <-]. destruct (attempt_src _ _ _ E1) as (a & s & Hp & Hs & Hu).
    exists a, s. auto.
  - destruct (attempt 10 second) as [u|] eqn:E2; [|discriminate].
    intros [= <-]. destruct (attempt_src _ _ _ E2) as (a & s & Hp & Hs & Hu).
    exists a, s. auto.
Qed.

(** Without a browser session the first [self.driver.get] fails, and the
    handler of [search_for_url] does not take that exception. *)
Lemma search_for_url_no_driver landing st :
  driver st = false ->
  search_for_url landing st
  = (Raise (AttributeError "get"),
     emit (EvLog INFO "Searching for the crash game URL.") st).
Proof.
  intros Hd. unfold search_for_url, bind at 1, log at 1.
  unfold try_except, bind at 1, load_landing, driver_get, bind, the_driver.
  cbn [driver emit]. rewrite Hd. reflexivity.
Qed.

(** X1: with a browser session, on the pages that its loads give,
    [search_for_url] is two tries: one on the page of its first load, with
    30 seconds for the game frame to appear, and when that gives no address
    a second one on the page of a second load, with 10 seconds.  It returns
    the address of the first try that gives one and raises
    NoSuchElementException when none does.  The second load happens only
    after a failed first try; its waits and pauses take 30 seconds at most
    in the first case and between 7 and 47 seconds in the second (the clock
    of the model counts waits and pauses only); the browser session
    stays. *)
Theorem search_for_url_is_two_tries
  (landing : nat -> landing_page) (st : state) :
  driver st = true ->
  exists st',
    search_for_url landing st
    = (discovery (landing (loads st)) (landing (S (loads st))), st')
    /\ loads st'
       = match attempt 30 (landing (loads st)) with
         | Some _ => S (loads st)
         | None => S (S (loads st))
         end
    /\ now st + match attempt 30 (landing (loads st)) with
                | Some _ => 0
                | None => 7000
                end
       <= now st'
    /\ now st'
       <= now st + match attempt 30 (landing (loads st)) with
                   | Some _ => 30000
                   | None => 47000
                   end
    /\ driver st' = true.
Proof.
  intros Hd.
  destruct (search_for_url_result landing st Hd)
    as (st' & E & Hl & Hlo & Hhi & _ & Hd').
  exists st'. auto.
Qed.

Lemma search_for_url_is_two_tries_witness :
  exists st',
    search_for_url late_landing polling_2024
    = (discovery (late_landing (loads polling_2024))
         (late_landing (S (loads polling_2024))), st')
    /\ loads st'
       = match attempt 30 (late_landing (loads polling_2024)) with
         | Some _ => S (loads polling_2024)
         | None => S (S (loads polling_2024))
         end
    /\ now polling_2024
       + match attempt 30 (late_landing (loads polling_2024)) with
         | Some _ => 0
         | None => 7000
         end
       <= now st'
    /\ now st'
       <= now polling_2024
          + match attempt 30 (late_landing (loads polling_2024)) with
            | Some _ => 30000
            | None => 47000
            end
    /\ driver st' = true.
Proof.
  apply (search_for_url_is_two_tries late_landing polling_2024). reflexivity.
Defined.

(** X2: the address that [search_for_url] returns is made of the [src]
    attribute of the game frame of the first or of the second page, which
    is not empty: the attribute itself when it does not start with a
    slash, and the attribute with [https://1xbet.com] in front of it when
    it does.  So the address is never empty and never starts with a
    slash. *)
Theorem search_for_url_returns_absolute_url
  (landing : nat -> landing_page) (st st' : state) (url : string) :
  search_for_url landing st = (Ok url, st') ->
  exists appears src,
    (landing (loads st) = Iframe appears (Some src)
     \/ landing (S (loads st)) = Iframe appears (Some src))
    /\ src <> ""
    /\ url = (if Py.startswith "/" src then "https://1xbet.com" ++ src else src)
    /\ url <> ""
    /\ Py.startswith "/" url = false.
Proof.
  intros E. destruct (driver st) eqn:Hd.
  - destruct (search_for_url_result landing st Hd) as (s & E' & _).
    rewrite E' in E. injection E as E _.
    destruct (discovery_absolute _ _ _ E) as [Hne Hs].
    destruct (discovery_src _ _ _ E) as (appears & src & Hp & Hsrc & Hu).
    exists appears, src. auto.
  - rewrite (search_for_url_no_driver landing st Hd) in E. discriminate E.
Qed.

Lemma search_for_url_returns_absolute_url_witness :
  exists appears src,
    (Iframe 1500 (Some "/games/crash") = Iframe appears (Some src)
     \/ Iframe 1500 (Some "/games/crash") = Iframe appears (Some src))
    /\ src <> ""
    /\ "https://1xbet.com/games/crash"
       = (if Py.startswith "/" src then "https://1xbet.com" ++ src else src)
    /\ "https://1xbet.com/games/crash" <> ""
    /\ Py.startswith "/" "https://1xbet.com/games/crash" = false.
Proof.
  apply (search_for_url_returns_absolute_url
           (fun _ => Iframe 1500 (Some "/games/crash")) polling_2024
           (snd (search_for_url (fun _ => Iframe 1500 (Some "/games/crash"))
                   polling_2024))).
  reflexivity.
Defined.

(** X3: with a browser session and page loads that succeed (the pages
    that [landing] gives), no failure of a wait or of the [src] leaves
    [search_for_url] as it was raised: the TimeoutException of the first
    wait and the NoSuchElementException of the first try are taken by the
    first handler, those of the retry by the second.  What is raised is the
    NoSuchElementException of the failed retry, after two loads and after
    the two pauses of the retry, and only when neither page gave an
    address. *)
Theorem search_for_url_raises_only_after_retry
  (landing : nat -> landing_page) (st st' : state) (e : exn) :
  driver st = true ->
  search_for_url landing st = (Raise e, st') ->
  e = NoSuchElementException "Could not find crash game URL even after retry."
  /\ attempt 30 (landing (loads st)) = None
  /\ attempt 10 (landing (S (loads st))) = None
  /\ loads st' = S (S (loads st))
  /\ now st + 7000 <= now st' <= now st + 47000.
Proof.
  intros Hd E.
  destruct (search_for_url_result landing st Hd)
    as (s & E' & Hl & Hlo & Hhi & _).
  rewrite E' in E. injection E as E <-. unfold discovery in E.
  destruct (attempt 30 (landing (loads st))); [discriminate E|].
  destruct (attempt 10 (landing (S (loads st)))); [discriminate E|].
  injection E as <-. repeat split; try assumption; reflexivity.
Qed.

Lemma search_for_url_raises_only_after_retry_witness :
  NoSuchElementException "Could not find crash game URL even after retry."
  = NoSuchElementException "Could not find crash game URL even after retry."
  /\ attempt 30 (Iframe 40000 (Some "/games/crash")) = None
  /\ attempt 10 (Iframe 40000 (Some "/games/crash")) = None
  /\ loads (snd (search_for_url (fun _ => Iframe 40000 (Some "/games/crash"))
                   polling_2024))
     = S (S (loads polling_2024))
  /\ now polling_2024 + 7000
     <= now (snd (search_for_url (fun _ => Iframe 40000 (Some "/games/crash"))
                    polling_2024))
     <= now polling_2024 + 47000.
Proof.
  apply (search_for_url_raises_only_after_retry
           (fun _ => Iframe 40000 (Some "/games/crash")) polling_2024
           (snd (search_for_url (fun _ => Iframe 40000 (Some "/games/crash"))
                   polling_2024))
           (NoSuchElementException
              "Could not find crash game URL even after retry."));
    [reflexivity | vm_compute; reflexivity].
Defined.

(** X4: without a browser session [search_for_url] logs its start and does
    nothing else: the AttributeError of [self.driver.get] on [None] is not
    one of the exceptions of its handler and leaves it at once, with no page
    loaded, no wait and no retry. *)
Theorem search_for_url_without_driver
  (landing : nat -> landing_page) (st : state) :
  driver st = false ->
  exists st',
    search_for_url landing st = (Raise (AttributeError "get"), st')
    /\ trace st'
       = (trace st ++ [EvLog INFO "Searching for the crash game URL."])%list
    /\ loads st' = loads st /\ now st' = now st.
Proof.
  intros Hd. rewrite (search_for_url_no_driver landing st Hd).
  eexists. split; [reflexivity|]. repeat split; reflexivity.
Qed.

Lemma search_for_url_without_driver_witness :
  exists st',
    search_for_url late_landing session_2024
    = (Raise (AttributeError "get"), st')
    /\ trace st'
       = (trace session_2024
          ++ [EvLog INFO "Searching for the crash game URL."])%list
    /\ loads st' = loads session_2024 /\ now st' = now session_2024.
Proof.
  apply (search_for_url_without_driver late_landing session_2024). reflexivity.
Defined.

End DiscoveryFacts.

(** ** [fetch_data] at its edges *)

Module FetchEdgeFacts.

Import Scraper Props Fixtures More MonadFacts LoopFacts PollFacts TurnFacts
  FetchFacts StartFacts DiscoveryFacts.

Lemma fs_get_put_other f p q ls :
  p <> q -> fs_get (fs_put f q ls) p = fs_get f p.
Proof.
  intros Hne. induction f as [|[r old] rest IH]; cbn [fs_put fs_get].
  - destruct (String.eqb_spec q p); [congruence | reflexivity].
  - destruct (String.eqb_spec r q) as [->|Hrq]; cbn [fs_get].
    + destruct (String.eqb_spec q p); [congruence | reflexivity].
    + destruct (String.eqb_spec r p); [reflexivity | exact IH].
Qed.

(** The fields of a state after an event or a pause. *)
Lemma now_emit e s : now (emit e s) = now s.
Proof. reflexivity. Qed.

Lemma fs_emit e s : fs (emit e s) = fs s.
Proof. reflexivity. Qed.

Lemma trace_emit e s : trace (emit e s) = (trace s ++ [e])%list.
Proof. reflexivity. Qed.

Lemma now_advance ms s : now (advance ms s) = now s + Z.max 0 ms.
Proof. reflexivity. Qed.

Lemma fs_advance ms s : fs (advance ms s) = fs s.
Proof. reflexivity. Qed.

Lemma trace_advance ms s : trace (advance ms s) = trace s.
Proof. reflexivity. Qed.

Lemma stable_other_file p v : stable (fun st => fs_get (fs st) p = v).
Proof. unfold stable, quiet. repeat split; intros; assumption. Qed.

Lemma file_write_other_file p v file line :
  p <> file -> preserves (fun st => fs_get (fs st) p = v) (file_write file line).
Proof.
  intros Hne st H. unfold file_write. cbn [snd fs with_fs emit].
  now rewrite fs_get_put_other.
Qed.

Section WithTimezone.

Variable localtime : Z -> Z.

#[local] Abbreviation poll := (poll localtime).
#[local] Abbreviation fetch_data := (fetch_data localtime).
#[local] Abbreviation output_file := (output_file localtime).
#[local] Abbreviation loop_entry := (loop_entry localtime).

(** Without a browser session [fetch_data] fails at its first step, inside
    its [try]. *)
Lemma fetch_data_no_driver url script st :
  driver st = false ->
  fetch_data url script st
  = (Ok tt,
     emit (EvLog ERROR ("Error while fetching data: "
                        ++ str_exn (AttributeError "get")))
       (emit (EvLog INFO ("Fetching data from URL: " ++ url)) st)).
Proof.
  intros Hd. unfold Scraper.fetch_data, bind at 1, log at 1.
  unfold try_except, bind at 1, driver_get, bind at 1, the_driver.
  cbn [driver emit]. rewrite Hd. reflexivity.
Qed.

Lemma loop_entry_facts url st :
  now (loop_entry url st) = now st + 5000
  /\ start_time (loop_entry url st) = start_time st
  /\ duration (loop_entry url st) = duration st
  /\ driver (loop_entry url st) = driver st
  /\ fs_get (fs (loop_entry url st)) (output_file st) = Some [header]
  /\ (forall p, p <> output_file st ->
        fs_get (fs (loop_entry url st)) p = fs_get (fs st) p)
  /\ trace (loop_entry url st)
     = (trace st
        ++ [EvLog INFO ("Fetching data from URL: " ++ url);
            EvGet url; EvSleep 5000;
            EvLog INFO ("Writing scraped data to: " ++ output_file st);
            EvOpen (output_file st);
            EvWrite (output_file st) header])%list.
Proof.
  unfold Props.loop_entry, Props.output_file, file_write, open_w.
  cbn [snd fs with_fs emit advance count_load duration live_prediction now
       start_time driver trace].
  repeat split; try reflexivity.
  - now rewrite !fs_get_put.
  - intros p Hp. now rewrite !fs_get_put_other.
  - now rewrite <- !app_assoc.
Qed.

(** A turn whose wait for the page is not over after 30 seconds ends in
    the TimeoutException of the wait: the handler of the turn takes
    NoSuchElementException only. *)
Lemma cycle_timeout file o st :
  (forall t, svg_after o = Some t -> 30000 < t) ->
  cycle localtime file o st
  = (Raise TimeoutException, advance (30 * 1000) (emit (EvWait 30) st)).
Proof.
  intros Hsvg. unfold Scraper.cycle, try_except, bind at 1, wait_until.
  destruct (svg_after o) as [t|]; [|reflexivity].
  specialize (Hsvg t eq_refl).
  destruct (t <=? 30 * 1000) eqn:L; [apply Z.leb_le in L; lia | reflexivity].
Qed.

(** X5: when the script of observations is long enough for the loop,
    [fetch_data] returns normally whatever happens in it, and the last thing
    it does is to log its end: the success message, or the error message
    with the exception that its handler took. *)
Theorem fetch_data_logs_its_end
  (url : string) (script : list observation) (st : state) :
  enough script st ->
  exists st' tr,
    fetch_data url script st = (Ok tt, st')
    /\ (trace st'
        = (tr ++ [EvLog INFO "Data fetching completed successfully."])%list
        \/ exists e,
             trace st'
             = (tr ++ [EvLog ERROR ("Error while fetching data: "
                                    ++ str_exn e)])%list).
Proof.
  intros He.
  pose proof (fetch_data_live_from localtime url script st He) as L.
  unfold Scraper.fetch_data in L |- *.
  rewrite (bind_ok (log INFO ("Fetching data from URL: " ++ url)) _ st tt
             (emit (EvLog INFO ("Fetching data from URL: " ++ url)) st) eq_refl)
    in L |- *.
  unfold try_except in L |- *.
  match goal with
  | |- context [match ?m ?s with _ => _ end] =>
      destruct (m s) as [[[]|e|] s1] eqn:E
  end; cbn [fst] in L.
  - exists s1.
    apply bind_inv_ok in E as (a1 & t1 & _ & E).
    apply bind_inv_ok in E as (a2 & t2 & _ & E).
    apply bind_inv_ok in E as (a3 & t3 & _ & E).
    apply bind_inv_ok in E as (a4 & t4 & _ & E).
    apply bind_inv_ok in E as (a5 & t5 & _ & E).
    apply bind_inv_ok in E as (a6 & t6 & _ & E).
    apply bind_inv_ok in E as (a7 & t7 & _ & E).
    injection E as <-. exists (trace t7).
    split; [reflexivity | left; reflexivity].
  - eexists. exists (trace s1). split; [reflexivity|].
    right. exists e. reflexivity.
  - congruence.
Qed.

(** X6: without a browser session [fetch_data] returns normally and does
    nothing but log: its own handler takes the AttributeError of
    [self.driver.get]; no page is loaded, no time passes and no file is
    created. *)
Theorem fetch_data_without_driver
  (url : string) (script : list observation) (st : state) :
  driver st = false ->
  exists st',
    fetch_data url script st = (Ok tt, st')
    /\ trace st'
       = (trace st
          ++ [EvLog INFO ("Fetching data from URL: " ++ url);
              EvLog ERROR ("Error while fetching data: "
                           ++ str_exn (AttributeError "get"))])%list
    /\ fs st' = fs st /\ loads st' = loads st /\ now st' = now st.
Proof.
  intros Hd. rewrite (fetch_data_no_driver url script st Hd).
  eexists. split; [reflexivity|]. cbn [trace emit fs loads now].
  rewrite <- app_assoc. repeat split; reflexivity.
Qed.

(** X8: when the duration is already over five seconds after the call (a
    duration of five seconds or less, or none, for a call at the start of
    the session), [fetch_data] with a browser session loads the page, waits
    its five seconds, creates the output file with the header and runs no
    turn of the loop at all, whatever the page would show: the file has the
    header only, and the success message is logged. *)
Theorem fetch_data_after_duration_writes_only_header
  (url : string) (script : list observation) (st : state) :
  driver st = true ->
  duration st * 1000 <= now st + 5000 - start_time st ->
  exists st',
    fetch_data url script st = (Ok tt, st')
    /\ fs_get (fs st') (output_file st) = Some [header]
    /\ now st' = now st + 5000
    /\ trace st'
       = (trace st
          ++ [EvLog INFO ("Fetching data from URL: " ++ url);
              EvGet url; EvSleep 5000;
              EvLog INFO ("Writing scraped data to: " ++ output_file st);
              EvOpen (output_file st);
              EvWrite (output_file st) header;
              EvLog INFO "Data fetching completed successfully."])%list.
Proof.
  intros Hd Hlate. rewrite (fetch_data_running localtime url script st Hd).
  destruct (loop_entry_facts url st) as (Hn & Hs & Hdu & _ & Hf & _ & Htr).
  set (entry := loop_entry url st) in *. clearbody entry.
  assert (R : running entry = false).
  { unfold running. rewrite Hn, Hs, Hdu. apply Z.ltb_ge. lia. }
  assert (E : (poll (output_file st) script ;;
               log INFO "Data fetching completed successfully.") entry
              = (Ok tt,
                 emit (EvLog INFO "Data fetching completed successfully.")
                   entry)).
  { rewrite (bind_ok _ _ entry tt entry
               (poll_stopped localtime _ script entry R)).
    reflexivity. }
  rewrite (try_except_run _ _ _ _ _ E).
  exists (emit (EvLog INFO "Data fetching completed successfully.") entry).
  split; [reflexivity|].
  rewrite fs_emit, now_emit, trace_emit, Htr, <- app_assoc.
  split; [exact Hf|]. split; [exact Hn | reflexivity].
Qed.

(** X9: with a browser session and a loop entered before the duration is
    over, a page that does not show its graphics within the 30 seconds of
    the first wait ends [fetch_data]: the TimeoutException is not taken by
    the handler of the turn but by the one of [fetch_data], which logs the
    error; no other turn is run, the output file keeps its header alone,
    and [fetch_data] returns normally 35 seconds after its call. *)
Theorem fetch_data_wait_timeout_ends_the_loop
  (url : string) (o : observation) (rest : list observation) (st : state) :
  driver st = true ->
  now st + 5000 - start_time st < duration st * 1000 ->
  (forall t, svg_after o = Some t -> 30000 < t) ->
  exists st',
    fetch_data url (o :: rest) st = (Ok tt, st')
    /\ fs_get (fs st') (output_file st) = Some [header]
    /\ now st' = now st + 5000 + 30000
    /\ waits (trace st') = (waits (trace st) ++ [30])%list
    /\ exists tr,
         trace st'
         = (tr ++ [EvLog ERROR ("Error while fetching data: "
                                ++ str_exn TimeoutException)])%list.
Proof.
  intros Hd Hrun Hsvg.
  rewrite (fetch_data_running localtime url (o :: rest) st Hd).
  destruct (loop_entry_facts url st) as (Hn & Hs & Hdu & _ & Hf & _ & Htr).
  set (entry := loop_entry url st) in *. clearbody entry.
  assert (R : running entry = true).
  { unfold running. rewrite Hn, Hs, Hdu. apply Z.ltb_lt. lia. }
  assert (E : (poll (output_file st) (o :: rest) ;;
               log INFO "Data fetching completed successfully.") entry
              = (Raise TimeoutException,
                 advance (30 * 1000) (emit (EvWait 30) entry))).
  { unfold bind.
    now rewrite (poll_raise localtime _ o rest entry _ _ R
                   (cycle_timeout _ o entry Hsvg)). }
  rewrite (try_except_run _ _ _ _ _ E).
  exists (emit (EvLog ERROR ("Error while fetching data: "
                             ++ str_exn TimeoutException))
            (advance (30 * 1000) (emit (EvWait 30) entry))).
  split; [reflexivity|].
  rewrite fs_emit, now_emit, trace_emit, fs_advance, now_advance,
    trace_advance, fs_emit, now_emit, trace_emit, Htr, Hn.
  split; [exact Hf|]. split; [reflexivity|].
  split; [|eexists; reflexivity].
  unfold waits. rewrite !flat_map_app. cbn [flat_map app].
  now rewrite !app_nil_r.
Qed.

End WithTimezone.

(** X10: without a browser session [extract_data] does not return a
    partial dictionary: the AttributeError of the first
    [self.driver.find_element] is not the exception of its handler and
    leaves it, after the first log only. *)
Theorem extract_data_without_driver
  (page : string -> option string) (st : state) :
  driver st = false ->
  extract_data page st
  = (Raise (AttributeError "find_element"),
     emit (EvLog DEBUG "Extracting data from page elements.") st).
Proof.
  intros Hd. unfold extract_data, bind at 1, log at 1.
  unfold elements. cbn [extract_loop]. unfold find_element, bind at 1, the_driver.
  cbn [driver emit]. rewrite Hd. reflexivity.
Qed.

Lemma extract_data_without_driver_witness :
  extract_data (dom o_full) session_2024
  = (Raise (AttributeError "find_element"),
     emit (EvLog DEBUG "Extracting data from page elements.") session_2024).
Proof.
  apply (extract_data_without_driver (dom o_full) session_2024). reflexivity.
Defined.

Lemma fetch_data_logs_its_end_witness :
  exists st' tr,
    fetch_data casablanca "https://1xbet.com/games/crash"
      [o_blank; o_full; o_partial; o_full] polling_short
    = (Ok tt, st')
    /\ (trace st'
        = (tr ++ [EvLog INFO "Data fetching completed successfully."])%list
        \/ exists e,
             trace st'
             = (tr ++ [EvLog ERROR ("Error while fetching data: "
                                    ++ str_exn e)])%list).
Proof.
  apply (fetch_data_logs_its_end casablanca "https://1xbet.com/games/crash"
           [o_blank; o_full; o_partial; o_full] polling_short).
  unfold enough. cbn. lia.
Defined.

Lemma fetch_data_without_driver_witness :
  exists st',
    fetch_data casablanca "https://1xbet.com/games/crash" [o_full] session_2024
    = (Ok tt, st')
    /\ trace st'
       = (trace session_2024
          ++ [EvLog INFO ("Fetching data from URL: "
                          ++ "https://1xbet.com/games/crash");
              EvLog ERROR ("Error while fetching data: "
                           ++ str_exn (AttributeError "get"))])%list
    /\ fs st' = fs session_2024 /\ loads st' = loads session_2024
    /\ now st' = now session_2024.
Proof.
  apply (fetch_data_without_driver casablanca "https://1xbet.com/games/crash"
           [o_full] session_2024).
  reflexivity.
Defined.

Lemma fetch_data_after_duration_writes_only_header_witness :
  exists st',
    fetch_data casablanca "https://1xbet.com/games/crash" [o_full]
      (with_driver true (new_scraper 5 false 1709210096000))
    = (Ok tt, st')
    /\ fs_get (fs st')
         (output_file casablanca
            (with_driver true (new_scraper 5 false 1709210096000)))
       = Some [header]
    /\ now st' = now (with_driver true (new_scraper 5 false 1709210096000)) + 5000
    /\ trace st'
       = (trace (with_driver true (new_scraper 5 false 1709210096000))
          ++ [EvLog INFO ("Fetching data from URL: "
                          ++ "https://1xbet.com/games/crash");
              EvGet "https://1xbet.com/games/crash"; EvSleep 5000;
              EvLog INFO
                ("Writing scraped data to: "
                 ++ output_file casablanca
                      (with_driver true (new_scraper 5 false 1709210096000)));
              EvOpen
                (output_file casablanca
                   (with_driver true (new_scraper 5 false 1709210096000)));
              EvWrite
                (output_file casablanca
                   (with_driver true (new_scraper 5 false 1709210096000)))
                header;
              EvLog INFO "Data fetching completed successfully."])%list.
Proof.
  apply (fetch_data_after_duration_writes_only_header casablanca
           "https://1xbet.com/games/crash" [o_full]
           (with_driver true (new_scraper 5 false 1709210096000)));
    [reflexivity | cbn; lia].
Defined.

Lemma fetch_data_wait_timeout_ends_the_loop_witness :
  exists st',
    fetch_data casablanca "https://1xbet.com/games/crash"
      [mkObs None (dom o_full); o_full] session_2024_ready
    = (Ok tt, st')
    /\ fs_get (fs st') (output_file casablanca session_2024_ready)
       = Some [header]
    /\ now st' = now session_2024_ready + 5000 + 30000
    /\ waits (trace st') = (waits (trace session_2024_ready) ++ [30])%list
    /\ exists tr,
         trace st'
         = (tr ++ [EvLog ERROR ("Error while fetching data: "
                                ++ str_exn TimeoutException)])%list.
Proof.
  apply (fetch_data_wait_timeout_ends_the_loop casablanca
           "https://1xbet.com/games/crash" (mkObs None (dom o_full)) [o_full]
           session_2024_ready);
    [reflexivity | cbn; lia | intros t H; discriminate H].
Defined.

End FetchEdgeFacts.

(** ** The browser session over a whole run *)

Module SessionFacts.

Import Scraper Props Fixtures More MonadFacts ExtractFacts LoopFacts PollFacts
  FetchFacts StartFacts DiscoveryFacts FetchEdgeFacts.

(** *** What the steps keep, by the events they make *)

Section KeptByEvents.

Variable localtime : Z -> Z.
Variable ok : event -> Prop.
Variable P : state -> Prop.

Hypothesis ok_plain : forall e, plain e = true -> ok e.
Hypothesis P_event : forall e st, ok e -> P st -> P (emit e st).
Hypothesis P_advance : forall ms st, P st -> P (advance ms st).
Hypothesis P_load : forall st, P st -> P (count_load st).
Hypothesis P_files : forall f st, P st -> P (with_fs f st).
Hypothesis P_url : forall u st, P st -> P (with_url u st).

Lemma kept_log l msg : preserves P (log l msg).
Proof. intros st H. apply P_event; [now apply ok_plain | exact H]. Qed.

Lemma kept_the_driver attr : preserves P (the_driver attr).
Proof. intros st H. unfold the_driver. destruct (driver st); exact H. Qed.

Lemma kept_sleep ms : preserves P (sleep ms).
Proof.
  intros st H. unfold sleep; cbn [snd].
  apply P_advance, P_event; [now apply ok_plain | exact H].
Qed.

Lemma kept_wait_until timeout appears :
  preserves P (wait_until timeout appears).
Proof.
  intros st H. unfold wait_until.
  destruct appears as [t|]; [destruct (t <=? timeout * 1000)|]; cbn [snd];
    (apply P_advance, P_event; [now apply ok_plain | exact H]).
Qed.

Lemma kept_driver_get url : preserves P (driver_get url).
Proof.
  apply preserves_bind; [apply kept_the_driver|].
  intros _ st H. cbn [snd]. apply P_load, P_event; [now apply ok_plain | exact H].
Qed.

Lemma kept_find_element page selector :
  preserves P (find_element page selector).
Proof.
  apply preserves_bind; [apply kept_the_driver|].
  intros _ st H. destruct (page selector); cbn [snd];
    (apply P_event; [now apply ok_plain | exact H]).
Qed.

Lemma kept_extract_loop page : forall els data st,
  P st -> P (snd (snd (extract_loop page els data st))).
Proof.
  induction els as [|[key selector] rest IH]; intros data st H;
    cbn [extract_loop]; [exact H|].
  pose proof (kept_find_element page selector st H) as H1.
  destruct (find_element page selector st) as [[text|e|] st1]; cbn [snd] in *;
    auto.
Qed.

Lemma kept_extract_data page : preserves P (extract_data page).
Proof.
  unfold extract_data.
  apply preserves_bind; [apply kept_log|]. intros _ st H.
  pose proof (kept_extract_loop page elements [] st H) as H1.
  destruct (extract_loop page elements [] st) as [data [r st1]].
  cbn [snd] in H1. unfold bind, try_except.
  destruct r as [u|e|]; cbn [snd]; auto.
  - now apply kept_log.
  - destruct e; cbn [snd]; auto. now apply kept_log.
Qed.

Lemma kept_file_write file line :
  ok (EvWrite file line) -> preserves P (file_write file line).
Proof.
  intros Hw st H. unfold file_write. cbn [snd].
  apply P_files, P_event; [exact Hw | exact H].
Qed.

Lemma kept_open_w file : ok (EvOpen file) -> preserves P (open_w file).
Proof.
  intros Ho st H. unfold open_w. cbn [snd].
  apply P_files, P_event; [exact Ho | exact H].
Qed.

Lemma kept_cycle_body file data :
  (forall line, ok (EvWrite file line)) ->
  preserves P (cycle_body localtime file data).
Proof.
  intros Hw. unfold cycle_body. destruct (no_valid_data data).
  - apply preserves_bind; [apply kept_log|]. intros _.
    apply preserves_bind; [apply kept_sleep|]. intros _. apply preserves_ret.
  - apply preserves_bind; [intros st H; exact H|]. intros timestamp.
    unfold subscript.
    apply preserves_bind;
      [destruct (Py.dict_get data "Value X");
       [apply preserves_ret | apply preserves_raise]|]. intros x.
    apply preserves_bind;
      [destruct (Py.dict_get data "Value Bets");
       [apply preserves_ret | apply preserves_raise]|]. intros bets.
    apply preserves_bind;
      [destruct (Py.dict_get data "Value Prize");
       [apply preserves_ret | apply preserves_raise]|]. intros prize.
    apply preserves_bind;
      [destruct (Py.dict_get data "Value Players");
       [apply preserves_ret | apply preserves_raise]|]. intros players.
    cbv zeta.
    apply preserves_bind; [apply kept_file_write, Hw|]. intros _.
    apply preserves_bind; [apply kept_log|]. intros _.
    apply preserves_bind; [apply kept_sleep|]. intros _. apply preserves_ret.
Qed.

Lemma kept_cycle file o :
  (forall line, ok (EvWrite file line)) ->
  preserves P (cycle localtime file o).
Proof.
  intros Hw. unfold cycle. apply preserves_try_except.
  - apply preserves_bind; [apply kept_wait_until|]. intros _.
    apply preserves_bind; [apply kept_extract_data|]. intros data.
    now apply kept_cycle_body.
  - intros e handler E. rewrite (page_changed_handler e handler E).
    apply preserves_bind; [apply kept_log|]. intros _. apply preserves_ret.
Qed.

Lemma kept_poll file :
  (forall line, ok (EvWrite file line)) ->
  forall script, preserves P (poll localtime file script).
Proof.
  intros Hw. induction script as [|o rest IH]; intros st H;
    cbn [poll]; destruct (running st); try exact H.
  pose proof (kept_cycle file o Hw st H) as H1.
  destruct (cycle localtime file o st) as [[[|]|e|] st1]; cbn [snd] in *; auto.
Qed.

Lemma kept_fetch_data url script :
  (forall path, ok (EvOpen path)) -> (forall path line, ok (EvWrite path line)) ->
  preserves P (fetch_data localtime url script).
Proof.
  intros Ho Hw. unfold fetch_data.
  apply preserves_bind; [apply kept_log|]. intros _.
  apply preserves_try_except.
  - apply preserves_bind; [apply kept_driver_get|]. intros _.
    apply preserves_bind; [apply kept_sleep|]. intros _.
    apply preserves_bind; [intros st H; exact H|]. intros file.
    apply preserves_bind; [apply kept_log|]. intros _.
    apply preserves_bind; [apply kept_open_w, Ho|]. intros _.
    apply preserves_bind; [apply kept_file_write, Hw|]. intros _.
    apply preserves_bind; [apply kept_poll; intros; apply Hw|]. intros _.
    apply kept_log.
  - intros e handler E. injection E as <-. apply kept_log.
Qed.

Lemma kept_load_landing landing : preserves P (load_landing landing).
Proof.
  intros st H. unfold load_landing.
  pose proof (kept_driver_get base_url st H) as H1.
  destruct (driver_get base_url st) as [[u|e|] st1]; exact H1.
Qed.

Lemma kept_iframe_src timeout page : preserves P (iframe_src timeout page).
Proof.
  destruct page as [|appears src]; cbn [iframe_src].
  - apply preserves_bind; [apply kept_wait_until|]. intros _.
    apply preserves_ret.
  - apply preserves_bind; [apply kept_wait_until|]. intros _.
    apply preserves_bind; [apply kept_the_driver|]. intros _ st H.
    apply P_event; [now apply ok_plain | exact H].
Qed.

Lemma kept_try_frame timeout found missing raised page :
  preserves P (try_frame timeout found missing raised page).
Proof.
  unfold try_frame.
  apply preserves_bind; [apply kept_iframe_src|]. intros src.
  destruct (truthy src);
    (apply preserves_bind; [apply kept_log|]; intros _;
     first [apply preserves_ret | apply preserves_raise]).
Qed.

Lemma kept_search_for_url landing : preserves P (search_for_url landing).
Proof.
  unfold search_for_url.
  apply preserves_bind; [apply kept_log|]. intros _.
  apply preserves_try_except.
  - apply preserves_bind; [apply kept_load_landing|]. intros page.
    apply (kept_try_frame 30 "Found crash game URL: "
             "Failed to extract crash game URL from iframe src."
             "Could not find crash game URL in the page." page).
  - intros e handler E. destruct (not_found e); [|discriminate E].
    injection E as <-.
    apply preserves_bind; [apply kept_log|]. intros _.
    apply preserves_bind; [apply kept_sleep|]. intros _.
    apply preserves_bind; [apply kept_load_landing|]. intros page.
    apply preserves_bind; [apply kept_sleep|]. intros _.
    apply preserves_try_except.
    + apply (kept_try_frame 10 "Found crash game URL on retry: "
               "Failed to extract crash game URL after retry (no src found)."
               "Could not find crash game URL even after retry." page).
    + intros e' handler' E'. destruct (not_found e'); [|discriminate E'].
      injection E' as <-.
      apply preserves_bind; [apply kept_log|]. intros _.
      apply preserves_raise.
Qed.

Lemma kept_scraping_body landing script :
  (forall path, ok (EvOpen path)) -> (forall path line, ok (EvWrite path line)) ->
  preserves P (scraping_body localtime landing script).
Proof.
  intros Ho Hw. unfold scraping_body. apply preserves_try_except.
  - apply preserves_bind; [apply kept_search_for_url|]. intros url.
    apply preserves_bind; [intros st H; now apply P_url|]. intros _.
    now apply kept_fetch_data.
  - intros e handler E. injection E as <-. apply kept_log.
Qed.

End KeptByEvents.

(** *** Counting [driver.quit()] *)

Lemma quits_app tr1 tr2 : quits (tr1 ++ tr2) = (quits tr1 + quits tr2)%nat.
Proof. unfold quits. now rewrite filter_app, length_app. Qed.

Lemma quits_emit e st :
  e <> EvQuit -> quits (trace (emit e st)) = quits (trace st).
Proof.
  intros He. cbn [trace emit]. rewrite quits_app.
  destruct e; try (cbn; lia). congruence.
Qed.

(** The trace grows by the events of the steps. *)
Lemma since_refl ok st : since ok st st.
Proof. exists []. now rewrite app_nil_r. Qed.

Lemma since_emit ok st0 e st :
  ok e -> since ok st0 st -> since ok st0 (emit e st).
Proof.
  intros He (events & E & F). exists (events ++ [e])%list. cbn [trace emit].
  rewrite E, app_assoc. split; [reflexivity|].
  apply Forall_app. split; [exact F | now constructor].
Qed.

Lemma since_trans ok st0 st1 st2 :
  since ok st0 st1 -> since ok st1 st2 -> since ok st0 st2.
Proof.
  intros (ev1 & E1 & F1) (ev2 & E2 & F2). exists (ev1 ++ ev2)%list.
  rewrite E2, E1, app_assoc. split; [reflexivity|].
  apply Forall_app. now split.
Qed.

Lemma close_driver_open st :
  driver st = true ->
  close_driver st
  = (Ok tt,
     emit (EvLog INFO "Chrome driver closed successfully.")
       (with_driver false
          (emit EvQuit (emit (EvLog INFO "Closing the Chrome driver.") st)))).
Proof. intros Hd. unfold close_driver. now rewrite Hd. Qed.

Lemma close_driver_closed st :
  driver st = false ->
  close_driver st
  = (Ok tt,
     emit (EvLog WARNING "Driver was not initialized or already closed.") st).
Proof. intros Hd. unfold close_driver. now rewrite Hd. Qed.

(** [close_driver] on any state. *)
Lemma close_driver_quits st :
  exists st',
    close_driver st = (Ok tt, st')
    /\ driver st' = false
    /\ quits (trace st') = (quits (trace st) + if driver st then 1 else 0)%nat
    /\ trace st'
       = (trace st
          ++ if driver st
             then [EvLog INFO "Closing the Chrome driver."; EvQuit;
                   EvLog INFO "Chrome driver closed successfully."]
             else [EvLog WARNING
                     "Driver was not initialized or already closed."])%list
    /\ now st' = now st
    /\ start_time st' = start_time st /\ duration st' = duration st.
Proof.
  destruct (driver st) eqn:Hd.
  - rewrite (close_driver_open st Hd). eexists. split; [reflexivity|].
    cbn [driver with_driver emit trace now start_time duration].
    rewrite !quits_app, <- !app_assoc. cbn. repeat split; lia.
  - rewrite (close_driver_closed st Hd). eexists. split; [reflexivity|].
    cbn [driver emit trace now start_time duration].
    rewrite quits_app. cbn. repeat split; try assumption; lia.
Qed.

(** X11: [close_driver] always returns normally and leaves no browser
    session.  With a session it logs, quits the browser once and logs again;
    without one it only logs a warning, so that a second call quits
    nothing.  It does nothing else and takes no time. *)
Theorem close_driver_quits_at_most_once (st : state) :
  exists st1 st2,
    close_driver st = (Ok tt, st1)
    /\ close_driver st1 = (Ok tt, st2)
    /\ driver st1 = false /\ driver st2 = false
    /\ trace st1
       = (trace st
          ++ if driver st
             then [EvLog INFO "Closing the Chrome driver."; EvQuit;
                   EvLog INFO "Chrome driver closed successfully."]
             else [EvLog WARNING
                     "Driver was not initialized or already closed."])%list
    /\ trace st2
       = (trace st1
          ++ [EvLog WARNING "Driver was not initialized or already closed."])%list
    /\ quits (trace st1) = (quits (trace st) + if driver st then 1 else 0)%nat
    /\ quits (trace st2) = quits (trace st1)
    /\ now st2 = now st.
Proof.
  destruct (close_driver_quits st) as (st1 & E1 & Hd1 & Hq1 & Ht1 & Hn1 & _).
  destruct (close_driver_quits st1) as (st2 & E2 & Hd2 & Hq2 & Ht2 & Hn2 & _).
  exists st1, st2. rewrite Hd1 in Hq2, Ht2.
  repeat split; try assumption; try congruence. lia.
Qed.

Section WithTimezone.

Variable localtime : Z -> Z.

(** The [try] block of [start_scraping] and its handler never quit the
    browser. *)
Lemma scraping_body_quits landing script st :
  quits (trace (snd (scraping_body localtime landing script st)))
  = quits (trace st).
Proof.
  apply (kept_scraping_body localtime (fun e => e <> EvQuit)
           (fun s => quits (trace s) = quits (trace st))).
  - intros e H. destruct e; discriminate.
  - intros e s He H. now rewrite quits_emit.
  - intros ms s H. exact H.
  - intros s H. exact H.
  - intros f s H. exact H.
  - intros u s H. exact H.
  - discriminate.
  - discriminate.
  - reflexivity.
Qed.

Lemma start_scraping_quits landing script st :
  enough script st ->
  exists st1 st',
    start_scraping localtime landing script st = (Ok tt, st')
    /\ later st st1
    /\ quits (trace st1) = quits (trace st)
    /\ close_driver st1 = (Ok tt, st').
Proof.
  intros He. unfold start_scraping.
  match goal with
  | |- context [bind ?m ?k st] =>
      rewrite (bind_ok m k st tt
                 (emit (EvLog INFO ("Scraping will run for "
                                    ++ Py.str_int (duration st) ++ " seconds."))
                    st) eq_refl)
  end.
  fold (scraping_body localtime landing script).
  set (st0 := emit _ st).
  assert (He0 : enough script st0) by exact He.
  pose proof (scraping_body_returns localtime landing script st0 He0) as Hr.
  pose proof (scraping_body_quits landing script st0) as Hq.
  assert (L : later st (snd (scraping_body localtime landing script st0))).
  { apply (scraping_body_preserves localtime (later st) landing script
             (stable_later st) (fun f s H => H) (fun u s H => H)).
    apply (proj1 (stable_later st)). apply later_refl. }
  unfold try_finally.
  destruct (scraping_body localtime landing script st0) as [r st1].
  cbn [fst snd] in *. subst r.
  destruct (close_driver_quits st1) as (st' & Ec & _).
  exists st1, st'. split; [now rewrite Ec|]. split; [exact L|].
  split; [|exact Ec]. rewrite Hq. subst st0. now rewrite quits_emit.
Qed.

(** C8: whatever the landing page and the game page show (the game frame
    found or not, rows written, a wait that times out, a row that cannot be
    made), [start_scraping] returns normally, and the last thing it does is
    [close_driver], in a state where the browser session is still the one
    it was called with.  Nothing before that quits the browser; called with
    a session, [close_driver] quits it there ([driver.quit()], between its
    two logs), exactly once over the whole call, and after it there is no
    browser session. *)
Theorem start_scraping_always_closes_driver
  (landing : nat -> landing_page) (script : list observation) (st : state) :
  enough script st ->
  exists st1 st',
    start_scraping localtime landing script st = (Ok tt, st')
    /\ later st st1
    /\ driver st1 = driver st
    /\ close_driver st1 = (Ok tt, st')
    /\ driver st' = false
    /\ quits (trace st1) = quits (trace st)
    /\ quits (trace st') = (quits (trace st) + if driver st then 1 else 0)%nat
    /\ (driver st = true ->
        trace st'
        = (trace st1
           ++ [EvLog INFO "Closing the Chrome driver."; EvQuit;
               EvLog INFO "Chrome driver closed successfully."])%list).
Proof.
  intros He.
  destruct (start_scraping_quits landing script st He)
    as (st1 & st' & E & L & Hq & Ec).
  destruct (close_driver_quits st1) as (st2 & Ec' & Hd & Hq' & Ht & _).
  rewrite Ec in Ec'. injection Ec' as <-.
  assert (Hdr : driver st1 = driver st) by apply L.
  rewrite Hdr in Hq', Ht. rewrite Hq in Hq'.
  exists st1, st'.
  split; [exact E|]. split; [exact L|]. split; [exact Hdr|].
  split; [exact Ec|]. split; [exact Hd|]. split; [exact Hq|].
  split; [exact Hq'|].
  intros Hd1. now rewrite Hd1 in Ht.
Qed.

Lemma bind_raise {A B} (m : M A) (k : A -> M B) st e st' :
  m st = (Raise e, st') -> bind m k st = (Raise e, st').
Proof. intros E. unfold bind. now rewrite E. Qed.

Lemma try_finally_ok {A} (m : M A) (f : M unit) st a st1 st2 :
  m st = (Ok a, st1) -> f st1 = (Ok tt, st2) ->
  try_finally m f st = (Ok a, st2).
Proof. intros E1 E2. unfold try_finally. now rewrite E1, E2. Qed.

Lemma stable_url u : stable (fun st => url_crash_plane st = u).
Proof. unfold stable, quiet. repeat split; intros; assumption. Qed.

Ltac since_sides :=
  first
    [ intros e He; destruct e; first [discriminate He | exact I | reflexivity]
    | intros e s He H; now apply since_emit
    | intros ? s H; exact H
    | intros s H; exact H ].

(** The search for the address makes plain events only. *)
Lemma search_for_url_plain landing st :
  since (fun e => plain e = true) st (snd (search_for_url landing st)).
Proof.
  apply (kept_search_for_url (fun e => plain e = true)
           (since (fun e => plain e = true) st));
    [since_sides.. | apply since_refl].
Qed.

Lemma start_scraping_no_address landing script st :
  driver st = true ->
  attempt 30 (landing (loads st)) = None ->
  attempt 10 (landing (S (loads st))) = None ->
  exists st1,
    start_scraping localtime landing script st
    = (Ok tt,
       emit (EvLog INFO "Chrome driver closed successfully.")
         (with_driver false
            (emit EvQuit
               (emit (EvLog INFO "Closing the Chrome driver.")
                  (emit (EvLog ERROR
                           ("Error in scraping process: "
                            ++ str_exn
                                 (NoSuchElementException
                                    "Could not find crash game URL even after retry.")))
                     st1)))))
    /\ since (fun e => plain e = true) st st1
    /\ loads st1 = S (S (loads st))
    /\ url_crash_plane st1 = url_crash_plane st.
Proof.
  intros Hd H1 H2. unfold start_scraping.
  match goal with
  | |- context [bind ?m ?k st] =>
      rewrite (bind_ok m k st tt
                 (emit (EvLog INFO ("Scraping will run for "
                                    ++ Py.str_int (duration st) ++ " seconds."))
                    st) eq_refl)
  end.
  set (st0 := emit _ st).
  assert (Hd0 : driver st0 = true) by exact Hd.
  assert (S0 : since (fun e => plain e = true) st st0)
    by (apply since_emit; [reflexivity | apply since_refl]).
  destruct (search_for_url_result landing st0 Hd0)
    as (s1 & E & Hl & _ & _ & _ & Hd1).
  pose proof (search_for_url_preserves
                (fun s => url_crash_plane s = url_crash_plane st)
                (stable_url _) landing st0 eq_refl) as Hu.
  pose proof (search_for_url_plain landing st0) as S1.
  rewrite E in Hu, S1. cbn [snd] in Hu, S1.
  change (loads st0) with (loads st) in E, Hl.
  unfold discovery in E. rewrite H1, H2 in E. rewrite H1 in Hl.
  pose proof (since_trans _ _ _ _ S0 S1) as S2.
  clearbody st0.
  exists s1. split; [|auto].
  eapply try_finally_ok.
  - rewrite (try_except_run _ _ _ _ _ (bind_raise _ _ _ _ _ E)).
    reflexivity.
  - apply close_driver_open. exact Hd1.
Qed.

(** X14: with a browser session and two pages that give no address,
    [start_scraping] for any script of observations (also none) returns
    normally after two loads, without calling [fetch_data]: until the
    failure is logged it makes plain events only (logs, the two loads, the
    waits and lookups, the pauses), so no file is opened or written by
    it, and [url_crash_plane] keeps its value; then the failure is logged
    and the browser is quit. *)
Theorem start_scraping_without_address_does_not_fetch
  (landing : nat -> landing_page) (script : list observation) (st : state) :
  driver st = true ->
  attempt 30 (landing (loads st)) = None ->
  attempt 10 (landing (S (loads st))) = None ->
  exists st' events,
    start_scraping localtime landing script st = (Ok tt, st')
    /\ trace st'
       = (trace st ++ events
          ++ [EvLog ERROR
                ("Error in scraping process: "
                 ++ str_exn
                      (NoSuchElementException
                         "Could not find crash game URL even after retry."));
              EvLog INFO "Closing the Chrome driver.";
              EvQuit;
              EvLog INFO "Chrome driver closed successfully."])%list
    /\ Forall (fun e => plain e = true) events
    /\ loads st' = S (S (loads st))
    /\ url_crash_plane st' = url_crash_plane st
    /\ driver st' = false.
Proof.
  intros Hd H1 H2.
  destruct (start_scraping_no_address landing script st Hd H1 H2)
    as (st1 & E & (events & Ht & F) & Hl & Hu).
  eexists. exists events. split; [exact E|].
  cbn [loads url_crash_plane driver trace emit with_driver].
  rewrite Ht, <- !app_assoc. auto.
Qed.

(** X7: whatever the loop does and however it ends, with or without a
    browser session, the only file that [fetch_data] opens or writes is its
    output file, the one named after the clock five seconds after its call;
    everything else it does is a log, a page load, a wait, a lookup or a
    pause. *)
Theorem fetch_data_opens_and_writes_only_its_file
  (url : string) (script : list observation) (st : state) :
  since (on_file (output_file localtime st)) st
    (snd (fetch_data localtime url script st)).
Proof.
  set (file := output_file localtime st).
  destruct (driver st) eqn:Hd.
  - rewrite (fetch_data_running localtime url script st Hd). fold file.
    assert (S0 : since (on_file file) st (loop_entry localtime url st)).
    { destruct (loop_entry_facts localtime url st)
        as (_ & _ & _ & _ & _ & _ & Ht).
      fold file in Ht. eexists. split; [exact Ht|].
      repeat constructor. }
    revert S0. generalize (loop_entry localtime url st). intros entry S0.
    revert entry S0.
    change (preserves (since (on_file file) st)
              (try_except
                 (poll localtime file script ;;
                  log INFO "Data fetching completed successfully.")
                 (fun e =>
                    Some (log ERROR
                            ("Error while fetching data: " ++ str_exn e))))).
    apply preserves_try_except.
    + apply preserves_bind.
      * apply (kept_poll localtime (on_file file) (since (on_file file) st));
          [since_sides.. | intros line; reflexivity].
      * intros _ s H. apply since_emit; [exact I | exact H].
    + intros e handler E. injection E as <-. intros s H.
      apply since_emit; [exact I | exact H].
  - rewrite (fetch_data_no_driver localtime url script st Hd). cbn [snd].
    apply since_emit; [exact I|]. apply since_emit; [exact I|].
    apply since_refl.
Qed.

(** [fetch_data] returns when the script is long enough. *)
Lemma fetch_data_returns url script st :
  enough script st -> fst (fetch_data localtime url script st) = Ok tt.
Proof.
  intros He.
  pose proof (fetch_data_live_from localtime url script st He) as L.
  unfold fetch_data in L |- *.
  rewrite (bind_ok (log INFO ("Fetching data from URL: " ++ url)) _ st tt
             (emit (EvLog INFO ("Fetching data from URL: " ++ url)) st) eq_refl)
    in L |- *.
  apply try_except_catch_all in L as [[] E]; [exact E|].
  intros e s. now exists tt.
Qed.

(** What [fetch_data] called with a browser session leaves: the page of its
    address was loaded, and its output file starts with the header. *)
Lemma fetch_data_loaded url script st :
  driver st = true ->
  In (EvGet url) (trace (snd (fetch_data localtime url script st)))
  /\ header_once (output_file localtime st)
       (snd (fetch_data localtime url script st)).
Proof.
  intros Hd. rewrite (fetch_data_running localtime url script st Hd). split.
  - assert (HS : stable (fun s => In (EvGet url) (trace s))).
    { unfold stable, quiet. repeat split; intros; try assumption.
      cbn [trace emit]. apply in_or_app. now left. }
    apply (preserves_try_except (fun s => In (EvGet url) (trace s))).
    + apply preserves_bind.
      * apply poll_preserves; [exact HS|]. intros t x b pr pl s H.
        unfold file_write. cbn [snd trace with_fs emit].
        apply in_or_app. now left.
      * intros _. apply preserves_log. apply HS.
    + intros e handler E. injection E as <-. apply preserves_log. apply HS.
    + destruct (loop_entry_facts localtime url st) as (_ & _ & _ & _ & _ & _ & ->).
      apply in_or_app. right. cbn. auto.
  - pose proof (stable_header_once (output_file localtime st)) as HS.
    apply preserves_try_except; [| |apply loop_entry_header_once].
    + apply preserves_bind.
      * apply poll_preserves; [exact HS|].
        intros. apply file_write_row_header_once.
      * intros _. apply preserves_log. apply HS.
    + intros e handler E. injection E as <-. apply preserves_log. apply HS.
Qed.

(** X15: with a browser session, pages that give an address and a script
    long enough for the loop, [start_scraping] stores the address that
    [search_for_url] found in [url_crash_plane] and calls [fetch_data] with
    it: the page of that address is loaded, and the output file named after
    the moment of that call exists and starts with the header. *)
Theorem start_scraping_fetches_the_found_address
  (landing : nat -> landing_page) (script : list observation) (st : state)
  (url : string) :
  driver st = true ->
  discovery (landing (loads st)) (landing (S (loads st))) = Ok url ->
  enough script st ->
  exists st1 st' rows,
    start_scraping localtime landing script st = (Ok tt, st')
    /\ later st st1
    /\ url_crash_plane st' = url
    /\ In (EvGet url) (trace st')
    /\ fs_get (fs st') (output_file localtime st1) = Some (header :: rows)
    /\ ~ In header rows.
Proof.
  intros Hd Hu He. unfold start_scraping.
  match goal with
  | |- context [bind ?m ?k st] =>
      rewrite (bind_ok m k st tt
                 (emit (EvLog INFO ("Scraping will run for "
                                    ++ Py.str_int (duration st) ++ " seconds."))
                    st) eq_refl)
  end.
  set (st0 := emit _ st).
  assert (Hd0 : driver st0 = true) by exact Hd.
  assert (He0 : enough script st0) by exact He.
  assert (L0 : later st st0) by (apply (proj1 (stable_later st)), later_refl).
  destruct (search_for_url_result landing st0 Hd0) as (s1 & E & _ & _ & _ & _ & Hd1).
  change (loads st0) with (loads st) in E. rewrite Hu in E.
  pose proof (search_for_url_preserves (later st) (stable_later st) landing st0 L0)
    as L1.
  pose proof (search_for_url_preserves (enough script) (stable_enough script)
                landing st0 He0) as He1.
  rewrite E in L1, He1. cbn [snd] in L1, He1. clearbody st0.
  set (s2 := with_url url s1).
  assert (Hd2 : driver s2 = true) by exact Hd1.
  assert (He2 : enough script s2) by exact He1.
  assert (L2 : later st s2) by exact L1.
  assert (Hu2 : url_crash_plane s2 = url) by reflexivity.
  assert (Es2 : with_url url s1 = s2) by reflexivity.
  clearbody s2.
  pose proof (fetch_data_returns url script s2 He2) as Hr.
  destruct (fetch_data_loaded url script s2 Hd2) as (Hg & rows & Hf & Hn).
  pose proof (fetch_data_preserves (fun s => url_crash_plane s = url)
                (stable_url url) (fun f s H => H) localtime url script s2 Hu2)
    as Hu3.
  pose proof (fetch_data_preserves (later st) (stable_later st)
                (fun f s H => H) localtime url script s2 L2) as L3.
  destruct (fetch_data localtime url script s2) as [r s3] eqn:Ef.
  cbn [fst snd] in *. subst r.
  assert (Hd3 : driver s3 = true).
  { destruct L3 as (_ & _ & _ & -> & _). exact Hd. }
  exists s2. eexists. exists rows. split.
  - eapply try_finally_ok; [|apply (close_driver_open s3 Hd3)].
    unfold try_except.
    rewrite (bind_ok _ _ _ _ _ E).
    match goal with
    | |- context [bind ?m ?k s1] =>
        rewrite (bind_ok m k s1 tt (with_url url s1)) by reflexivity
    end.
    rewrite Es2, Ef. reflexivity.
  - split; [exact L2|].
    cbn [url_crash_plane fs trace emit with_driver].
    split; [exact Hu3|]. split; [|split; [exact Hf | exact Hn]].
    apply in_or_app. left. apply in_or_app. left. apply in_or_app. now left.
Qed.

(** X12: when the script of observations is long enough for the loop,
    [start_scraping] returns normally and has quit the browser exactly once
    if it was called with a browser session, and not at all if it was
    called without one: neither the search for the address nor
    [fetch_data] nor a handler quits it, whatever goes wrong in them. *)
Theorem start_scraping_quits_the_browser_once
  (landing : nat -> landing_page) (script : list observation) (st : state) :
  enough script st ->
  exists st',
    start_scraping localtime landing script st = (Ok tt, st')
    /\ driver st' = false
    /\ quits (trace st') = (quits (trace st) + if driver st then 1 else 0)%nat.
Proof.
  intros He.
  destruct (start_scraping_quits landing script st He)
    as (st1 & st' & E & L & Hq & Ec).
  destruct (close_driver_quits st1) as (st2 & Ec' & Hd & Hq' & _).
  rewrite Ec in Ec'. injection Ec' as <-.
  assert (Hdr : driver st1 = driver st) by apply L.
  rewrite Hdr, Hq in Hq'. exists st'. auto.
Qed.

(** X13: [main] with a browser that starts, on a script of observations
    long enough for the duration: the scraper is created, the browser is
    set up, [start_scraping] runs,
    and [main] returns normally with the browser quit exactly once and no
    session left, whatever the pages show; the session keeps the start
    time and the duration it was created with. *)
Theorem main_quits_the_browser_once
  (duration t0 : Z) (landing : nat -> landing_page)
  (script : list observation) :
  duration * 1000 <= 800 * Z.of_nat (List.length script) ->
  exists st',
    main localtime duration t0 landing script = (Ok tt, st')
    /\ driver st' = false
    /\ quits (trace st') = 1%nat
    /\ start_time st' = t0 /\ Scraper.duration st' = duration.
Proof.
  intros He. unfold main, setup_driver, bind at 1, bind at 1, log at 1.
  unfold bind at 1, log at 1.
  set (st0 := emit _ (with_driver true _)).
  assert (He0 : enough script st0).
  { unfold enough. subst st0.
    cbn [start_time Scraper.duration now emit with_driver new_scraper]. lia. }
  destruct (start_scraping_quits landing script st0 He0)
    as (st1 & st' & E & L & Hq & Ec).
  destruct (close_driver_quits st1) as (st2 & Ec' & Hd & Hq' & _ & _ & Hs & Hdu).
  rewrite Ec in Ec'. injection Ec' as <-.
  destruct L as (Ld & _ & Ls & Ldr & _).
  exists st'. split; [exact E|]. split; [exact Hd|].
  rewrite Hq', Hq, Ldr, Hs, Ls, Hdu, Ld. subst st0. repeat split; reflexivity.
Qed.

End WithTimezone.

Lemma start_scraping_without_address_does_not_fetch_witness :
  exists st' events,
    start_scraping casablanca (fun _ => NoIframe) [] polling_2024 = (Ok tt, st')
    /\ trace st'
       = (trace polling_2024 ++ events
          ++ [EvLog ERROR
                ("Error in scraping process: "
                 ++ str_exn
                      (NoSuchElementException
                         "Could not find crash game URL even after retry."));
              EvLog INFO "Closing the Chrome driver.";
              EvQuit;
              EvLog INFO "Chrome driver closed successfully."])%list
    /\ Forall (fun e => plain e = true) events
    /\ loads st' = S (S (loads polling_2024))
    /\ url_crash_plane st' = url_crash_plane polling_2024
    /\ driver st' = false.
Proof.
  apply (start_scraping_without_address_does_not_fetch casablanca
           (fun _ => NoIframe) [] polling_2024);
    reflexivity.
Defined.

Lemma start_scraping_fetches_the_found_address_witness :
  exists st1 st' rows,
    start_scraping casablanca late_landing
      [o_blank; o_full; o_partial; o_full] polling_short
    = (Ok tt, st')
    /\ later polling_short st1
    /\ url_crash_plane st' = "https://1xbet.com/games/crash"
    /\ In (EvGet "https://1xbet.com/games/crash") (trace st')
    /\ fs_get (fs st') (output_file casablanca st1) = Some (header :: rows)
    /\ ~ In header rows.
Proof.
  apply (start_scraping_fetches_the_found_address casablanca late_landing
           [o_blank; o_full; o_partial; o_full] polling_short
           "https://1xbet.com/games/crash");
    [reflexivity | reflexivity | unfold enough; cbn; lia].
Defined.

Lemma start_scraping_always_closes_driver_witness :
  exists st1 st',
    start_scraping casablanca late_landing
      [o_blank; o_full; o_partial; o_full] polling_short
    = (Ok tt, st')
    /\ later polling_short st1
    /\ driver st1 = driver polling_short
    /\ close_driver st1 = (Ok tt, st')
    /\ driver st' = false
    /\ quits (trace st1) = quits (trace polling_short)
    /\ quits (trace st')
       = (quits (trace polling_short)
          + if driver polling_short then 1 else 0)%nat
    /\ (driver polling_short = true ->
        trace st'
        = (trace st1
           ++ [EvLog INFO "Closing the Chrome driver."; EvQuit;
               EvLog INFO "Chrome driver closed successfully."])%list).
Proof.
  apply (start_scraping_always_closes_driver casablanca late_landing
           [o_blank; o_full; o_partial; o_full] polling_short).
  unfold enough. cbn. lia.
Defined.

Lemma start_scraping_quits_the_browser_once_witness :
  exists st',
    start_scraping casablanca late_landing
      [o_blank; o_full; o_partial; o_full] polling_short
    = (Ok tt, st')
    /\ driver st' = false
    /\ quits (trace st')
       = (quits (trace polling_short)
          + if driver polling_short then 1 else 0)%nat.
Proof.
  apply (start_scraping_quits_the_browser_once casablanca late_landing
           [o_blank; o_full; o_partial; o_full] polling_short).
  unfold enough. cbn. lia.
Defined.

Lemma main_quits_the_browser_once_witness :
  exists st',
    main casablanca 2 1709210096000 late_landing [o_full; o_blank; o_full]
    = (Ok tt, st')
    /\ driver st' = false
    /\ quits (trace st') = 1%nat
    /\ start_time st' = 1709210096000 /\ duration st' = 2.
Proof.
  apply (main_quits_the_browser_once casablanca 2 1709210096000 late_landing
           [o_full; o_blank; o_full]).
  cbn. lia.
Defined.

End SessionFacts.

(** ** The rows of the output file *)

Module RowFacts.

Import Scraper Props Fixtures More MonadFacts ExtractFacts LoopFacts PollFacts
  TurnFacts FetchFacts StartFacts DiscoveryFacts FetchEdgeFacts.

Lemma leads_bind P Q {A B} (m : M A) (k : A -> M B) :
  preserves P m -> (forall a, leads P Q (k a)) -> (forall st, P st -> Q st) ->
  leads P Q (bind m k).
Proof.
  intros Hm Hk HPQ st H. unfold bind. specialize (Hm st H).
  destruct (m st) as [[a|e|] st1]; cbn [snd] in *; auto.
  now apply Hk.
Qed.

Lemma leads_try_except P Q {A} (m : M A) (h : exn -> option (M A)) :
  leads P Q m ->
  (forall e handler, h e = Some handler -> preserves Q handler) ->
  leads P Q (try_except m h).
Proof.
  intros Hm Hh st H. unfold try_except. specialize (Hm st H).
  destruct (m st) as [[a|e|] st1]; cbn [snd] in *; auto.
  destruct (h e) as [handler|] eqn:E; cbn [snd]; auto.
  now apply (Hh e handler E).
Qed.

Lemma stable_lines file ls : stable (fun st => fs_get (fs st) file = Some ls).
Proof. unfold stable, quiet. repeat split; intros; assumption. Qed.

Lemma stable_grown file old n : stable (grown file old n).
Proof. unfold stable, quiet, grown. repeat split; intros; assumption. Qed.

Lemma grown_none file old st :
  fs_get (fs st) file = Some old -> grown file old 0 st.
Proof. intros H. exists []. now rewrite app_nil_r. Qed.

Lemma grown_more file old n m st :
  (n <= m)%nat -> grown file old n st -> grown file old m st.
Proof. intros Hnm (new & E & Hl). exists new. split; [exact E | lia]. Qed.

Section WithTimezone.

Variable localtime : Z -> Z.

#[local] Abbreviation cycle_body := (cycle_body localtime).
#[local] Abbreviation cycle := (cycle localtime).
#[local] Abbreviation poll := (poll localtime).
#[local] Abbreviation fetch_data := (fetch_data localtime).

(** The body of a turn writes one line at most. *)
Lemma cycle_body_grows file old data :
  leads (fun st => fs_get (fs st) file = Some old) (grown file old 1)
    (cycle_body file data).
Proof.
  intros st H. unfold Scraper.cycle_body, subscript.
  destruct (no_valid_data data).
  - unfold bind, log, sleep, ret. cbn [snd].
    apply grown_more with (n := 0%nat); [lia|]. now apply grown_none.
  - unfold bind at 1, get_timestamp.
    destruct (Py.dict_get data "Value X") as [x|];
      [|apply grown_more with (n := 0%nat); [lia | now apply grown_none]].
    unfold bind at 1, ret at 1.
    destruct (Py.dict_get data "Value Bets") as [b|];
      [|apply grown_more with (n := 0%nat); [lia | now apply grown_none]].
    unfold bind at 1, ret at 1.
    destruct (Py.dict_get data "Value Prize") as [p|];
      [|apply grown_more with (n := 0%nat); [lia | now apply grown_none]].
    unfold bind at 1, ret at 1.
    destruct (Py.dict_get data "Value Players") as [l|];
      [|apply grown_more with (n := 0%nat); [lia | now apply grown_none]].
    unfold bind, ret, file_write, log, sleep. cbn [snd].
    eexists. cbn [fs advance emit with_fs]. rewrite fs_get_put, H.
    split; [reflexivity|]. cbn. lia.
Qed.

Lemma cycle_grows file old o :
  leads (fun st => fs_get (fs st) file = Some old) (grown file old 1)
    (cycle file o).
Proof.
  pose proof (stable_lines file old) as HS.
  pose proof HS as (Hq & Ha & Hl).
  assert (H0 : forall st, fs_get (fs st) file = Some old -> grown file old 1 st).
  { intros st H. apply grown_more with (n := 0%nat); [lia|].
    now apply grown_none. }
  unfold Scraper.cycle. apply leads_try_except.
  - apply leads_bind; [now apply preserves_wait_until | | exact H0]. intros _.
    apply leads_bind; [now apply extract_data_preserves | | exact H0].
    intros data. apply cycle_body_grows.
  - intros e handler E. rewrite (page_changed_handler e handler E).
    apply preserves_bind; [|intros _; apply preserves_ret].
    apply preserves_log. apply stable_grown.
Qed.

(** The loop writes one line per turn at most, after the lines that the
    file has. *)
Lemma poll_grows file : forall script old st,
  fs_get (fs st) file = Some old ->
  grown file old (List.length script) (snd (poll file script st)).
Proof.
  induction script as [|o rest IH]; intros old st H; cbn [Scraper.poll];
    destruct (running st); cbn [snd].
  - now apply grown_none.
  - now apply grown_none.
  - pose proof (cycle_grows file old o st H) as (new & E & Hl).
    destruct (cycle file o st) as [[[|]|e|] st1]; cbn [snd] in *;
      try (exists new; split; [exact E | cbn [List.length]; lia]).
    destruct (IH (old ++ new)%list st1 E) as (new' & E' & Hl').
    exists (new ++ new')%list. rewrite E', app_assoc.
    split; [reflexivity|]. rewrite length_app. cbn [List.length]. lia.
  - apply grown_more with (n := 0%nat); [lia|]. now apply grown_none.
Qed.

(** X17: with a browser session, the output file that [fetch_data] leaves
    has the header and then one row per turn of the loop at most: a script
    of [n] observations gives [n] rows at most, whatever the pages show and
    however the loop ends. *)
Theorem fetch_data_writes_one_row_per_turn_at_most
  (url : string) (script : list observation) (st : state) :
  driver st = true ->
  exists rows,
    fs_get (fs (snd (fetch_data url script st))) (output_file localtime st)
    = Some (header :: rows)
    /\ (List.length rows <= List.length script)%nat.
Proof.
  intros Hd. rewrite (fetch_data_running localtime url script st Hd).
  destruct (loop_entry_facts localtime url st) as (_ & _ & _ & _ & Hf & _).
  set (entry := loop_entry localtime url st) in *. clearbody entry.
  set (file := output_file localtime st) in *. clearbody file.
  assert (G : grown file [header] (List.length script)
                (snd (try_except
                        (poll file script ;;
                         log INFO "Data fetching completed successfully.")
                        (fun e =>
                           Some (log ERROR
                                   ("Error while fetching data: " ++ str_exn e)))
                        entry))).
  { pose proof (stable_grown file [header] (List.length script)) as HS.
    revert Hf. generalize entry.
    change (leads (fun s => fs_get (fs s) file = Some [header])
              (grown file [header] (List.length script))
              (try_except
                 (poll file script ;;
                  log INFO "Data fetching completed successfully.")
                 (fun e =>
                    Some (log ERROR
                            ("Error while fetching data: " ++ str_exn e))))).
    apply leads_try_except.
    - intros s H. unfold bind.
      pose proof (poll_grows file script [header] s H) as G.
      destruct (poll file script s) as [[u|e|] s1]; cbn [snd] in *; exact G.
    - intros e handler E. injection E as <-. apply preserves_log. apply HS. }
  destruct G as (rows & E & Hl). exists rows. split; [exact E | exact Hl].
Qed.

(** X16: [get_timestamp] changes nothing and returns the local wall clock
    of the moment in 19 characters, from which the date and the time of day
    can be read back, for the years that are printed with four digits. *)
Theorem get_timestamp_reads_back (st : state) :
  Calendar.representable
    (Calendar.of_seconds (datetime_now localtime (now st))) ->
  exists stamp,
    get_timestamp localtime st = (Ok stamp, st)
    /\ String.length stamp = 19%nat
    /\ Calendar.parse_stamp stamp
       = Some (Calendar.of_seconds (datetime_now localtime (now st))).
Proof.
  intros Hr. unfold get_timestamp, timestamp_at, Calendar.strftime_space_colon.
  eexists. split; [reflexivity|]. split.
  - now rewrite CalendarFacts.stamp_length.
  - now apply CalendarFacts.parse_stamp_of_seconds.
Qed.

End WithTimezone.

Lemma fetch_data_writes_one_row_per_turn_at_most_witness :
  exists rows,
    fs_get
      (fs (snd (fetch_data casablanca "https://1xbet.com/games/crash"
                  [o_full; o_blank; o_full] session_2024_ready)))
      (output_file casablanca session_2024_ready)
    = Some (header :: rows)
    /\ (List.length rows <= List.length [o_full; o_blank; o_full])%nat.
Proof.
  apply (fetch_data_writes_one_row_per_turn_at_most casablanca
           "https://1xbet.com/games/crash" [o_full; o_blank; o_full]
           session_2024_ready).
  reflexivity.
Defined.

Lemma get_timestamp_reads_back_witness :
  exists stamp,
    get_timestamp casablanca session_2024 = (Ok stamp, session_2024)
    /\ String.length stamp = 19%nat
    /\ Calendar.parse_stamp stamp = Some (Calendar.mkdt 2024 2 29 13 34 56).
Proof.
  apply (get_timestamp_reads_back casablanca session_2024).
  unfold Calendar.representable. vm_compute. split; discriminate.
Defined.

End RowFacts.

(** ** The log file that the dashboard shows *)

Module LogFileFacts.

Import Dashboard Sessions Fixtures DashboardFacts.

Lemma insert_desc_in f l x : In x (insert_desc f l) <-> x = f \/ In x l.
Proof.
  induction l as [|g rest IH]; cbn [insert_desc In].
  - intuition congruence.
  - destruct (mtime g <=? mtime f); cbn [In]; [intuition congruence|].
    rewrite IH. intuition congruence.
Qed.

Lemma sort_desc_in l x : In x (sort_desc l) <-> In x l.
Proof.
  induction l as [|f rest IH]; cbn [sort_desc In]; [reflexivity|].
  rewrite insert_desc_in, IH. intuition congruence.
Qed.

(** The first file of the sorted list is not older than any other. *)
Lemma insert_desc_head f l :
  (forall h rest, l = h :: rest -> forall g, In g rest -> mtime g <= mtime h) ->
  forall h rest, insert_desc f l = h :: rest ->
  forall g, In g rest -> mtime g <= mtime h.
Proof.
  intros Hl h rest E g Hg. destruct l as [|g0 l']; cbn [insert_desc] in E.
  - injection E as <- <-. destruct Hg.
  - destruct (mtime g0 <=? mtime f) eqn:L.
    + injection E as <- <-. apply Z.leb_le in L.
      destruct Hg as [<-|Hg]; [exact L|].
      specialize (Hl g0 l' eq_refl g Hg). lia.
    + injection E as <- <-. apply Z.leb_gt in L.
      apply insert_desc_in in Hg as [->|Hg]; [lia|].
      exact (Hl g0 l' eq_refl g Hg).
Qed.

Lemma sort_desc_head l : forall h rest, sort_desc l = h :: rest ->
  forall g, In g rest -> mtime g <= mtime h.
Proof.
  induction l as [|f l' IH]; cbn [sort_desc]; [discriminate|].
  now apply insert_desc_head.
Qed.

Lemma glob_txt_in files f : In f (glob_txt files) <-> In f files /\ is_txt f = true.
Proof. unfold glob_txt, is_txt. apply filter_In. Qed.

(** X18: the log file that the dashboard shows is a file of the log
    directory whose name ends in [.txt] and does not start with a dot, and
    no such file of the directory was modified later. *)
Theorem most_recent_log_file_is_the_newest_txt (t : tick) (f : log_file) :
  _get_most_recent_log_file t = Some f ->
  exists files,
    listing t = Some files
    /\ In f files
    /\ Py.endswith ".txt" (name f) = true
    /\ Py.startswith "." (name f) = false
    /\ forall g, In g files -> is_txt g = true -> mtime g <= mtime f.
Proof.
  unfold _get_most_recent_log_file.
  destruct (listing t) as [files|]; [|discriminate].
  destruct (sort_desc (glob_txt files)) as [|h rest] eqn:E; [discriminate|].
  intros [= ->]. exists files. split; [reflexivity|].
  assert (Hf : In f (glob_txt files)).
  { apply sort_desc_in. rewrite E. now left. }
  apply glob_txt_in in Hf as [Hin Htxt].
  pose proof Htxt as Htxt'. unfold is_txt in Htxt'.
  apply andb_prop in Htxt' as [H1 H2]. apply negb_true_iff in H2.
  repeat split; try assumption.
  intros g Hg Hgt.
  assert (Hg' : In g (sort_desc (glob_txt files))).
  { apply sort_desc_in, glob_txt_in. now split. }
  rewrite E in Hg'. destruct Hg' as [<-|Hg']; [lia|].
  exact (sort_desc_head _ _ _ E g Hg').
Qed.

Lemma most_recent_log_file_is_the_newest_txt_witness :
  exists files,
    listing (refresh_at 60000) = Some files
    /\ In error_log files
    /\ Py.endswith ".txt" (name error_log) = true
    /\ Py.startswith "." (name error_log) = false
    /\ forall g, In g files -> is_txt g = true -> mtime g <= mtime error_log.
Proof.
  apply (most_recent_log_file_is_the_newest_txt (refresh_at 60000) error_log).
  reflexivity.
Defined.

(** X19: the dashboard finds no log file exactly when the log directory
    does not exist or has no file that [*.txt] matches; files of other
    names do not count, whatever their age. *)
Theorem no_log_file_iff_no_txt (t : tick) :
  _get_most_recent_log_file t = None
  <-> listing t = None
      \/ exists files,
           listing t = Some files
           /\ forall f, In f files -> is_txt f = false.
Proof.
  unfold _get_most_recent_log_file. destruct (listing t) as [files|].
  - destruct (sort_desc (glob_txt files)) as [|h rest] eqn:E; split.
    + intros _. right. exists files. split; [reflexivity|]. intros f Hf.
      destruct (is_txt f) eqn:T; [|reflexivity].
      assert (H : In f (sort_desc (glob_txt files)))
        by (apply sort_desc_in, glob_txt_in; now split).
      rewrite E in H. destruct H.
    + reflexivity.
    + discriminate.
    + intros [H|(files' & [= <-] & H)]; [discriminate|].
      assert (Hh : In h (glob_txt files)).
      { apply sort_desc_in. rewrite E. now left. }
      apply glob_txt_in in Hh as [Hin Ht]. rewrite (H h Hin) in Ht.
      discriminate Ht.
  - split; [now left | reflexivity].
Qed.

(** X20: of a log without an error line the dashboard shows the last 500
    lines and no more: all the lines of a file of 500 lines or fewer, and of
    a longer file the lines after the first [n - 500]; the number it
    displays is the number of the lines shown.  The session state is not
    changed. *)
Theorem display_logs_shows_the_last_500_lines
  (self : ScraperUI) (t : tick) (s : session_state * list ui) (f : log_file) :
  _get_most_recent_log_file t = Some f ->
  content f <> [] ->
  error_found (content f) = false ->
  let lines := skipn (List.length (content f) - 500) (content f) in
  _display_logs self t s
  = draw
      [Markdown (Py.join "<br>" (map _format_log_line lines));
       Write ("Displayed " ++ Py.str_int (Z.of_nat (List.length lines))
              ++ " lines from file: " ++ path_join (logs_dir self) (name f));
       Write "Last updated at"] s
  /\ List.length lines = Nat.min 500 (List.length (content f))
  /\ (exists older, content f = (older ++ lines)%list)
  /\ fst (_display_logs self t s) = fst s.
Proof.
  intros El Hne Hok lines.
  assert (E : _display_logs self t s
              = draw
                  [Markdown (Py.join "<br>" (map _format_log_line lines));
                   Write ("Displayed "
                          ++ Py.str_int (Z.of_nat (List.length lines))
                          ++ " lines from file: "
                          ++ path_join (logs_dir self) (name f));
                   Write "Last updated at"] s).
  { unfold _display_logs, _load_logs. rewrite El. subst lines.
    destruct (content f) as [|l ls]; [congruence|].
    rewrite Hok. cbv beta iota zeta. generalize (l :: ls). intros c.
    destruct (500 <? List.length c)%nat eqn:L; [reflexivity|].
    apply Nat.ltb_ge in L.
    replace (List.length c - 500)%nat with 0%nat by lia.
    reflexivity. }
  split; [exact E|]. split; [|split].
  - subst lines. rewrite length_skipn. lia.
  - exists (firstn (List.length (content f) - 500) (content f)).
    subst lines. now rewrite firstn_skipn.
  - rewrite E. reflexivity.
Qed.

Lemma display_logs_shows_the_last_500_lines_witness :
  let lines := skipn (List.length (content old_log) - 500) (content old_log) in
  _display_logs ui_60
    (mkTick 1000 true false false false (Some [old_log])) (watching, [])
  = draw
      [Markdown (Py.join "<br>" (map _format_log_line lines));
       Write ("Displayed " ++ Py.str_int (Z.of_nat (List.length lines))
              ++ " lines from file: "
              ++ path_join (logs_dir ui_60) (name old_log));
       Write "Last updated at"] (watching, [])
  /\ List.length lines = Nat.min 500 (List.length (content old_log))
  /\ (exists older, content old_log = (older ++ lines)%list)
  /\ fst (_display_logs ui_60
            (mkTick 1000 true false false false (Some [old_log]))
            (watching, []))
     = fst (watching, @nil ui).
Proof.
  apply (display_logs_shows_the_last_500_lines ui_60
           (mkTick 1000 true false false false (Some [old_log]))
           (watching, []) old_log);
    [reflexivity | discriminate | reflexivity].
Defined.

Lemma in_skipn {A} n (l : list A) x : In x (skipn n l) -> In x l.
Proof.
  intros H. rewrite <- (firstn_skipn n l). apply in_or_app. now right.
Qed.

Lemma not_error_line_colour lines line :
  error_found lines = false -> In line lines ->
  _format_log_line line
  <> "<p style='color: #cc0000;'>" ++ Py.strip line ++ "</p>".
Proof.
  intros He Hin. unfold error_found in He.
  assert (Hl : Py.contains " - ERROR - " line = false).
  { destruct (Py.contains " - ERROR - " line) eqn:E; [|reflexivity].
    assert (H : existsb (fun l => Py.contains " - ERROR - " l) lines = true)
      by (apply existsb_exists; now exists line).
    congruence. }
  unfold _format_log_line. rewrite Hl.
  destruct (Py.contains " - INFO - " line);
    [|destruct (Py.contains " - WARNING - " line)];
    cbn [append]; intros H; discriminate H.
Qed.

(** X29: whatever [_display_logs] adds to the page as formatted log text is
    made of lines of the newest log, none of them in the colour of errors:
    a log with an error line stops the scraping before any line is
    formatted, so the ERROR branch of [_format_log_line] is never the one
    taken for a line that is shown. *)
Theorem no_shown_line_has_the_error_colour
  (self : ScraperUI) (t : tick) (s : session_state * list ui) (html : string) :
  In (Markdown html) (snd (_display_logs self t s)) ->
  ~ In (Markdown html) (snd s) ->
  exists f lines,
    _get_most_recent_log_file t = Some f
    /\ html = Py.join "<br>" (map _format_log_line lines)
    /\ (forall line, In line lines -> In line (content f))
    /\ forall line,
         In line lines ->
         _format_log_line line
         <> "<p style='color: #cc0000;'>" ++ Py.strip line ++ "</p>".
Proof.
  unfold _display_logs, _load_logs. intros H Hn.
  destruct (_get_most_recent_log_file t) as [f|].
  - destruct (content f) as [|l ls] eqn:Ec.
    + cbn [snd draw] in H. apply in_app_or in H as [H|H]; [contradiction|].
      cbn [In] in H. intuition discriminate.
    + destruct (error_found (l :: ls)) eqn:Ee.
      * unfold _stop_scraping in H.
        destruct (scraping_process (fst s)) as [[|]|]; cbn [snd fst draw] in H;
          repeat (apply in_app_or in H as [H|H]); try contradiction;
          cbn [In] in H; intuition discriminate.
      * cbv zeta in H. cbn [snd draw] in H.
        apply in_app_or in H as [H|H]; [contradiction|].
        cbn [In] in H. destruct H as [H|[H|[H|[]]]]; try discriminate H.
        injection H as <-. exists f. eexists. split; [reflexivity|].
        split; [reflexivity|]. rewrite Ec.
        assert (Hsub : forall line,
                   In line
                     (if (500 <? List.length (l :: ls))%nat
                      then skipn (List.length (l :: ls) - 500) (l :: ls)
                      else l :: ls) ->
                   In line (l :: ls)).
        { intros line Hin.
          destruct (500 <? List.length (l :: ls))%nat; [|exact Hin].
          now apply in_skipn in Hin. }
        split; [exact Hsub|].
        intros line Hin. apply (not_error_line_colour (l :: ls)); auto.
  - cbn [snd draw] in H. apply in_app_or in H as [H|H]; [contradiction|].
    cbn [In] in H. intuition discriminate.
Qed.

Lemma no_shown_line_has_the_error_colour_witness :
  exists f lines,
    _get_most_recent_log_file
      (mkTick 1000 true false false false (Some [old_log])) = Some f
    /\ Py.join "<br>" (map _format_log_line (content old_log))
       = Py.join "<br>" (map _format_log_line lines)
    /\ (forall line, In line lines -> In line (content f))
    /\ forall line,
         In line lines ->
         _format_log_line line
         <> "<p style='color: #cc0000;'>" ++ Py.strip line ++ "</p>".
Proof.
  apply (no_shown_line_has_the_error_colour ui_60
           (mkTick 1000 true false false false (Some [old_log]))
           (watching, [])
           (Py.join "<br>" (map _format_log_line (content old_log)))).
  - vm_compute. auto.
  - intros [].
Defined.

End LogFileFacts.

(** ** The session state over the runs of the dashboard *)

Module RunFacts.

Import Dashboard Sessions Fixtures DashboardFacts LogFileFacts.

Lemma fst_draw w s : fst (draw w s) = fst s.
Proof. reflexivity. Qed.

Lemma snd_draw w s : snd (draw w s) = (snd s ++ w)%list.
Proof. reflexivity. Qed.

Lemma observe_child_fields t ss :
  scraping_started (observe_child t ss) = scraping_started ss
  /\ scraping_error (observe_child t ss) = scraping_error ss
  /\ scraping_start_time (observe_child t ss) = scraping_start_time ss
  /\ alive (observe_child t ss) = alive ss && negb (child_exited t)
  /\ (scraping_process (observe_child t ss) = None
      <-> scraping_process ss = None).
Proof.
  unfold observe_child, alive.
  destruct (scraping_process ss) as [[|]|] eqn:E;
    [destruct (child_exited t)| |];
    cbn [scraping_started scraping_error scraping_start_time scraping_process];
    rewrite ?E; repeat split; try reflexivity; try discriminate.
Qed.

(** *** The consistency of the session state *)

Lemma consistent_fresh : consistent (init_session None).
Proof. split; [discriminate | reflexivity]. Qed.

Lemma consistent_observe t ss :
  consistent ss -> consistent (observe_child t ss).
Proof.
  intros [H1 H2].
  destruct (observe_child_fields t ss) as (Es & Ee & Et & Ea & En).
  split; rewrite Es.
  - intros H. specialize (H1 H). rewrite Ee, Et, En. exact H1.
  - intros H. rewrite Ea, (H2 H). reflexivity.
Qed.

Lemma consistent_stop reason s : consistent (fst (_stop_scraping reason s)).
Proof.
  destruct (stop_scraping_state reason s) as (Hs & _ & Hp & _).
  split; [rewrite Hs; discriminate|]. intros _. unfold alive.
  destruct (scraping_process (fst (_stop_scraping reason s))) as [[|]|];
    congruence.
Qed.

Lemma consistent_display self t s :
  consistent (fst s) -> consistent (fst (_display_logs self t s)).
Proof.
  intros Hc. unfold _display_logs.
  destruct (_get_most_recent_log_file t) as [f|]; [|exact Hc].
  destruct (_load_logs f) as [|l ls]; [exact Hc|].
  destruct (error_found (l :: ls)); [apply consistent_stop | exact Hc].
Qed.

Lemma consistent_sidebar t s :
  consistent (fst s) -> consistent (fst (_draw_sidebar t s)).
Proof.
  intros Hc. unfold _draw_sidebar.
  destruct (stop_clicked t); [apply consistent_stop | exact Hc].
Qed.

Lemma consistent_main_area self t s :
  consistent (fst s) -> consistent (final (_handle_main_area self t s)).
Proof.
  intros Hc. unfold _handle_main_area.
  destruct (scraping_started (fst s)) eqn:Es;
    destruct (scraping_error (fst s)) eqn:Ee;
    cbn [negb andb fst snd draw]; rewrite ?Es, ?Ee; cbn [negb andb].
  - exact Hc.
  - destruct (duration self =? 0); [exact Hc|].
    destruct (_ <=? _); cbn [final];
      [apply consistent_stop | apply consistent_display; exact Hc].
  - exact Hc.
  - destruct (start_clicked t).
    + unfold _start_scraping. cbn [fst snd draw scraping_started scraping_error
                                   scraping_start_time].
      rewrite Ee. cbn [negb andb].
      assert (Hn : consistent (mkSession true (Some (clock t)) (Some true) false)).
      { split; [|discriminate]. intros _. repeat split; discriminate. }
      destruct (duration self =? 0); [exact Hn|].
      destruct (_ <=? _); cbn [final];
        [apply consistent_stop | apply consistent_display; exact Hn].
    + cbn [fst snd draw]. rewrite Es. exact Hc.
Qed.

Lemma consistent_run self t ss :
  consistent (init_session ss) -> consistent (final (run self t ss)).
Proof.
  intros Hc. unfold run.
  apply consistent_main_area, consistent_sidebar. cbn [fst draw].
  now apply consistent_observe.
Qed.

Lemma runs_consistent self : forall ts ss,
  consistent (init_session ss) ->
  Forall (fun r => consistent (final r)) (runs self ts ss).
Proof.
  induction ts as [|t ts IH]; intros ss Hc; cbn [runs]; constructor.
  - now apply consistent_run.
  - apply IH. cbn [init_session]. now apply consistent_run.
Qed.

(** X21: over any runs of the dashboard from a fresh session, whatever is
    clicked and whatever the logs hold, the session state stays consistent
    after every run: while scraping is started there is no error and there
    are a start time (the elapsed time is never computed from [None]) and a
    child process, and while it is not started no child is running. *)
Theorem runs_keep_the_session_consistent
  (self : ScraperUI) (ts : list tick) :
  Forall (fun r => consistent (final r)) (runs self ts None).
Proof. apply runs_consistent, consistent_fresh. Qed.

(** *** The shape of a run *)

Lemma run_no_stop self t ss :
  stop_clicked t = false ->
  run self t ss
  = _handle_main_area self t (observe_child t (init_session ss), frame).
Proof. intros H. unfold run, _draw_sidebar. rewrite H. reflexivity. Qed.

Lemma run_stop self t ss :
  stop_clicked t = true ->
  run self t ss
  = _handle_main_area self t
      (_stop_scraping "Stopped manually by user."
         (observe_child t (init_session ss), frame)).
Proof. intros H. unfold run, _draw_sidebar. rewrite H. reflexivity. Qed.

Lemma main_area_running self t s t0 :
  scraping_started (fst s) = true -> scraping_error (fst s) = false ->
  duration self <> 0 -> scraping_start_time (fst s) = Some t0 ->
  _handle_main_area self t s
  = watch self t t0 (draw [Info "Scraping is running..."] s).
Proof.
  intros Hs He Hd Ht. unfold _handle_main_area.
  rewrite Hs, He. cbn [negb andb]. rewrite !fst_draw, Hs, He, Ht.
  cbn [negb andb]. apply Z.eqb_neq in Hd. rewrite Hd. reflexivity.
Qed.

Lemma main_area_start self t s :
  scraping_started (fst s) = false -> scraping_error (fst s) = false ->
  start_clicked t = true -> duration self <> 0 ->
  _handle_main_area self t s
  = watch self t (clock t)
      (mkSession true (Some (clock t)) (Some true) false,
       (snd s ++ [Button "Start Scraping"; Popen; Success "Scraping started!"])%list).
Proof.
  intros Hs He Hc Hd. unfold _handle_main_area.
  rewrite Hs, He, Hc. cbn [negb andb]. unfold _start_scraping.
  rewrite !fst_draw, !snd_draw, He.
  cbn [fst snd scraping_started scraping_error scraping_start_time negb andb].
  apply Z.eqb_neq in Hd. rewrite Hd. unfold watch, draw. cbn [fst snd].
  rewrite <- !app_assoc. reflexivity.
Qed.

Lemma main_area_idle self t s :
  scraping_started (fst s) = false -> scraping_error (fst s) = false ->
  start_clicked t = false ->
  _handle_main_area self t s
  = Rendered (fst s) (snd s ++ [Button "Start Scraping"]).
Proof.
  intros Hs He Hc. unfold _handle_main_area.
  rewrite Hs, He, Hc. cbn [negb andb]. rewrite !fst_draw, Hs.
  reflexivity.
Qed.

Lemma stop_scraping_fields reason s :
  fst (_stop_scraping reason s)
  = mkSession false (scraping_start_time (fst s))
      (if alive (fst s) then Some false else scraping_process (fst s))
      (Py.contains "error" (Py.lower reason))
  /\ snd (_stop_scraping reason s)
     = (snd s ++ (if alive (fst s) then [Terminate; WaitChild] else [])
        ++ [Warning reason])%list.
Proof.
  unfold _stop_scraping, alive.
  destruct (scraping_process (fst s)) as [[|]|] eqn:E;
    cbn [fst snd draw scraping_start_time scraping_process app];
    rewrite ?E, <- ?app_assoc; split; reflexivity.
Qed.

(** *** When a child is spawned *)

Ltac not_there H :=
  repeat (apply in_app_or in H as [H|H]);
  first [exact H | left; exact H | cbn [In] in H; intuition discriminate].

Lemma stop_scraping_spawns reason s :
  In Popen (snd (_stop_scraping reason s)) -> In Popen (snd s).
Proof.
  rewrite (proj2 (stop_scraping_fields reason s)). intros H.
  destruct (alive (fst s)); not_there H.
Qed.

Lemma display_logs_spawns self t s :
  In Popen (snd (_display_logs self t s)) -> In Popen (snd s).
Proof.
  unfold _display_logs.
  destruct (_get_most_recent_log_file t) as [f|];
    [|rewrite snd_draw; intros H; not_there H].
  destruct (_load_logs f) as [|l ls];
    [rewrite snd_draw; intros H; not_there H|].
  destruct (error_found (l :: ls)); [apply stop_scraping_spawns|].
  cbv zeta. rewrite snd_draw. intros H. not_there H.
Qed.

Lemma main_area_spawns self t s :
  In Popen (shown (_handle_main_area self t s)) ->
  In Popen (snd s)
  \/ (scraping_started (fst s) = false /\ scraping_error (fst s) = false
      /\ start_clicked t = true).
Proof.
  assert (W : forall t0 s1 r,
             r = (let s3 :=
                    _display_logs self t
                      (draw
                         [Progress (clock t - t0) (duration self);
                          Write ("Time elapsed: "
                                 ++ Py.str_int (Z.quot (clock t - t0) 1000)
                                 ++ " seconds");
                          Write ("Time left: "
                                 ++ Py.str_int
                                      (Z.quot
                                         (Z.max 0
                                            (duration self * 1000
                                             - (clock t - t0))) 1000)
                                 ++ " seconds")] s1) in
                  if duration self * 1000 <=? clock t - t0
                  then
                    Rendered
                      (fst (_stop_scraping
                              "Duration reached, scraping completed."
                              (draw [Success "Scraping completed!"] s3)))
                      (snd (_stop_scraping
                              "Duration reached, scraping completed."
                              (draw [Success "Scraping completed!"] s3)))
                  else Rendered (fst s3) (snd s3)) ->
             In Popen (shown r) -> In Popen (snd s1)).
  { intros t0 s1 r -> H. cbv zeta in H.
    destruct (duration self * 1000 <=? clock t - t0); cbn [shown] in H.
    - apply stop_scraping_spawns in H. rewrite snd_draw in H.
      apply in_app_or in H as [H|H]; [|not_there H].
      apply display_logs_spawns in H. rewrite snd_draw in H.
      not_there H.
    - apply display_logs_spawns in H. rewrite snd_draw in H.
      not_there H. }
  unfold _handle_main_area.
  destruct (scraping_started (fst s)) eqn:Es;
    destruct (scraping_error (fst s)) eqn:Ee;
    cbn [negb andb]; rewrite ?fst_draw, ?Es, ?Ee; cbn [negb andb].
  - cbn [shown]. rewrite snd_draw. intros H. not_there H.
  - destruct (duration self =? 0).
    + cbn [shown]. rewrite snd_draw. intros H. not_there H.
    + intros H. eapply W in H; [|reflexivity].
      rewrite snd_draw in H. not_there H.
  - cbn [shown]. rewrite snd_draw. intros H. not_there H.
  - destruct (start_clicked t); [intros _; right; auto|].
    rewrite fst_draw, Es. cbn [andb shown]. rewrite snd_draw.
    intros H. not_there H.
Qed.

(** X22: a run of the dashboard spawns a scraper only on a click on Start,
    and, the session state being consistent, only when no child is running
    at the start of the run or Stop was clicked too: two scrapers never run
    at once. *)
Theorem a_scraper_is_spawned_only_when_none_runs
  (self : ScraperUI) (t : tick) (ss : option session_state) :
  consistent (init_session ss) ->
  In Popen (shown (run self t ss)) ->
  start_clicked t = true
  /\ (alive (observe_child t (init_session ss)) = false
      \/ stop_clicked t = true).
Proof.
  intros Hc H. destruct (stop_clicked t) eqn:Hstop.
  - rewrite (run_stop self t ss Hstop) in H.
    apply main_area_spawns in H as [H|(_ & _ & H)]; [|auto].
    apply stop_scraping_spawns in H. cbn [snd frame In] in H.
    intuition discriminate.
  - rewrite (run_no_stop self t ss Hstop) in H.
    apply main_area_spawns in H as [H|(Hs & _ & H)].
    + cbn [snd frame In] in H. intuition discriminate.
    + split; [exact H|]. left.
      apply (consistent_observe t) in Hc. now apply Hc.
Qed.

Lemma a_scraper_is_spawned_only_when_none_runs_witness :
  start_clicked (mkTick 0 false false true false None) = true
  /\ (alive (observe_child (mkTick 0 false false true false None)
               (init_session None)) = false
      \/ stop_clicked (mkTick 0 false false true false None) = true).
Proof.
  apply (a_scraper_is_spawned_only_when_none_runs ui_60
           (mkTick 0 false false true false None) None).
  - exact consistent_fresh.
  - vm_compute. auto 20.
Defined.

(** *** The Stop button *)

(** X23: a click on Stop (without a click on Start) ends any session,
    whatever its state: a running child is terminated and waited for,
    nothing else is terminated, scraping is no longer started, the error
    state is cleared, and the same run offers the Start button again. *)
Theorem stop_button_resets_the_session
  (self : ScraperUI) (t : tick) (ss : option session_state) :
  stop_clicked t = true -> start_clicked t = false ->
  run self t ss
  = Rendered
      (mkSession false
         (scraping_start_time (observe_child t (init_session ss)))
         (if alive (observe_child t (init_session ss)) then Some false
          else scraping_process (observe_child t (init_session ss)))
         false)
      (frame
       ++ (if alive (observe_child t (init_session ss))
           then [Terminate; WaitChild] else [])
       ++ [Warning "Stopped manually by user."; Button "Start Scraping"]).
Proof.
  intros Hstop Hstart. rewrite (run_stop self t ss Hstop).
  set (ss0 := observe_child t (init_session ss)).
  destruct (stop_scraping_fields "Stopped manually by user." (ss0, frame))
    as [Ef Es].
  rewrite stop_reason_manual in Ef. cbn [fst snd] in Ef, Es.
  rewrite main_area_idle; [|now rewrite Ef..|exact Hstart].
  rewrite Ef, Es, <- !app_assoc. reflexivity.
Qed.

Lemma stop_button_resets_the_session_witness :
  run ui_60 (mkTick 30000 false true false false (Some [old_log]))
    (Some watching)
  = Rendered
      (mkSession false
         (scraping_start_time
            (observe_child (mkTick 30000 false true false false (Some [old_log]))
               (init_session (Some watching))))
         (if alive
               (observe_child
                  (mkTick 30000 false true false false (Some [old_log]))
                  (init_session (Some watching)))
          then Some false
          else scraping_process
                 (observe_child
                    (mkTick 30000 false true false false (Some [old_log]))
                    (init_session (Some watching))))
         false)
      (frame
       ++ (if alive
                (observe_child
                   (mkTick 30000 false true false false (Some [old_log]))
                   (init_session (Some watching)))
           then [Terminate; WaitChild] else [])
       ++ [Warning "Stopped manually by user."; Button "Start Scraping"]).
Proof.
  apply (stop_button_resets_the_session ui_60
           (mkTick 30000 false true false false (Some [old_log]))
           (Some watching));
    reflexivity.
Defined.

(** *** The end of the duration *)

Lemma stop_not_alive reason s : alive (fst (_stop_scraping reason s)) = false.
Proof.
  rewrite (proj1 (stop_scraping_fields reason s)). unfold alive.
  cbn [scraping_process]. destruct (scraping_process (fst s)) as [[|]|];
    reflexivity.
Qed.

(** [_display_logs] draws, or stops for an error. *)
Lemma display_logs_cases self t s :
  (exists w,
     _display_logs self t s = draw w s
     /\ existsb (fun u => match u with Terminate => true | _ => false end) w
        = false)
  \/ (_display_logs self t s
      = _stop_scraping "Scraping stopped due to an ERROR in logs." s
      /\ exists f,
           _get_most_recent_log_file t = Some f
           /\ error_found (content f) = true).
Proof.
  unfold _display_logs, _load_logs.
  destruct (_get_most_recent_log_file t) as [f|];
    [|left; eexists; split; reflexivity].
  destruct (content f) as [|l ls] eqn:Ec;
    [left; eexists; split; reflexivity|].
  destruct (error_found (l :: ls)) eqn:Ee.
  - right. split; [reflexivity|]. exists f. rewrite Ec. auto.
  - left. eexists. split; reflexivity.
Qed.

Lemma display_logs_start_time self t s :
  scraping_start_time (fst (_display_logs self t s))
  = scraping_start_time (fst s).
Proof.
  destruct (display_logs_cases self t s) as [(w & -> & _)|[-> _]];
    [reflexivity|].
  now rewrite (proj1 (stop_scraping_fields _ s)).
Qed.

(** X24: for a duration above zero, the run that finds the duration passed
    while scraping is started ends the session, whatever the logs hold: it shows the completion,
    terminates the child if it still runs, and leaves a session that is
    neither started nor in the error state, with no child running and the
    start time kept. *)
Theorem duration_reached_ends_the_session
  (self : ScraperUI) (t : tick) (ss : session_state) (t0 : Z) :
  scraping_started ss = true -> scraping_error ss = false ->
  stop_clicked t = false -> 0 < duration self ->
  scraping_start_time ss = Some t0 ->
  duration self * 1000 <= clock t - t0 ->
  scraping_started (final (run self t (Some ss))) = false
  /\ scraping_error (final (run self t (Some ss))) = false
  /\ alive (final (run self t (Some ss))) = false
  /\ scraping_start_time (final (run self t (Some ss))) = Some t0
  /\ In (Success "Scraping completed!") (shown (run self t (Some ss)))
  /\ In (Warning "Duration reached, scraping completed.")
       (shown (run self t (Some ss)))
  /\ (alive (observe_child t ss) = true ->
      terminates_child (run self t (Some ss)) = true).
Proof.
  intros Hs He Hstop Hd Ht Hel. rewrite (run_no_stop self t (Some ss) Hstop).
  cbn [init_session].
  destruct (observe_child_fields t ss) as (Es & Ee & Et & _ & _).
  set (ss0 := observe_child t ss) in *.
  rewrite (main_area_running self t (ss0, frame) t0);
    [|cbn [fst]; first [congruence | lia]..].
  unfold watch. cbv zeta. apply Z.leb_le in Hel. rewrite Hel.
  cbn [final shown].
  match goal with
  | |- context [_display_logs self t ?s] => set (s2 := s)
  end.
  assert (H2 : fst s2 = ss0) by reflexivity. clearbody s2.
  set (s3 := _display_logs self t s2).
  set (s4 := draw [Success "Scraping completed!"] s3).
  destruct (stop_scraping_fields "Duration reached, scraping completed." s4)
    as [Ef Eo].
  rewrite stop_reason_duration in Ef.
  split; [now rewrite Ef|]. split; [now rewrite Ef|].
  split; [apply stop_not_alive|].
  split.
  { rewrite Ef. cbn [scraping_start_time]. subst s4 s3.
    rewrite fst_draw, display_logs_start_time, H2. congruence. }
  split.
  { rewrite Eo. apply in_or_app. left. subst s4. rewrite snd_draw.
    apply in_or_app. right. now left. }
  split.
  { rewrite Eo. apply in_or_app. right. apply in_or_app. right. now left. }
  intros Ha. unfold terminates_child. cbn [shown].
  apply existsb_exists. exists Terminate. split; [|reflexivity].
  rewrite Eo.
  destruct (display_logs_cases self t s2) as [(w & Ew & _)|[Ew _]].
  - apply in_or_app. right. apply in_or_app. left.
    subst s4 s3. rewrite fst_draw, Ew, fst_draw, H2, Ha. now left.
  - apply in_or_app. left. subst s4 s3. rewrite snd_draw, Ew.
    apply in_or_app. left. apply stop_scraping_terminates.
    rewrite H2. unfold alive in Ha.
    destruct (scraping_process ss0) as [[|]|]; congruence.
Qed.

Lemma duration_reached_ends_the_session_witness :
  scraping_started (final (run ui_60 (refresh_at 60000) (Some watching))) = false
  /\ scraping_error (final (run ui_60 (refresh_at 60000) (Some watching)))
     = false
  /\ alive (final (run ui_60 (refresh_at 60000) (Some watching))) = false
  /\ scraping_start_time (final (run ui_60 (refresh_at 60000) (Some watching)))
     = Some 0
  /\ In (Success "Scraping completed!")
       (shown (run ui_60 (refresh_at 60000) (Some watching)))
  /\ In (Warning "Duration reached, scraping completed.")
       (shown (run ui_60 (refresh_at 60000) (Some watching)))
  /\ (alive (observe_child (refresh_at 60000) watching) = true ->
      terminates_child (run ui_60 (refresh_at 60000) (Some watching)) = true).
Proof.
  apply (duration_reached_ends_the_session ui_60 (refresh_at 60000) watching 0);
    [reflexivity | reflexivity | reflexivity | cbn; lia | reflexivity
    | cbn; lia].
Defined.

(** *** A duration of zero *)

(** X25: with a duration of zero the dashboard fails as soon as scraping
    is started: the run of the click on Start spawns the scraper, records
    the session as started and ends in the division by zero of the
    progress ratio, and so does every later run without Stop, before the
    logs are read or the duration is compared: the child is not terminated
    by any of these runs. *)
Theorem zero_duration_breaks_the_dashboard
  (self : ScraperUI) (t : tick) (ss : option session_state) :
  duration self = 0 ->
  stop_clicked t = false -> start_clicked t = true ->
  scraping_started (init_session ss) = false ->
  scraping_error (init_session ss) = false ->
  run self t ss
  = ZeroDivisionError (mkSession true (Some (clock t)) (Some true) false)
      (frame ++ [Button "Start Scraping"; Popen; Success "Scraping started!"])
  /\ forall t',
       stop_clicked t' = false ->
       run self t' (Some (mkSession true (Some (clock t)) (Some true) false))
       = ZeroDivisionError
           (observe_child t'
              (mkSession true (Some (clock t)) (Some true) false))
           (frame ++ [Info "Scraping is running..."]).
Proof.
  intros Hd Hstop Hstart Hs He. split.
  - rewrite (run_no_stop self t ss Hstop).
    destruct (observe_child_fields t (init_session ss)) as (Es & Ee & _).
    unfold _handle_main_area. cbn [fst snd]. rewrite Es, Ee, Hs, He, Hstart.
    cbn [negb andb]. unfold _start_scraping.
    rewrite !fst_draw, !snd_draw. cbn [fst snd]. rewrite Ee, He.
    cbn [scraping_started scraping_error negb andb]. rewrite Hd.
    cbn [Z.eqb]. rewrite <- !app_assoc. reflexivity.
  - intros t' Hstop'. rewrite (run_no_stop self t' _ Hstop').
    cbn [init_session].
    destruct (observe_child_fields t'
                (mkSession true (Some (clock t)) (Some true) false))
      as (Es & Ee & _).
    unfold _handle_main_area. cbn [fst snd]. rewrite Es, Ee.
    cbn [scraping_started scraping_error negb andb].
    rewrite !fst_draw. cbn [fst]. rewrite Es, Ee.
    cbn [scraping_started scraping_error negb andb]. rewrite Hd.
    cbn [Z.eqb]. reflexivity.
Qed.

Lemma zero_duration_breaks_the_dashboard_witness :
  run (mkUI "logs" 0) (mkTick 1000 false false true false None) None
  = ZeroDivisionError (mkSession true (Some 1000) (Some true) false)
      (frame ++ [Button "Start Scraping"; Popen; Success "Scraping started!"])
  /\ forall t',
       stop_clicked t' = false ->
       run (mkUI "logs" 0) t'
         (Some (mkSession true (Some 1000) (Some true) false))
       = ZeroDivisionError
           (observe_child t' (mkSession true (Some 1000) (Some true) false))
           (frame ++ [Info "Scraping is running..."]).
Proof.
  apply (zero_duration_breaks_the_dashboard (mkUI "logs" 0)
           (mkTick 1000 false false true false None) None);
    reflexivity.
Defined.

(** *** Watching *)

(** X26: while scraping is started, before the duration has passed and
    with no error line in the newest log (or no log yet), a run without
    Stop only shows the progress and the logs: the session state is left as
    the run found it, nothing is terminated and nothing is spawned. *)
Theorem watching_leaves_the_session_as_it_is
  (self : ScraperUI) (t : tick) (ss : session_state) (t0 : Z) :
  scraping_started ss = true -> scraping_error ss = false ->
  stop_clicked t = false -> duration self <> 0 ->
  scraping_start_time ss = Some t0 ->
  clock t - t0 < duration self * 1000 ->
  (forall f, _get_most_recent_log_file t = Some f ->
             error_found (content f) = false) ->
  final (run self t (Some ss)) = observe_child t ss
  /\ terminates_child (run self t (Some ss)) = false
  /\ ~ In Popen (shown (run self t (Some ss)))
  /\ In (Info "Scraping is running...") (shown (run self t (Some ss))).
Proof.
  intros Hs He Hstop Hd Ht Hel Hok.
  assert (Hp : ~ In Popen (shown (run self t (Some ss)))).
  { rewrite (run_no_stop self t (Some ss) Hstop). cbn [init_session].
    intros H. apply main_area_spawns in H as [H|(H & _)].
    - cbn [snd frame In] in H. intuition discriminate.
    - cbn [fst] in H.
      rewrite (proj1 (observe_child_fields t ss)) in H. congruence. }
  assert (E : exists w,
             run self t (Some ss)
             = Rendered (observe_child t ss)
                 (((frame ++ [Info "Scraping is running..."])
                   ++ [Progress (clock t - t0) (duration self);
                       Write ("Time elapsed: "
                              ++ Py.str_int (Z.quot (clock t - t0) 1000)
                              ++ " seconds");
                       Write ("Time left: "
                              ++ Py.str_int
                                   (Z.quot
                                      (Z.max 0
                                         (duration self * 1000 - (clock t - t0)))
                                      1000)
                              ++ " seconds")]) ++ w)
             /\ existsb (fun u => match u with Terminate => true | _ => false end)
                  w = false).
  { rewrite (run_no_stop self t (Some ss) Hstop). cbn [init_session].
    destruct (observe_child_fields t ss) as (Es & Ee & Et & _ & _).
    rewrite (main_area_running self t (observe_child t ss, frame) t0);
      [|cbn [fst]; congruence..].
    unfold watch. cbv zeta. apply Z.leb_gt in Hel. rewrite Hel.
    match goal with
    | |- context [_display_logs self t ?s] =>
        destruct (display_logs_cases self t s)
          as [(w & Ew & Hw)|[_ (f & Ef & Ee')]]
    end; [|rewrite (Hok f Ef) in Ee'; discriminate Ee'].
    exists w. rewrite Ew. split; [reflexivity | exact Hw]. }
  destruct E as (w & E & Hw). rewrite E in Hp |- *. cbn [final shown] in *.
  split; [reflexivity|]. split; [|split; [exact Hp|]].
  - unfold terminates_child. cbn [shown]. rewrite !existsb_app, Hw.
    reflexivity.
  - apply in_or_app. left. apply in_or_app. left. apply in_or_app. right.
    now left.
Qed.

Lemma watching_leaves_the_session_as_it_is_witness :
  final (run ui_60 (mkTick 30000 true false false false (Some [old_log]))
           (Some watching))
  = observe_child (mkTick 30000 true false false false (Some [old_log])) watching
  /\ terminates_child
       (run ui_60 (mkTick 30000 true false false false (Some [old_log]))
          (Some watching)) = false
  /\ ~ In Popen
         (shown (run ui_60 (mkTick 30000 true false false false (Some [old_log]))
                   (Some watching)))
  /\ In (Info "Scraping is running...")
       (shown (run ui_60 (mkTick 30000 true false false false (Some [old_log]))
                 (Some watching))).
Proof.
  apply (watching_leaves_the_session_as_it_is ui_60
           (mkTick 30000 true false false false (Some [old_log])) watching 0);
    [reflexivity | reflexivity | reflexivity | discriminate | reflexivity
    | cbn; lia | ].
  intros f [= <-]. reflexivity.
Defined.

(** *** An old log with an error *)

(** X27: the log that the dashboard reads is the newest one of the
    directory, whichever run wrote it.  When that log has an error line at
    the moment of the click on Start (the log of an earlier session), the
    same run spawns the scraper, terminates it at once and enters the
    error state. *)
Theorem stale_error_log_stops_a_fresh_scraper
  (self : ScraperUI) (t : tick) (ss : option session_state) (f : log_file) :
  scraping_started (init_session ss) = false ->
  scraping_error (init_session ss) = false ->
  stop_clicked t = false -> start_clicked t = true ->
  0 < duration self ->
  _get_most_recent_log_file t = Some f ->
  error_found (content f) = true ->
  exists shown_before,
    run self t ss
    = Rendered (mkSession false (Some (clock t)) (Some false) true)
        (shown_before
         ++ [Terminate; WaitChild;
             Warning "Scraping stopped due to an ERROR in logs."])
    /\ In Popen shown_before.
Proof.
  intros Hs He Hstop Hstart Hd Ef Ee.
  rewrite (run_no_stop self t ss Hstop).
  destruct (observe_child_fields t (init_session ss)) as (Es & Ee0 & _).
  rewrite (main_area_start self t);
    [|cbn [fst]; congruence..|exact Hstart|lia].
  unfold watch. cbv zeta. rewrite Z.sub_diag.
  assert (L : (duration self * 1000 <=? 0) = false) by (apply Z.leb_gt; lia).
  rewrite L. rewrite (display_logs_error self t _ f Ef Ee).
  match goal with
  | |- context [_stop_scraping ?r ?s] =>
      destruct (stop_scraping_fields r s) as [E1 E2]
  end.
  rewrite E1, E2, stop_reason_error. rewrite !fst_draw, !snd_draw.
  cbn [fst snd alive scraping_process scraping_start_time].
  eexists. split; [reflexivity|].
  apply in_or_app. left. apply in_or_app. right. cbn [In]. auto.
Qed.

Lemma stale_error_log_stops_a_fresh_scraper_witness :
  exists shown_before,
    run ui_60 (mkTick 90000 false false true false (Some [old_log; error_log]))
      None
    = Rendered (mkSession false (Some 90000) (Some false) true)
        (shown_before
         ++ [Terminate; WaitChild;
             Warning "Scraping stopped due to an ERROR in logs."])
    /\ In Popen shown_before.
Proof.
  apply (stale_error_log_stops_a_fresh_scraper ui_60
           (mkTick 90000 false false true false (Some [old_log; error_log]))
           None error_log);
    [reflexivity | reflexivity | reflexivity | reflexivity | cbn; lia
    | reflexivity | reflexivity].
Defined.

Lemma error_in_log_locks_before_duration_witness :
  let r := run ui_60 (refresh_at 59000) (Some watching) in
  scraping_started (final r) = false
  /\ scraping_error (final r) = true
  /\ scraping_process (final r) <> Some true
  /\ (scraping_process watching = Some true ->
      child_exited (refresh_at 59000) = false ->
      terminates_child r = true)
  /\ forall ts, Forall (fun t' => stop_clicked t' = false) ts ->
       Forall (fun r' => offers_start r' = false
                         /\ scraping_started (final r') = false
                         /\ scraping_error (final r') = true)
         (runs ui_60 ts (Some (final r))).
Proof.
  apply (error_in_log_locks_before_duration ui_60 (refresh_at 59000) watching
           error_log);
    [reflexivity | reflexivity | reflexivity | discriminate
    | intros t0 [= <-]; cbn; lia | discriminate | reflexivity | reflexivity].
Defined.

End RunFacts.

